(** * FHIR Patient Manager: a shallow embedding of [fhripatient.js] and
    [update.js], and the properties of its validation and selection logic.

    JavaScript strings are sequences of UTF-16 code units.  The page is
    the table of its elements by id, as the code reads it with
    [getElementById].  The host (clock, date formats beyond the ISO
    date-only form, [fetch], [confirm]) is a parameter.  What an operation
    does to the outside (console lines, banners, displays, prompts,
    requests) is collected as a list of events, and exceptions are a
    completion of their own, caught by [try_catch].  Resources are typed
    as FHIR has them: a name's [given] is a list of strings, and so on;
    where the code takes what a server answers for a patient to load, the
    answer is also taken as any value of JSON. *)

From Stdlib Require Import ZArith NArith List String Ascii Bool Lia DecimalString.
Import ListNotations.

Set Implicit Arguments.

(* ------------------------------------------------------------------ *)
(** ** Strings *)

Definition codeunit := N.
Definition jsstring := list codeunit.

(** An ASCII literal of the source as a sequence of code units. *)
Definition lit (s : string) : jsstring :=
  map N_of_ascii (list_ascii_of_string s).
Arguments lit s%_string.

(** Truthiness of a string: every string but the empty one. *)
Definition truthy (s : jsstring) : bool :=
  match s with [] => false | _ :: _ => true end.

Definition jsstring_eqb (a b : jsstring) : bool :=
  if list_eq_dec N.eq_dec a b then true else false.

(** ECMAScript WhiteSpace and LineTerminator code points: what
    [String.prototype.trim] removes and what [\s] matches. *)
Definition is_whitespace (c : codeunit) : bool :=
  ((9 <=? c) && (c <=? 13) || (c =? 32) || (c =? 160) || (c =? 5760)
   || (8192 <=? c) && (c <=? 8202) || (c =? 8232) || (c =? 8233)
   || (c =? 8239) || (c =? 8287) || (c =? 12288) || (c =? 65279))%N.

(** [\d]: the ten ASCII digits. *)
Definition is_digit (c : codeunit) : bool := ((48 <=? c) && (c <=? 57))%N.

Fixpoint trimStart (s : jsstring) : jsstring :=
  match s with
  | c :: r => if is_whitespace c then trimStart r else s
  | [] => []
  end.

Definition trimEnd (s : jsstring) : jsstring := rev (trimStart (rev s)).

Definition trim (s : jsstring) : jsstring := trimEnd (trimStart s).

(** [!s.trim()] *)
Definition blank (s : jsstring) : bool := negb (truthy (trim s)).

(** A character that is not white space. *)
Definition visible (c : codeunit) : bool := negb (is_whitespace c).

(** [Array.prototype.join]. *)
Fixpoint join (sep : jsstring) (l : list jsstring) : jsstring :=
  match l with
  | [] => []
  | [x] => x
  | x :: r => x ++ sep ++ join sep r
  end.

(** A number in a template literal: integers print in decimal. *)
Definition Number_toString (z : Z) : jsstring :=
  lit (NilZero.string_of_int (Z.to_int z)).

(* ------------------------------------------------------------------ *)
(** ** Regular expressions

    The patterns of the source use character classes, concatenation,
    [?], [+] and bounded repetition, and are anchored at both ends. *)

Inductive regex : Type :=
| Never : regex
| Eps : regex
| Class : (codeunit -> bool) -> regex
| Cat : regex -> regex -> regex
| Alt : regex -> regex -> regex
| Star : regex -> regex.

(** [r?] *)
Definition Opt (r : regex) : regex := Alt r Eps.

(** [r+] *)
Definition Plus (r : regex) : regex := Cat r (Star r).

(** [r{n}] *)
Fixpoint Times (n : nat) (r : regex) : regex :=
  match n with
  | O => Eps
  | S k => Cat r (Times k r)
  end.

(** [r{0,n}] *)
Fixpoint Upto (n : nat) (r : regex) : regex :=
  match n with
  | O => Eps
  | S k => Opt (Cat r (Upto k r))
  end.

(** A single character. *)
Definition Chr (a : ascii) : regex := Class (N.eqb (N_of_ascii a)).
Arguments Chr a%_char.

(** The language of a pattern. *)
Inductive matches : regex -> jsstring -> Prop :=
| MEps : matches Eps []
| MClass : forall p c, p c = true -> matches (Class p) [c]
| MCat : forall r1 r2 s1 s2,
    matches r1 s1 -> matches r2 s2 -> matches (Cat r1 r2) (s1 ++ s2)
| MAltL : forall r1 r2 s, matches r1 s -> matches (Alt r1 r2) s
| MAltR : forall r1 r2 s, matches r2 s -> matches (Alt r1 r2) s
| MStarNil : forall r, matches (Star r) []
| MStarApp : forall r s1 s2,
    matches r s1 -> matches (Star r) s2 -> matches (Star r) (s1 ++ s2).

Fixpoint nullable (r : regex) : bool :=
  match r with
  | Never => false
  | Eps => true
  | Class _ => false
  | Cat r1 r2 => nullable r1 && nullable r2
  | Alt r1 r2 => nullable r1 || nullable r2
  | Star _ => true
  end.

Fixpoint deriv (c : codeunit) (r : regex) : regex :=
  match r with
  | Never => Never
  | Eps => Never
  | Class p => if p c then Eps else Never
  | Cat r1 r2 =>
      if nullable r1 then Alt (Cat (deriv c r1) r2) (deriv c r2)
      else Cat (deriv c r1) r2
  | Alt r1 r2 => Alt (deriv c r1) (deriv c r2)
  | Star r1 => Cat (deriv c r1) (Star r1)
  end.

(** [/^r$/.test(s)] *)
Fixpoint test (r : regex) (s : jsstring) : bool :=
  match s with
  | [] => nullable r
  | c :: s' => test (deriv c r) s'
  end.

(** [s.replace(/[...]/g, "")] for a character class. *)
Definition remove_all (p : codeunit -> bool) (s : jsstring) : jsstring :=
  filter (fun c => negb (p c)) s.

(** [s.replace(/\/$/, "")]: one slash at the very end is removed. *)
Definition remove_trailing_slash (s : jsstring) : jsstring :=
  match rev s with
  | c :: r => if (c =? 47)%N then rev r else s
  | [] => s
  end.

(* ------------------------------------------------------------------ *)
(** ** Dates

    A [Date] is its time value: milliseconds since the epoch, or NaN
    ([None]) for an invalid date. *)

Local Open Scope Z_scope.

Definition msPerDay : Z := 86400000.

(** Day number of the first day of year [y] (ECMAScript DayFromYear). *)
Definition DayFromYear (y : Z) : Z :=
  365 * (y - 1970) + (y - 1969) / 4 - (y - 1901) / 100 + (y - 1601) / 400.

Definition InLeapYear (y : Z) : bool :=
  (y mod 4 =? 0) && (negb (y mod 100 =? 0) || (y mod 400 =? 0)).

(** Days of month [m] (1 to 12) of year [y]. *)
Definition DaysInMonth (y m : Z) : Z :=
  if m =? 2 then (if InLeapYear y then 29 else 28)
  else if (m =? 4) || (m =? 6) || (m =? 9) || (m =? 11) then 30
  else 31.

(** Days of year [y] before its month [m]. *)
Definition DaysBeforeMonth (y m : Z) : Z :=
  fold_right Z.add 0
    (map (fun k => DaysInMonth y (Z.of_nat k)) (seq 1 (Z.to_nat (m - 1)))).

(** Day number (days since the epoch, UTC) of the calendar date
    [y]-[m]-[d]. *)
Definition MakeDay (y m d : Z) : Z :=
  DayFromYear y + DaysBeforeMonth y m + (d - 1).

(** Day number of a time value (ECMAScript Day). *)
Definition Day (t : Z) : Z := t / msPerDay.

Definition digit_value (c : codeunit) : Z := Z.of_N c - 48.

(** [y]-[m]-[d] is a date of the calendar. *)
Definition calendar_date (y m d : Z) : bool :=
  (1 <=? m) && (m <=? 12) && (1 <=? d) && (d <=? DaysInMonth y m).


(** The date-only form [YYYY-MM-DD] of the ECMAScript date-time string
    format, for a date that exists in the calendar. *)
Definition parse_iso_date (s : jsstring) : option (Z * Z * Z) :=
  match s with
  | [y1; y2; y3; y4; h1; m1; m2; h2; d1; d2] =>
      if forallb is_digit [y1; y2; y3; y4; m1; m2; d1; d2]
         && (h1 =? 45)%N && (h2 =? 45)%N
      then
        let y := 1000 * digit_value y1 + 100 * digit_value y2
                 + 10 * digit_value y3 + digit_value y4 in
        let m := 10 * digit_value m1 + digit_value m2 in
        let d := 10 * digit_value d1 + digit_value d2 in
        if calendar_date y m d then Some (y, m, d) else None
      else None
  | _ => None
  end.

(* ------------------------------------------------------------------ *)
(** ** Resources *)

Record HumanName : Type := {
  n_use : option jsstring;
  n_family : option jsstring;
  n_given : option (list jsstring)
}.

Record ContactPoint : Type := {
  c_system : jsstring;
  c_value : jsstring;
  c_use : jsstring
}.

Record Address : Type := {
  a_use : jsstring;
  a_type : jsstring;
  a_text : jsstring
}.

(** A Patient object; [None] is an absent property. *)
Record Patient : Type := {
  p_resourceType : option jsstring;
  p_id : option jsstring;
  p_active : option bool;
  p_name : option (list HumanName);
  p_gender : option jsstring;
  p_birthDate : option jsstring;
  p_telecom : option (list ContactPoint);
  p_address : option (list Address)
}.

Definition set_id (p : Patient) (v : option jsstring) : Patient :=
  {| p_resourceType := p_resourceType p; p_id := v; p_active := p_active p;
     p_name := p_name p; p_gender := p_gender p; p_birthDate := p_birthDate p;
     p_telecom := p_telecom p; p_address := p_address p |}.

Definition set_birthDate (p : Patient) (v : jsstring) : Patient :=
  {| p_resourceType := p_resourceType p; p_id := p_id p; p_active := p_active p;
     p_name := p_name p; p_gender := p_gender p; p_birthDate := Some v;
     p_telecom := p_telecom p; p_address := p_address p |}.

Definition set_address (p : Patient) (v : list Address) : Patient :=
  {| p_resourceType := p_resourceType p; p_id := p_id p; p_active := p_active p;
     p_name := p_name p; p_gender := p_gender p; p_birthDate := p_birthDate p;
     p_telecom := p_telecom p; p_address := Some v |}.

(** [patient.telecom.push(cp)] *)
Definition telecom_push (p : Patient) (cp : ContactPoint) : Patient :=
  {| p_resourceType := p_resourceType p; p_id := p_id p; p_active := p_active p;
     p_name := p_name p; p_gender := p_gender p; p_birthDate := p_birthDate p;
     p_telecom := Some (match p_telecom p with Some l => l | None => [] end
                        ++ [cp]);
     p_address := p_address p |}.

(** A property in a template literal. *)
Definition template (v : option jsstring) : jsstring :=
  match v with Some s => s | None => lit "undefined" end.

(** [v || ""] *)
Definition or_empty (v : option jsstring) : jsstring :=
  match v with Some s => s | None => [] end.

(** Utility function to extract patient name. *)
Definition getPatientName (patient : Patient) : jsstring :=
  match p_name patient with
  | Some (name :: _) =>
      let given :=
        match n_given name with Some g => join (lit " ") g | None => [] end in
      let family := or_empty (n_family name) in
      let full := trim (given ++ lit " " ++ family) in
      if truthy full then full else lit "Unknown"
  | _ => lit "Unknown"
  end.

(* ------------------------------------------------------------------ *)
(** ** The page, the host and the effects *)

(** The elements of the page by id: [None] when the page has no such
    element, and otherwise the element's value (of no consequence for an
    element that is not an input, such as the results pane). *)
Definition Document := string -> option jsstring.

(** [document.getElementById(id)?.value || ""] *)
Definition value_of (doc : Document) (id : string) : jsstring :=
  or_empty (doc id).

(** [document.getElementById(id).value = v] on an element that exists. *)
Definition set_value (doc : Document) (id : string) (v : jsstring)
  : Document :=
  fun k => if String.eqb k id then Some v else doc k.

Inductive Method : Type := GET | POST | PUT | DELETE.

Record Request : Type := {
  url : jsstring;
  method : Method;
  headers : list (string * string);
  body : option Patient
}.

Record Response : Type := {
  status : Z;
  statusText : jsstring;
  (** [response.json()]: the parsed body, or the message of the error it
      rejects with *)
  json : Patient + jsstring;
  (** [response.text()] *)
  text : jsstring
}.

(** [response.ok] *)
Definition ok (r : Response) : bool := (200 <=? status r) && (status r <=? 299).

Inductive FetchResult : Type :=
| Resolved (r : Response)
| Rejected (message : jsstring).

Record Host : Type := {
  (** [Date.parse] on strings outside the date-only ISO form
      (implementation-defined); [None] is NaN *)
  Date_parse_fallback : jsstring -> option Z;
  (** the time value of [new Date()] *)
  Date_now : Z;
  fetch : Request -> FetchResult;
  (** [window.confirm] *)
  confirm : jsstring -> bool
}.

(** The manager's fields and the part of the page it reads and writes. *)
Record Session : Type := {
  baseUrl : jsstring;
  patients : list Patient;
  selectedPatient : option Patient;
  document : Document;
  (** caption of the form's submit button, when the page has one *)
  submitButton : option jsstring
}.

Inductive Event : Type :=
| Console (type : string) (message : jsstring)
| Results (kind : string) (message : jsstring)
| DisplayFHIRResource (resource : Patient)
| DisplaySinglePatient (patient : Patient)
| Confirmed (message : jsstring) (answer : bool)
| Fetched (req : Request).

Inductive Completion (A : Type) : Type :=
| Normal (a : A)
| Throw (message : jsstring).
Arguments Throw {A} message.

Definition M (A : Type) : Type :=
  Session -> Completion A * Session * list Event.

Definition ret {A} (a : A) : M A := fun s => (Normal a, s, []).

Definition bind {A B} (m : M A) (f : A -> M B) : M B :=
  fun s =>
    match m s with
    | (Normal a, s1, e1) =>
        match f a s1 with (r, s2, e2) => (r, s2, e1 ++ e2) end
    | (Throw msg, s1, e1) => (Throw msg, s1, e1)
    end.

Definition throw {A} (message : jsstring) : M A :=
  fun s => (Throw message, s, []).

(** [try { body } catch (error) { handler(error.message) }] *)
Definition try_catch {A} (body : M A) (handler : jsstring -> M A) : M A :=
  fun s =>
    match body s with
    | (Normal a, s1, e1) => (Normal a, s1, e1)
    | (Throw msg, s1, e1) =>
        match handler msg s1 with (r, s2, e2) => (r, s2, e1 ++ e2) end
    end.

Definition emit (e : Event) : M unit := fun s => (Normal tt, s, [e]).

Definition gets {A} (f : Session -> A) : M A := fun s => (Normal (f s), s, []).

Definition modify (f : Session -> Session) : M unit :=
  fun s => (Normal tt, f s, []).

Declare Scope js_scope.
Delimit Scope js_scope with js.
Notation "x <- c1 ;; c2" := (bind c1 (fun x => c2))
  (at level 61, c1 at next level, right associativity) : js_scope.
Notation "c1 ;; c2" := (bind c1 (fun _ => c2))
  (at level 61, right associativity) : js_scope.
Local Open Scope js_scope.

Definition events {A} (r : Completion A * Session * list Event) : list Event :=
  snd r.

Definition final {A} (r : Completion A * Session * list Event) : Session :=
  snd (fst r).

Definition completion {A} (r : Completion A * Session * list Event)
  : Completion A :=
  fst (fst r).

Definition set_selectedPatient (v : option Patient) (s : Session) : Session :=
  {| baseUrl := baseUrl s; patients := patients s; selectedPatient := v;
     document := document s; submitButton := submitButton s |}.

Definition set_baseUrl (v : jsstring) (s : Session) : Session :=
  {| baseUrl := v; patients := patients s;
     selectedPatient := selectedPatient s;
     document := document s; submitButton := submitButton s |}.

Definition set_document (v : Document) (s : Session) : Session :=
  {| baseUrl := baseUrl s; patients := patients s;
     selectedPatient := selectedPatient s;
     document := v; submitButton := submitButton s |}.

Definition set_submitButton (v : option jsstring) (s : Session) : Session :=
  {| baseUrl := baseUrl s; patients := patients s;
     selectedPatient := selectedPatient s;
     document := document s; submitButton := v |}.

(* ------------------------------------------------------------------ *)
(** ** The patterns of the source *)

Definition is_1_9 (c : codeunit) : bool := ((49 <=? c) && (c <=? 57))%N.

(** [[^\s@]] *)
Definition not_space_or_at (c : codeunit) : bool :=
  negb (is_whitespace c || (c =? 64)%N).

(** [[\s\-\(\)]] *)
Definition phone_separator (c : codeunit) : bool :=
  is_whitespace c || (c =? 45)%N || (c =? 40)%N || (c =? 41)%N.

(** [/^[^\s@]+@[^\s@]+\.[^\s@]+$/] *)
Definition emailRegex : regex :=
  Cat (Plus (Class not_space_or_at))
    (Cat (Chr "@")
       (Cat (Plus (Class not_space_or_at))
          (Cat (Chr ".") (Plus (Class not_space_or_at))))).

(** [/^[\+]?[1-9][\d]{0,15}$/] *)
Definition phoneRegex : regex :=
  Cat (Opt (Chr "+")) (Cat (Class is_1_9) (Upto 15 (Class is_digit))).

(** [/^\d{4}-\d{2}-\d{2}$/] *)
Definition birthDateRegex : regex :=
  Cat (Times 4 (Class is_digit))
    (Cat (Chr "-")
       (Cat (Times 2 (Class is_digit))
          (Cat (Chr "-") (Times 2 (Class is_digit))))).

(* ------------------------------------------------------------------ *)
(** ** FHIRPatientManager *)

Definition accept_fhir : list (string * string) :=
  [("Accept", "application/fhir+json")]%string.

Definition content_fhir : list (string * string) :=
  [("Content-Type", "application/fhir+json");
   ("Accept", "application/fhir+json")]%string.

(** Utility function to log messages to both console and UI. *)
Definition log (message : jsstring) (type : string) : M unit :=
  emit (Console type message).

(** [if (element) emit], for an element looked up by id. *)
Definition when_present (id : string) (e : Event) : M unit :=
  element <- gets (fun s => document s id) ;;
  match element with
  | Some _ => emit e
  | None => ret tt
  end.

(** Display error messages. *)
Definition showError (message : jsstring) : M unit :=
  log (lit "ERROR: " ++ message) "error" ;;
  when_present "results" (Results "error" message).

(** Display success messages. *)
Definition showSuccess (message : jsstring) : M unit :=
  log (lit "SUCCESS: " ++ message) "success" ;;
  when_present "results" (Results "success" message).

(** Display FHIR resource JSON. *)
Definition displayFHIRResource (resource : Patient) : M unit :=
  when_present "fhirResource" (DisplayFHIRResource resource).

(** Display single patient. *)
Definition displaySinglePatient (patient : Patient) : M unit :=
  results <- gets (fun s => document s "results"%string) ;;
  match results with
  | None => ret tt
  | Some _ =>
      emit (DisplaySinglePatient patient) ;;
      log (lit "Displayed single patient details") "info"
  end.

Definition updateServerUrl : M unit :=
  urlInput <- gets (fun s => document s "fhirServerUrl"%string) ;;
  match urlInput with
  | Some value =>
      if truthy value then
        modify (set_baseUrl (remove_trailing_slash value)) ;;
        baseUrl' <- gets baseUrl ;;
        log (lit "FHIR Server URL updated to: " ++ baseUrl') "info"
      else ret tt
  | None => ret tt
  end.

Definition init : M unit :=
  log (lit "FHIR Patient Manager initialized") "info" ;;
  updateServerUrl.

(** [new FHIRPatientManager()] on a page. *)
Definition constructor (doc : Document) (button : option jsstring)
  : Completion unit * Session * list Event :=
  init {| baseUrl := lit "https://fhir-bootcamp.medblocks.com/fhir/";
          patients := [];
          selectedPatient := None;
          document := doc;
          submitButton := button |}.

(** Set selected patient as state. *)
Definition setSelectedPatient (patient : Patient) : M unit :=
  modify (set_selectedPatient (Some patient)) ;;
  log (lit "Selected patient set: " ++ getPatientName patient
       ++ lit " (ID: " ++ template (p_id patient) ++ lit ")") "info".

(** Get current selected patient. *)
Definition getSelectedPatient : M (option Patient) := gets selectedPatient.

(** Update submit button caption and functionality. *)
Definition updateSubmitButton (mode : string) : M unit :=
  submit <- gets submitButton ;;
  match submit with
  | Some _ =>
      if String.eqb mode "update"
      then modify (set_submitButton (Some (lit "Update Patient")))
      else modify (set_submitButton (Some (lit "Create Patient")))
  | None => ret tt
  end.

(** Clear selected patient. *)
Definition clearSelectedPatient : M unit :=
  selected <- gets selectedPatient ;;
  match selected with
  | Some p => log (lit "Cleared selected patient: " ++ getPatientName p) "info"
  | None => ret tt
  end ;;
  updateSubmitButton "create" ;;
  modify (set_selectedPatient None).

(** Validate FHIR Patient resource. *)
Record ValidationResult : Type := {
  isValid : bool;
  errors : list jsstring
}.

Definition truthy_opt (v : option jsstring) : bool :=
  match v with Some s => truthy s | None => false end.

Definition validatePatientResource (patient : Patient) : ValidationResult :=
  let errors := [] in
  let errors :=
    if negb (truthy_opt (p_resourceType patient))
       || negb (jsstring_eqb (or_empty (p_resourceType patient)) (lit "Patient"))
    then errors ++ [lit "Resource type must be " ++ [34%N] ++ lit "Patient"
                        ++ [34%N]]
    else errors in
  let errors :=
    if match p_name patient with
       | None => true
       | Some l => (List.length l =? 0)%nat
       end
    then errors ++ [lit "Patient must have at least one name"]
    else errors in
  let errors :=
    if truthy_opt (p_gender patient)
       && negb (existsb (jsstring_eqb (or_empty (p_gender patient)))
                  [lit "male"; lit "female"; lit "other"; lit "unknown"])
    then errors ++ [lit "Invalid gender value"]
    else errors in
  let errors :=
    if truthy_opt (p_birthDate patient)
       && negb (test birthDateRegex (or_empty (p_birthDate patient)))
    then errors ++ [lit "Birth date must be in YYYY-MM-DD format"]
    else errors in
  {| isValid := (List.length errors =? 0)%nat; errors := errors |}.

Section Manager.

Variable host : Host.

(** [Date.parse]: the date-only ISO form is UTC midnight of that day;
    other strings are left to the host. *)
Definition Date_parse (s : jsstring) : option Z :=
  match parse_iso_date s with
  | Some (y, m, d) => Some (MakeDay y m d * msPerDay)
  | None => Date_parse_fallback host s
  end.

(** [isNaN(date.getTime())] *)
Definition isNaN (t : option Z) : bool :=
  match t with None => true | Some _ => false end.

(** [a > b] on dates; false when either is NaN. *)
Definition Date_gt (a b : option Z) : bool :=
  match a, b with
  | Some x, Some y => y <? x
  | _, _ => false
  end.

(** Create a FHIR Patient resource from form data. *)
Definition createPatientResource : M (option Patient) :=
  doc <- gets document ;;
  let firstName := value_of doc "firstName" in
  let lastName := value_of doc "lastName" in
  let gender := value_of doc "gender" in
  let birthDate := value_of doc "birthDate" in
  let phone := value_of doc "phone" in
  let email := value_of doc "email" in
  let address := value_of doc "address" in
  if negb (truthy (trim firstName)) then
    showError (lit "First name cannot be null or empty") ;; ret None
  else if negb (truthy (trim lastName)) then
    showError (lit "Last name cannot be null or empty") ;; ret None
  else if negb (truthy (trim gender)) then
    showError (lit "Gender cannot be null or empty") ;; ret None
  else if negb (truthy (trim birthDate)) then
    showError (lit "Birth date cannot be null or empty") ;; ret None
  else
    let birthDateObj := Date_parse birthDate in
    let today := Some (Date_now host) in
    if truthy birthDate && isNaN birthDateObj then
      showError (lit "Birth date must be a valid date") ;; ret None
    else if truthy birthDate && Date_gt birthDateObj today then
      showError (lit "Birth date cannot be in the future") ;; ret None
    else if truthy (trim email) && negb (test emailRegex (trim email)) then
      showError (lit "Email must be in valid format (example@domain.com)") ;;
      ret None
    else if truthy (trim phone)
            && negb (test phoneRegex (remove_all phone_separator phone)) then
      showError
        (lit "Phone number must contain only digits and valid formatting characters") ;;
      ret None
    else
      let patient :=
        {| p_resourceType := Some (lit "Patient");
           p_id := None;
           p_active := Some true;
           p_name := Some [ {| n_use := Some (lit "official");
                               n_family := Some lastName;
                               n_given := Some [firstName] |} ];
           p_gender := Some gender;
           p_birthDate := None;
           p_telecom := Some [];
           p_address := None |} in
      let patient :=
        if truthy birthDate then set_birthDate patient birthDate
        else patient in
      let patient :=
        if truthy phone
        then telecom_push patient
               {| c_system := lit "phone"; c_value := phone;
                  c_use := lit "home" |}
        else patient in
      let patient :=
        if truthy email
        then telecom_push patient
               {| c_system := lit "email"; c_value := email;
                  c_use := lit "home" |}
        else patient in
      let patient :=
        if truthy address
        then set_address patient
               [ {| a_use := lit "home"; a_type := lit "both";
                    a_text := address |} ]
        else patient in
      ret (Some patient).

(** [await fetch(url, init)] *)
Definition do_fetch (req : Request) : M Response :=
  emit (Fetched req) ;;
  match fetch host req with
  | Resolved r => ret r
  | Rejected message => throw message
  end.

(** [await response.json()] *)
Definition response_json (r : Response) : M Patient :=
  match json r with
  | inl p => ret p
  | inr message => throw message
  end.

(** [confirm(message)] *)
Definition do_confirm (message : jsstring) : M bool :=
  let answer := confirm host message in
  emit (Confirmed message answer) ;; ret answer.

(** Create a new patient. *)
Definition createPatient : M unit :=
  try_catch
    (patientResource <- createPatientResource ;;
     match patientResource with
     | None => ret tt
     | Some patientResource =>
         log (lit "Creating patient...") "info" ;;
         displayFHIRResource patientResource ;;
         base <- gets baseUrl ;;
         response <- do_fetch {| url := base ++ lit "/Patient";
                                 method := POST;
                                 headers := content_fhir;
                                 body := Some patientResource |} ;;
         if ok response then
           createdPatient <- response_json response ;;
           let patientName := getPatientName createdPatient in
           showSuccess (lit "Patient created successfully: " ++ patientName
                        ++ lit " (ID: " ++ template (p_id createdPatient)
                        ++ lit ")") ;;
           setSelectedPatient createdPatient ;;
           updateSubmitButton "update" ;;
           displayFHIRResource createdPatient
         else
           let errorText := text response in
           throw (lit "HTTP " ++ Number_toString (status response)
                  ++ lit ": " ++ errorText)
     end)
    (fun message => showError (lit "Failed to create patient: " ++ message)).

(** Get patient by ID. *)
Definition getPatientById : M unit :=
  try_catch
    (doc <- gets document ;;
     let patientId := value_of doc "patientId" in
     if negb (truthy (trim patientId)) then
       showError (lit "Please enter a patient ID")
     else
       log (lit "Fetching patient with ID: " ++ patientId) "info" ;;
       base <- gets baseUrl ;;
       response <- do_fetch {| url := base ++ lit "/Patient/" ++ patientId;
                               method := GET;
                               headers := accept_fhir;
                               body := None |} ;;
       if ok response then
         patient <- response_json response ;;
         let patientName := getPatientName patient in
         showSuccess (lit "Patient found: " ++ patientName) ;;
         displaySinglePatient patient ;;
         displayFHIRResource patient
       else if status response =? 404 then
         showError (lit "Patient with ID " ++ patientId ++ lit " not found")
       else
         throw (lit "HTTP " ++ Number_toString (status response)
                ++ lit ": " ++ statusText response))
    (fun message => showError (lit "Failed to fetch patient: " ++ message)).

(** Delete a patient. *)
Definition deletePatient : M unit :=
  try_catch
    (doc <- gets document ;;
     let patientId := value_of doc "updatePatientId" in
     if negb (truthy (trim patientId)) then
       showError (lit "Please enter a patient ID to delete")
     else
       confirmDelete <-
         do_confirm (lit "Are you sure you want to delete patient "
                     ++ patientId ++ lit "? This action cannot be undone.") ;;
       if negb confirmDelete then
         log (lit "Delete operation cancelled by user") "info"
       else
         log (lit "Deleting patient with ID: " ++ patientId) "info" ;;
         base <- gets baseUrl ;;
         response <- do_fetch {| url := base ++ lit "/Patient/" ++ patientId;
                                 method := DELETE;
                                 headers := accept_fhir;
                                 body := None |} ;;
         if ok response || (status response =? 204) then
           showSuccess (lit "Patient " ++ patientId
                        ++ lit " deleted successfully") ;;
           clearSelectedPatient ;;
           modify (fun s =>
                     set_document (set_value (document s) "updatePatientId" [])
                       s)
         else if status response =? 404 then
           showError (lit "Patient with ID " ++ patientId ++ lit " not found")
         else
           throw (lit "HTTP " ++ Number_toString (status response)
                  ++ lit ": " ++ statusText response))
    (fun message => showError (lit "Failed to delete patient: " ++ message)).

(** Update the currently selected patient ([update.js]; the global
    [fhirPatient] is the session). *)
Definition updateSelectedPatient : M unit :=
  selected <- getSelectedPatient ;;
  match selected with
  | None =>
      showError
        (lit "No patient selected for update. Please load a patient first.")
  | Some selectedPatient =>
      try_catch
        (updatedPatientResource <- createPatientResource ;;
         match updatedPatientResource with
         | None => ret tt
         | Some updatedPatientResource =>
             let updatedPatientResource :=
               set_id updatedPatientResource (p_id selectedPatient) in
             log (lit "Updating patient " ++ template (p_id selectedPatient)
                  ++ lit "...") "info" ;;
             base <- gets baseUrl ;;
             response <-
               do_fetch {| url := base ++ lit "/Patient/"
                                  ++ template (p_id selectedPatient);
                           method := PUT;
                           headers := content_fhir;
                           body := Some updatedPatientResource |} ;;
             if ok response then
               updatedPatient <- response_json response ;;
               let patientName := getPatientName updatedPatient in
               setSelectedPatient updatedPatient ;;
               showSuccess (lit "Patient updated successfully: "
                            ++ patientName) ;;
               displayFHIRResource updatedPatient
             else
               let errorText := text response in
               throw (lit "HTTP " ++ Number_toString (status response)
                      ++ lit ": " ++ errorText)
         end)
        (fun message =>
           showError (lit "Failed to update patient: " ++ message))
  end.

(* ------------------------------------------------------------------ *)
(** ** The specification's vocabulary *)

(** The events of [showError]: the console line, and the banner when
    the page has a results pane. *)
Definition error_shown (doc : Document) (message : jsstring) : list Event :=
  Console "error" (lit "ERROR: " ++ message)
  :: match doc "results"%string with
     | Some _ => [Results "error" message]
     | None => []
     end.

(** The builder's checks in the order of the specification: what has to
    hold of the form, and the error shown when it does not. *)
Definition validation_sequence : list ((Document -> bool) * jsstring) :=
  [ (fun doc => negb (blank (value_of doc "firstName")),
     lit "First name cannot be null or empty");
    (fun doc => negb (blank (value_of doc "lastName")),
     lit "Last name cannot be null or empty");
    (fun doc => negb (blank (value_of doc "gender")),
     lit "Gender cannot be null or empty");
    (fun doc => negb (blank (value_of doc "birthDate")),
     lit "Birth date cannot be null or empty");
    (fun doc => negb (isNaN (Date_parse (value_of doc "birthDate"))),
     lit "Birth date must be a valid date");
    (fun doc => negb (Date_gt (Date_parse (value_of doc "birthDate"))
                        (Some (Date_now host))),
     lit "Birth date cannot be in the future");
    (fun doc => blank (value_of doc "email")
                || test emailRegex (trim (value_of doc "email")),
     lit "Email must be in valid format (example@domain.com)");
    (fun doc => blank (value_of doc "phone")
                || test phoneRegex
                     (remove_all phone_separator (value_of doc "phone")),
     lit "Phone number must contain only digits and valid formatting characters")
  ].

End Manager.

(** The error of the first check that does not hold, if any. *)
Fixpoint first_failure (checks : list ((Document -> bool) * jsstring))
  (doc : Document) : option jsstring :=
  match checks with
  | [] => None
  | (holds, message) :: rest =>
      if holds doc then first_failure rest doc else Some message
  end.

(** The requests an operation issued. *)
Definition requests (evs : list Event) : list Request :=
  flat_map (fun e => match e with Fetched r => [r] | _ => [] end) evs.

(** The lines an operation logged, by type (["error"], ["success"] or
    ["info"]). *)
Definition reported (type : string) (evs : list Event) : list jsstring :=
  flat_map (fun e => match e with
                     | Console t m => if String.eqb t type then [m] else []
                     | _ => []
                     end) evs.

(** An operation ended in failure: it showed an error. *)
Definition failed (evs : list Event) : bool :=
  match reported "error" evs with [] => false | _ :: _ => true end.

(** "Optional leading +, then a non-zero first digit, then zero to
    fifteen further digits." *)
Definition phone_shape (s : jsstring) : bool :=
  let digits :=
    match s with
    | c :: r => if (c =? 43)%N then r else s
    | [] => s
    end in
  match digits with
  | d :: rest =>
      is_1_9 d && forallb is_digit rest && (List.length rest <=? 15)%nat
  | [] => false
  end.

(** The resource the builder returns for a form that passes every
    check. *)
Definition assembled (doc : Document) : Patient :=
  {| p_resourceType := Some (lit "Patient");
     p_id := None;
     p_active := Some true;
     p_name := Some [ {| n_use := Some (lit "official");
                         n_family := Some (value_of doc "lastName");
                         n_given := Some [value_of doc "firstName"] |} ];
     p_gender := Some (value_of doc "gender");
     p_birthDate := Some (value_of doc "birthDate");
     p_telecom :=
       Some ((if truthy (value_of doc "phone")
              then [ {| c_system := lit "phone";
                        c_value := value_of doc "phone";
                        c_use := lit "home" |} ]
              else [])
             ++ (if truthy (value_of doc "email")
                 then [ {| c_system := lit "email";
                           c_value := value_of doc "email";
                           c_use := lit "home" |} ]
                 else []));
     p_address :=
       if truthy (value_of doc "address")
       then Some [ {| a_use := lit "home"; a_type := lit "both";
                      a_text := value_of doc "address" |} ]
       else None |}.



(** The rules of the standalone validator in the order of the
    specification: when a rule is violated, and what is reported. *)
Definition resource_rules : list ((Patient -> bool) * jsstring) :=
  [ (fun p => negb (jsstring_eqb (or_empty (p_resourceType p)) (lit "Patient")),
     lit "Resource type must be " ++ [34%N] ++ lit "Patient" ++ [34%N]);
    (fun p => match p_name p with Some (_ :: _) => false | _ => true end,
     lit "Patient must have at least one name");
    (fun p => truthy_opt (p_gender p)
              && negb (existsb (jsstring_eqb (or_empty (p_gender p)))
                         [lit "male"; lit "female"; lit "other";
                          lit "unknown"]),
     lit "Invalid gender value");
    (fun p => truthy_opt (p_birthDate p)
              && negb (test birthDateRegex (or_empty (p_birthDate p))),
     lit "Birth date must be in YYYY-MM-DD format") ].

(** Every violated rule's message, in the order of the rules. *)
Definition violations (rules : list ((Patient -> bool) * jsstring))
  (p : Patient) : list jsstring :=
  map snd (filter (fun rule => fst rule p) rules).

(** The resource of the specification, with the address present exactly
    when the form's address is not blank. *)
Definition resource_as_specified (doc : Document) (p : Patient) : Prop :=
  p_name p = Some [ {| n_use := Some (lit "official");
                       n_family := Some (value_of doc "lastName");
                       n_given := Some [value_of doc "firstName"] |} ]
  /\ p_telecom p =
       Some ((if truthy (value_of doc "phone")
              then [ {| c_system := lit "phone";
                        c_value := value_of doc "phone";
                        c_use := lit "home" |} ]
              else [])
             ++ (if truthy (value_of doc "email")
                 then [ {| c_system := lit "email";
                           c_value := value_of doc "email";
                           c_use := lit "home" |} ]
                 else []))
  /\ p_address p =
       (if blank (value_of doc "address") then None
        else Some [ {| a_use := lit "home"; a_type := lit "both";
                       a_text := value_of doc "address" |} ])
  /\ p_birthDate p = Some (value_of doc "birthDate").

(** Stripping spaces, hyphens and parentheses, and nothing else. *)
Definition strip_spaces_hyphens_parentheses (s : jsstring) : jsstring :=
  remove_all (fun c => (c =? 32) || (c =? 45) || (c =? 40) || (c =? 41))%N s.

(** The builder succeeds on a form. *)
Definition build_succeeds (host : Host) (s : Session) : Prop :=
  exists p, completion (createPatientResource host s) = Normal (Some p).

(** The builder fails on a form. *)
Definition build_fails (host : Host) (s : Session) : Prop :=
  completion (createPatientResource host s) = Normal None.

(** The phone rule read to the letter: every phone string, and spaces as
    the only blanks that are stripped. *)
Definition phone_rule_to_the_letter : Prop :=
  forall (host : Host) (s : Session),
    first_failure (firstn 7 (validation_sequence host)) (document s) = None ->
    (build_succeeds host s <->
     phone_shape
       (strip_spaces_hyphens_parentheses (value_of (document s) "phone"))
     = true).

(** The assembled resource read to the letter: address by blankness. *)
Definition resource_to_the_letter : Prop :=
  forall (host : Host) (s : Session) (p : Patient),
    completion (createPatientResource host s) = Normal (Some p) ->
    resource_as_specified (document s) p.

Definition msPerMinute : Z := 60000.

(** The day of the user's current date: the day on which the clock's
    reading falls on a calendar that is [offset] minutes ahead of UTC. *)
Definition local_Day (offset now : Z) : Z :=
  Day (now + offset * msPerMinute).


(* ------------------------------------------------------------------ *)
(** ** Example pages, hosts and sessions *)

(** A page given by the values of its elements. *)
Fixpoint page (fields : list (string * jsstring)) (id : string)
  : option jsstring :=
  match fields with
  | [] => None
  | (k, v) :: rest => if String.eqb id k then Some v else page rest id
  end.

(** A host whose clock shows [now] and whose network is [server]; it
    knows no date format but the ISO one and confirms every prompt. *)
Definition host_at (now : Z) (server : Request -> FetchResult) : Host :=
  {| Date_parse_fallback := fun _ => None;
     Date_now := now;
     fetch := server;
     confirm := fun _ => true |}.

(** Noon of 2 November 2026, UTC. *)
Definition noon_2026_11_02 : Z := 1793620800000.

Definition offline : Request -> FetchResult :=
  fun _ => Rejected (lit "Failed to fetch").

Definition answering (r : Response) : Request -> FetchResult :=
  fun _ => Resolved r.

Definition ada_fields : list (string * jsstring) :=
  [ ("firstName", lit "Ada"); ("lastName", lit "Lovelace");
    ("gender", lit "female"); ("birthDate", lit "1815-12-10");
    ("results", []); ("fhirResource", []) ]%string.

(** The resource a server returns for Ada once it is stored. *)
Definition ada_stored : Patient :=
  {| p_resourceType := Some (lit "Patient");
     p_id := Some (lit "42");
     p_active := None;
     p_name := Some [ {| n_use := None; n_family := Some (lit "Lovelace");
                         n_given := Some [lit "Ada"] |} ];
     p_gender := Some (lit "female");
     p_birthDate := Some (lit "1815-12-10");
     p_telecom := None;
     p_address := None |}.

Definition session_on (doc : Document) (selected : option Patient) : Session :=
  {| baseUrl := lit "https://fhir.example.org/baseR4";
     patients := [];
     selectedPatient := selected;
     document := doc;
     submitButton := Some (lit "Create Patient") |}.

Definition response_with (code : Z) (reason : jsstring)
  (content : Patient + jsstring) : Response :=
  {| status := code; statusText := reason; json := content; text := [] |}.

Definition with_field (id : string) (v : jsstring)
  (fields : list (string * jsstring)) : list (string * jsstring) :=
  (id, v) :: fields.

(** Ada's form with a first name of two spaces. *)
Definition blank_first_name : Session :=
  session_on (page (with_field "firstName" (lit "  ") ada_fields)) None.

(** Ada's form with the birth date of 3 November 2026. *)
Definition born_tomorrow : Session :=
  session_on (page (with_field "birthDate" (lit "2026-11-03") ada_fields))
    None.


(** Half past eleven in the evening of 2 November 2026, UTC: half past
    eight in the morning of 3 November in Tokyo. *)
Definition evening_2026_11_02 : Z := 1793662200000.

(** Four in the morning of 3 November 2026, UTC: eight in the evening of
    2 November in Los Angeles. *)
Definition early_2026_11_03 : Z := 1793678400000.

(** Minutes ahead of UTC, in November. *)
Definition tokyo : Z := 540.
Definition los_angeles : Z := -480.

(** Six in the evening of 2 November 2026, UTC. *)
Definition six_2026_11_02 : Z := 1793642400000.

(** A host at noon of that day that reads one string in the date-time
    form of ECMAScript as well. *)
Definition date_time_host : Host :=
  {| Date_parse_fallback :=
       fun s => if jsstring_eqb s (lit "2026-11-02T18:00:00Z")
                then Some six_2026_11_02 else None;
     Date_now := noon_2026_11_02;
     fetch := offline;
     confirm := fun _ => true |}.

(** Ada's form with a birth date of that day, at six in the evening. *)
Definition born_this_evening : Session :=
  session_on
    (page (with_field "birthDate" (lit "2026-11-02T18:00:00Z") ada_fields))
    None.


(** Ada's form, nobody selected. *)
Definition creating_ada : Session := session_on (page ada_fields) None.

(** Ada's form, the stored Ada (id 42) selected. *)
Definition editing_ada : Session :=
  session_on (page ada_fields) (Some ada_stored).

(** Ada (id 42) selected, and 7 in the id field of the delete button. *)
Definition deleting_7 : Session :=
  session_on (page (with_field "updatePatientId" (lit "7") ada_fields))
    (Some ada_stored).

(** Ada (id 42) selected, and 999 in the id field of the fetch button. *)
Definition fetching_999 : Session :=
  session_on (page (with_field "patientId" (lit "999") ada_fields))
    (Some ada_stored).

(** Ada's form with an address of one space. *)
Definition blank_address : Session :=
  session_on (page (with_field "address" (lit " ") ada_fields)) None.

(** Ada's form with the phone "1", TAB, "2". *)
Definition tabbed_phone : Session :=
  session_on
    (page (with_field "phone" (lit "1" ++ [9%N] ++ lit "2") ada_fields)) None.

(** Ada's form with a phone and an email. *)
Definition with_contacts : Session :=
  session_on
    (page (with_field "phone" (lit "+1 (555) 123-4567")
             (with_field "email" (lit "ada@example.org") ada_fields))) None.

(** A resource with a type and a name and nothing else. *)
Definition name_only : Patient :=
  {| p_resourceType := Some (lit "Patient");
     p_id := None;
     p_active := None;
     p_name := Some [ {| n_use := None; n_family := Some (lit "Lovelace");
                         n_given := None |} ];
     p_gender := None;
     p_birthDate := None;
     p_telecom := None;
     p_address := None |}.

(** Ada (id 42) selected, and a form with a first name of two spaces. *)
Definition editing_blank_first_name : Session :=
  session_on (page (with_field "firstName" (lit "  ") ada_fields))
    (Some ada_stored).

(** Hosts at noon of 2 November 2026: without network, and with a server
    that answers 500, 404 and 204. *)
Definition offline_host : Host := host_at noon_2026_11_02 offline.

Definition failing_host : Host :=
  host_at noon_2026_11_02
    (answering (response_with 500 (lit "Internal Server Error")
                  (inr (lit "Unexpected end of JSON input")))).

Definition missing_host : Host :=
  host_at noon_2026_11_02
    (answering (response_with 404 (lit "Not Found")
                  (inr (lit "Unexpected end of JSON input")))).


(* ------------------------------------------------------------------ *)
(** ** The rest of the manager *)

(** "One or more characters that are neither white space nor @, an @,
    one or more such characters, a dot, one or more such characters." *)
Definition email_shape (s : jsstring) : Prop :=
  exists user domain tld,
    s = user ++ [64%N] ++ domain ++ [46%N] ++ tld
    /\ user <> [] /\ domain <> [] /\ tld <> []
    /\ forallb not_space_or_at user = true
    /\ forallb not_space_or_at domain = true
    /\ forallb not_space_or_at tld = true.

(** Four digits, a hyphen, two digits, a hyphen, two digits. *)
Definition date_pattern (s : jsstring) : bool :=
  match s with
  | [y1; y2; y3; y4; h1; m1; m2; h2; d1; d2] =>
      forallb is_digit [y1; y2; y3; y4; m1; m2; d1; d2]
      && (h1 =? 45)%N && (h2 =? 45)%N
  | _ => false
  end.

(** One of the four gender codes of the validator. *)
Definition known_gender (g : jsstring) : bool :=
  existsb (jsstring_eqb g)
    [lit "male"; lit "female"; lit "other"; lit "unknown"].

(** [Array.prototype.forEach] with an effectful callback. *)
Fixpoint forEach {A} (l : list A) (f : A -> M unit) : M unit :=
  match l with
  | [] => ret tt
  | x :: rest => f x ;; forEach rest f
  end.



Section Page.

Variable host : Host.

(** The page itself is not part of the sources; what the code needs of
    it is taken as given. *)

(** What the element [id] holds once [v] is assigned to its value: an
    input may sanitise what it is given, a select keeps one of its
    options. *)
Variable stored : string -> jsstring -> jsstring.

(** What the page's elements hold after [form.reset()]. *)
Variable form_reset : Document -> Document.

(** The message of the TypeError for setting or reading a property of
    null, by property: the code sets [value] and reads [name]. *)
Variable null_error : string -> jsstring.

(** Year, month and day of the month of a time value in the host's
    local time ([getFullYear], [getMonth], [getDate]). *)
Variable local_date : Z -> Z * Z * Z.

(** [document.getElementById(id).value = v] *)
Definition assign (id : string) (v : jsstring) : M unit :=
  doc <- gets document ;;
  match doc id with
  | Some _ => modify (set_document (set_value doc id (stored id v)))
  | None => throw (null_error "value")
  end.

(** Populate form with patient data, the patient being a resource.
    [populateFormWithPatient_any] below takes any value. *)
Definition populateFormWithPatient (patient : Patient) : M unit :=
  match p_name patient with
  | Some (name :: _) =>
      match n_given name with
      | Some (first :: _) => assign "firstName" first
      | _ => ret tt
      end ;;
      if truthy_opt (n_family name)
      then assign "lastName" (or_empty (n_family name))
      else ret tt
  | _ => ret tt
  end ;;
  (if truthy_opt (p_gender patient)
   then assign "gender" (or_empty (p_gender patient))
   else ret tt) ;;
  (if truthy_opt (p_birthDate patient)
   then assign "birthDate" (or_empty (p_birthDate patient))
   else ret tt) ;;
  match p_telecom patient with
  | Some entries =>
      forEach entries
        (fun telecom =>
           if jsstring_eqb (c_system telecom) (lit "phone")
           then assign "phone" (c_value telecom)
           else if jsstring_eqb (c_system telecom) (lit "email")
           then assign "email" (c_value telecom)
           else ret tt)
  | None => ret tt
  end ;;
  match p_address patient with
  | Some (first :: _) => assign "address" (a_text first)
  | _ => ret tt
  end.

(** Load patient data for updating, from a server that answers with a
    resource: the reply is typed as FHIR has it.  [loadPatientForUpdate_any]
    below takes a reply of any shape, and is this on a resource. *)
Definition loadPatientForUpdate : M unit :=
  try_catch
    (doc <- gets document ;;
     let patientId := value_of doc "updatePatientId" in
     if negb (truthy (trim patientId)) then
       showError (lit "Please enter a patient ID to update")
     else
       log (lit "Loading patient " ++ patientId ++ lit " for update...")
         "info" ;;
       base <- gets baseUrl ;;
       response <- do_fetch host
                     {| url := base ++ lit "/Patient/" ++ patientId;
                        method := GET;
                        headers := accept_fhir;
                        body := None |} ;;
       if ok response then
         patient <- response_json response ;;
         populateFormWithPatient patient ;;
         setSelectedPatient patient ;;
         updateSubmitButton "update" ;;
         showSuccess (lit "Patient loaded for update: "
                      ++ getPatientName patient) ;;
         displayFHIRResource patient
       else if status response =? 404 then
         showError (lit "Patient with ID " ++ patientId ++ lit " not found")
       else
         throw (lit "HTTP " ++ Number_toString (status response)
                ++ lit ": " ++ statusText response))
    (fun message => showError (lit "Failed to load patient: " ++ message)).

(** [setSelectedPatient] on any argument: on null the field is set and
    the log line then reads a property of null. *)
Definition setSelectedPatient_of (patient : option Patient) : M unit :=
  modify (set_selectedPatient patient) ;;
  match patient with
  | Some p =>
      log (lit "Selected patient set: " ++ getPatientName p
           ++ lit " (ID: " ++ template (p_id p) ++ lit ")") "info"
  | None => throw (null_error "name")
  end.

(** Clear the patient form. *)
Definition clearForm : M unit :=
  form <- gets (fun s => document s "patientForm"%string) ;;
  match form with
  | Some _ =>
      modify (fun s => set_document (form_reset (document s)) s) ;;
      updateSubmitButton "create" ;;
      setSelectedPatient_of None ;;
      log (lit "Form cleared") "info"
  | None => ret tt
  end.


End Page.

(** A page whose elements hold what they are given. *)
Definition plain : string -> jsstring -> jsstring := fun _ v => v.

(** A page whose reset empties the seven fields of the form. *)
Definition emptied (doc : Document) : Document :=
  fun id =>
    if existsb (String.eqb id)
         ["firstName"; "lastName"; "gender"; "birthDate"; "phone"; "email";
          "address"]%string
    then match doc id with Some _ => Some [] | None => None end
    else doc id.

(** The messages of V8: one for setting a property of null, one for
    reading one. *)
Definition v8_null_error (property : string) : jsstring :=
  if String.eqb property "value"
  then lit "Cannot set properties of null (setting 'value')"
  else lit "Cannot read properties of null (reading '" ++ lit property
       ++ lit "')".

(** The message of V8 for reading a property of undefined. *)
Definition v8_undefined_error (property : string) : jsstring :=
  lit "Cannot read properties of undefined (reading '" ++ lit property
  ++ lit "')".

(** A string that does not begin with white space. *)
Definition starts_visible (s : jsstring) : bool :=
  match s with
  | [] => true
  | c :: _ => visible c
  end.

(** The error of the email check. *)
Definition email_error : jsstring :=
  lit "Email must be in valid format (example@domain.com)".

(** Ada's form with the email "ada@example.org" between spaces. *)
Definition padded_email : Session :=
  session_on (page (with_field "email" (lit " ada@example.org ") ada_fields))
    None.

(** Ada's form with the gender "Female" and a birth date the host reads
    in a format of its own. *)
Definition loose_form : Session :=
  session_on
    (page (with_field "gender" (lit "Female")
             (with_field "birthDate" (lit "Dec 10, 1815") ada_fields)))
    None.

(** A host that reads "Dec 10, 1815" as well. *)
Definition lenient_host : Host :=
  {| Date_parse_fallback :=
       fun s => if jsstring_eqb s (lit "Dec 10, 1815")
                then Some (-4861728000000) else None;
     Date_now := noon_2026_11_02;
     fetch := offline;
     confirm := fun _ => true |}.

(** A session whose page has a server URL field. *)
Definition with_server_url (value : jsstring) : Session :=
  session_on (page (with_field "fhirServerUrl" value ada_fields)) None.

(** The seven fields of the patient form. *)
Definition form_fields : list string :=
  ["firstName"; "lastName"; "gender"; "birthDate"; "phone"; "email";
   "address"]%string.

(** Two sessions that differ at most in what the fields of the form
    hold. *)
Definition same_but_form (s s' : Session) : Prop :=
  baseUrl s' = baseUrl s
  /\ patients s' = patients s
  /\ selectedPatient s' = selectedPatient s
  /\ submitButton s' = submitButton s
  /\ (forall id, document s' id = None <-> document s id = None)
  /\ (forall id, ~ In id form_fields -> document s' id = document s id).

(** A computation that shows nothing and changes at most the fields of
    the form. *)
Definition form_only {A} (m : M A) : Prop :=
  forall s, events (m s) = [] /\ same_but_form s (final (m s)).

(** Two pages whose forms hold the same. *)
Definition same_form (doc doc' : Document) : Prop :=
  forall id, In id form_fields -> value_of doc' id = value_of doc id.

(** The page has the seven fields of the form. *)
Definition has_form (doc : Document) : Prop :=
  forall id, In id form_fields -> doc id <> None.

Section Filling.

Variable stored : string -> jsstring -> jsstring.

(** The page after [v] is assigned to the element [id]. *)
Definition fill (doc : Document) (id : string) (v : jsstring) : Document :=
  set_value doc id (stored id v).

(** The page after [populateFormWithPatient] has run to its end. *)
Definition populated (patient : Patient) (doc : Document) : Document :=
  let doc :=
    match p_name patient with
    | Some (name :: _) =>
        let doc :=
          match n_given name with
          | Some (first :: _) => fill doc "firstName" first
          | _ => doc
          end in
        if truthy_opt (n_family name)
        then fill doc "lastName" (or_empty (n_family name))
        else doc
    | _ => doc
    end in
  let doc :=
    if truthy_opt (p_gender patient)
    then fill doc "gender" (or_empty (p_gender patient))
    else doc in
  let doc :=
    if truthy_opt (p_birthDate patient)
    then fill doc "birthDate" (or_empty (p_birthDate patient))
    else doc in
  let doc :=
    match p_telecom patient with
    | Some entries =>
        fold_left
          (fun doc telecom =>
             if jsstring_eqb (c_system telecom) (lit "phone")
             then fill doc "phone" (c_value telecom)
             else if jsstring_eqb (c_system telecom) (lit "email")
             then fill doc "email" (c_value telecom)
             else doc)
          entries doc
    | None => doc
    end in
  match p_address patient with
  | Some (first :: _) => fill doc "address" (a_text first)
  | _ => doc
  end.

End Filling.

(** The button's caption after [updateSubmitButton(mode)]. *)
Definition caption (text : jsstring) (button : option jsstring)
  : option jsstring :=
  match button with
  | Some _ => Some text
  | None => None
  end.

(** The request of [createPatient] for a form. *)
Definition create_request (s : Session) : Request :=
  {| url := baseUrl s ++ lit "/Patient";
     method := POST;
     headers := content_fhir;
     body := Some (assembled (document s)) |}.

(** The request for the resource with the id typed in an element. *)
Definition id_request (verb : Method) (field : string) (s : Session)
  : Request :=
  {| url := baseUrl s ++ lit "/Patient/" ++ value_of (document s) field;
     method := verb;
     headers := accept_fhir;
     body := None |}.

(** On a page that has the form, a computation ends normally, shows
    nothing, and leaves the page as a function of what it was. *)
Definition fills (m : M unit) (g : Document -> Document) : Prop :=
  forall s, has_form (document s) ->
            m s = (Normal tt, set_document (g (document s)) s, [])
            /\ has_form (g (document s)).

(** The page of Ada's form, emptied, with an id typed for loading. *)
Definition blank_page : Document :=
  page [ ("firstName", []); ("lastName", []); ("gender", []);
         ("birthDate", []); ("phone", []); ("email", []); ("address", []);
         ("updatePatientId", lit "42"); ("results", []);
         ("fhirResource", []); ("patientForm", []) ]%string.

(** The form as Grace Hopper left it, with a phone, and 42 typed for
    loading. *)
Definition stale_page : Document :=
  page [ ("firstName", lit "Grace"); ("lastName", lit "Hopper");
         ("gender", lit "female"); ("birthDate", lit "1906-12-09");
         ("phone", lit "+1 555 0100"); ("email", []); ("address", []);
         ("updatePatientId", lit "42"); ("results", []);
         ("fhirResource", []); ("patientForm", []) ]%string.

(** A page without a gender field. *)
Definition page_without_gender : Document :=
  page [ ("firstName", []); ("lastName", []); ("birthDate", []);
         ("phone", []); ("email", []); ("address", []);
         ("updatePatientId", lit "42"); ("results", []) ]%string.

(** A host whose server answers every request with the stored Ada. *)
Definition serving_ada : Host :=
  host_at noon_2026_11_02
    (answering (response_with 200 (lit "OK") (inl ada_stored))).


(* ------------------------------------------------------------------ *)
(** ** Searching *)

(** A search answer: a bundle whose entries may or may not carry a
    resource. *)
Record BundleEntry : Type := { e_resource : option Patient }.

Record Bundle : Type := { b_entry : option (list BundleEntry) }.

(** What a patient card shows. *)
Record Demographics : Type := {
  d_name : jsstring;
  d_gender : jsstring;
  d_birthDate : jsstring;
  d_id : jsstring;
  d_telecom : jsstring
}.

(** The events of the operations that list patients: those of the other
    operations, the notice that nothing was found, the list of cards, and
    the JSON of a bundle. *)
Inductive ListEvent : Type :=
| Core (e : Event)
| NoPatientsFound
| PatientList (cards : list Demographics)
| DisplayBundle (bundle : Bundle).

Definition L (A : Type) : Type :=
  Session -> Completion A * Session * list ListEvent.

(** An operation of the manager, among those that list. *)
Definition lift {A} (m : M A) : L A :=
  fun s => match m s with (c, s1, e) => (c, s1, map Core e) end.

Definition lret {A} (a : A) : L A := fun s => (Normal a, s, []).

Definition lbind {A B} (m : L A) (f : A -> L B) : L B :=
  fun s =>
    match m s with
    | (Normal a, s1, e1) =>
        match f a s1 with (r, s2, e2) => (r, s2, e1 ++ e2) end
    | (Throw msg, s1, e1) => (Throw msg, s1, e1)
    end.

Definition lthrow {A} (message : jsstring) : L A :=
  fun s => (Throw message, s, []).

Definition ltry_catch {A} (body : L A) (handler : jsstring -> L A) : L A :=
  fun s =>
    match body s with
    | (Normal a, s1, e1) => (Normal a, s1, e1)
    | (Throw msg, s1, e1) =>
        match handler msg s1 with (r, s2, e2) => (r, s2, e1 ++ e2) end
    end.

Definition lemit (e : ListEvent) : L unit := fun s => (Normal tt, s, [e]).

(** A value that is computed or thrown, among the operations. *)
Definition lcomplete {A} (c : Completion A) : L A := fun s => (c, s, []).

Declare Scope list_scope_js.
Delimit Scope list_scope_js with listing.
Notation "x <- c1 ;; c2" := (lbind c1 (fun x => c2))
  (at level 61, c1 at next level, right associativity) : list_scope_js.
Notation "c1 ;; c2" := (lbind c1 (fun _ => c2))
  (at level 61, right associativity) : list_scope_js.

(** What a listing operation showed, and the session it left. *)
Definition shown {A} (r : Completion A * Session * list ListEvent)
  : list ListEvent :=
  snd r.

Definition after {A} (r : Completion A * Session * list ListEvent)
  : Session :=
  snd (fst r).

(** The events that are not of the listing alone. *)
Definition core (evs : list ListEvent) : list Event :=
  flat_map (fun e => match e with Core c => [c] | _ => [] end) evs.

(** [array.map(f)] with a callback that may throw. *)
Fixpoint map_completing {A B} (f : A -> Completion B) (l : list A)
  : Completion (list B) :=
  match l with
  | [] => Normal []
  | x :: rest =>
      match f x with
      | Throw message => Throw message
      | Normal y =>
          match map_completing f rest with
          | Throw message => Throw message
          | Normal ys => Normal (y :: ys)
          end
      end
  end.

Section Listing.

Variable host : Host.

(** The message of the TypeError for reading a property of undefined,
    by property. *)
Variable undefined_error : string -> jsstring.

(** [String.prototype.toUpperCase] *)
Variable toUpperCase : jsstring -> jsstring.

(** [encodeURIComponent]: the encoded text, or the message of the
    URIError for a lone surrogate. *)
Variable encodeURIComponent : jsstring -> jsstring + jsstring.

(** [response.json()] of an answer that is a bundle: the bundle, or the
    message of the error it rejects with. *)
Variable json_bundle : Response -> Bundle + jsstring.

(** Utility function to format patient demographics. *)
Definition formatPatientDemographics (patient : option Patient)
  : Completion Demographics :=
  match patient with
  | None => Throw (undefined_error "name")
  | Some patient =>
      let name := getPatientName patient in
      let gender :=
        match p_gender patient with
        | Some (first :: rest) => toUpperCase [first] ++ rest
        | _ => lit "Unknown"
        end in
      let birthDate :=
        if truthy_opt (p_birthDate patient)
        then or_empty (p_birthDate patient) else lit "Unknown" in
      let id :=
        if truthy_opt (p_id patient)
        then or_empty (p_id patient) else lit "Unknown" in
      let telecom :=
        match p_telecom patient with
        | Some (first :: rest) =>
            join (lit ", ")
              (map (fun t => c_system t ++ lit ": " ++ c_value t)
                 (first :: rest))
        | _ => []
        end in
      Normal {| d_name := name; d_gender := gender; d_birthDate := birthDate;
                d_id := id; d_telecom := telecom |}
  end.

(** Display search results. *)
Definition displaySearchResults (bundle : Bundle) : L unit :=
  (results <- lift (gets (fun s => document s "results"%string)) ;;
   match results with
   | None => lret tt
   | Some _ =>
       match b_entry bundle with
       | None | Some [] => lemit NoPatientsFound
       | Some entries =>
           cards <- lcomplete
                      (map_completing
                         (fun entry =>
                            formatPatientDemographics (e_resource entry))
                         entries) ;;
           lemit (PatientList cards) ;;
           lift (log (lit "Displayed "
                      ++ Number_toString (Z.of_nat (List.length entries))
                      ++ lit " patients") "info")
       end
   end)%listing.

(** [displayFHIRResource] on a bundle. *)
Definition displayFHIRBundle (bundle : Bundle) : L unit :=
  (pane <- lift (gets (fun s => document s "fhirResource"%string)) ;;
   match pane with
   | Some _ => lemit (DisplayBundle bundle)
   | None => lret tt
   end)%listing.

(** [await response.json()] for a bundle. *)
Definition response_bundle (r : Response) : L Bundle :=
  match json_bundle r with
  | inl b => lret b
  | inr message => lthrow message
  end.

(** Search for patients by name. *)
Definition searchPatients : L unit :=
  ltry_catch
    (doc <- lift (gets document) ;;
     let searchTerm := value_of doc "searchTerm" in
     if negb (truthy (trim searchTerm)) then
       lift (showError (lit "Please enter a search term"))
     else
       lift (log (lit "Searching for patients with name: " ++ searchTerm)
               "info") ;;
       base <- lift (gets baseUrl) ;;
       encoded <- match encodeURIComponent searchTerm with
                  | inl text => lret text
                  | inr message => lthrow message
                  end ;;
       response <- lift (do_fetch host
                           {| url := base ++ lit "/Patient?name=" ++ encoded;
                              method := GET;
                              headers := accept_fhir;
                              body := None |}) ;;
       if ok response then
         bundle <- response_bundle response ;;
         displaySearchResults bundle ;;
         displayFHIRBundle bundle
       else
         lthrow (lit "HTTP " ++ Number_toString (status response)
                 ++ lit ": " ++ statusText response))%listing
    (fun message => lift (showError (lit "Search failed: " ++ message))).

(** Get all patients. *)
Definition getAllPatients : L unit :=
  ltry_catch
    (lift (log (lit "Fetching all patients...") "info") ;;
     base <- lift (gets baseUrl) ;;
     response <- lift (do_fetch host
                         {| url := base ++ lit "/Patient";
                            method := GET;
                            headers := accept_fhir;
                            body := None |}) ;;
     if ok response then
       bundle <- response_bundle response ;;
       displaySearchResults bundle ;;
       displayFHIRBundle bundle
     else
       lthrow (lit "HTTP " ++ Number_toString (status response)
               ++ lit ": " ++ statusText response))%listing
    (fun message =>
       lift (showError (lit "Failed to fetch patients: " ++ message))).

End Listing.

(** A page with a search term and the two panes. *)
Definition searching_for (term : jsstring) : Session :=
  session_on (page [ ("searchTerm", term); ("results", []);
                     ("fhirResource", []) ]%string)
    (Some ada_stored).

Definition empty_bundle : Bundle := {| b_entry := Some [] |}.

Definition ada_bundle : Bundle :=
  {| b_entry := Some [ {| e_resource := Some ada_stored |} ] |}.

Definition hollow_bundle : Bundle :=
  {| b_entry := Some [ {| e_resource := Some ada_stored |};
                       {| e_resource := None |} ] |}.

(** An encoder for terms of letters and digits. *)
Definition plain_encoder (s : jsstring) : jsstring + jsstring := inl s.

(** An upper case for the letters a to z. *)
Definition ascii_upper (s : jsstring) : jsstring :=
  map (fun c => if ((97 <=? c) && (c <=? 122))%N then (c - 32)%N else c) s.

(** A host whose server answers 200. *)
Definition answering_ok : Host :=
  host_at noon_2026_11_02
    (answering (response_with 200 (lit "OK")
                  (inr (lit "Unexpected token")))).

(** A host whose user declines every prompt. *)
Definition declining_host : Host :=
  {| Date_parse_fallback := fun _ => None;
     Date_now := noon_2026_11_02;
     fetch := offline;
     confirm := fun _ => false |}.

(** Ada's form, with a resource selected that has no id. *)
Definition editing_unsaved : Session :=
  session_on (page ada_fields) (Some (assembled (page ada_fields))).

(** The answers of a server of bundles. *)
Definition bundles (b : Bundle) : Response -> Bundle + jsstring :=
  fun _ => inl b.

(** The answer of a server that has the stored Ada. *)
Definition ada_answer : Response := response_with 200 (lit "OK") (inl ada_stored).

(** The emptied form, nobody selected, 42 typed for loading. *)
Definition loading_blank : Session := session_on blank_page None.

(** The form as Grace Hopper left it, nobody selected. *)
Definition loading_stale : Session := session_on stale_page None.

(** A page without a gender field, a patient without id selected. *)
Definition loading_without_gender : Session :=
  session_on page_without_gender (Some name_only).

(** The untouched url field of a page served with two slashes. *)
Definition two_slashes : Session :=
  with_server_url (lit "https://hapi.fhir.org/baseR4//").

(* ------------------------------------------------------------------ *)
(** ** Replies of any shape *)

(** [loadPatientForUpdate] hands what [response.json()] gives to the
    form, to the selection and to the log without looking at its shape,
    and the server need not answer with a resource.  Here the reply is
    any value of JSON, and the reads of properties, the calls and the
    conversions of the code are those of JavaScript on such a value.
    [loadPatientForUpdate] above is this on a reply that is a resource. *)

Declare Scope completion_scope.
Delimit Scope completion_scope with completion.
Declare Scope load_scope.
Delimit Scope load_scope with loading.

(** [c1] and then [c2], unless [c1] throws. *)
Definition and_then {A B} (c : Completion A) (f : A -> Completion B)
  : Completion B :=
  match c with
  | Normal a => f a
  | Throw message => Throw message
  end.

(** A completion as a computation. *)
Definition complete {A} (c : Completion A) : M A := fun s => (c, s, []).

Section Replies.

(** The numbers of JSON, which the model leaves to the engine. *)
Variable number : Type.

(** A value of JSON; [Undefined] is what reading an absent property
    gives.  The members of an object are its own properties, each key
    once. *)
#[warnings="-register-all"] Inductive Value : Type :=
| Undefined
| Null
| Boolean (b : bool)
| Number (n : number)
| Text (s : jsstring)
| Array (items : list Value)
| Object (members : list (jsstring * Value)).

(** What the engine does where the model leaves it open. *)
Record Engine : Type := {
  (** a number that is neither zero nor NaN *)
  number_truthy : number -> bool;
  (** [n > 0] *)
  number_positive : number -> bool;
  (** a number as a string *)
  number_toString : number -> jsstring;
  (** an array or an object as a string, or the message of the TypeError
      when it cannot be converted *)
  object_toString : Value -> Completion jsstring;
  (** [v > 0] for a string, an array or an object [v], or the message of
      the TypeError when it cannot be converted *)
  coerced_positive : Value -> Completion bool;
  (** the message of the TypeError for reading a property of null or of
      undefined *)
  unreadable : Value -> string -> jsstring;
  (** the message of the TypeError for calling what is no function *)
  not_a_function : string -> jsstring;
  (** what the element [id] is given when null is assigned to its value
      (the empty string for an input, "null" for a select) *)
  null_text : string -> jsstring
}.

Variable host : Host.
Variable stored : string -> jsstring -> jsstring.
Variable null_error : string -> jsstring.
Variable engine : Engine.

(** [response.json()] of an answer: the value, or the message of the
    error it rejects with. *)
Variable json_value : Response -> Value + jsstring.

Local Notation "x <- c1 ;; c2" := (and_then c1 (fun x => c2))
  (at level 61, c1 at next level, right associativity) : completion_scope.
(** ToBoolean *)
Definition truthy_value (v : Value) : bool :=
  match v with
  | Undefined | Null => false
  | Boolean b => b
  | Number n => number_truthy engine n
  | Text s => truthy s
  | Array _ | Object _ => true
  end.

(** The own property [key] of an object. *)
Definition own (key : jsstring) (members : list (jsstring * Value)) : Value :=
  match find (fun member => jsstring_eqb (fst member) key) members with
  | Some (_, v) => v
  | None => Undefined
  end.

(** [v.property], for the properties the code reads off a reply other
    than [length]: none of them is a property of a string, an array, a
    number or a boolean, or of the prototype of objects. *)
Definition member (v : Value) (property : string) : Completion Value :=
  match v with
  | Undefined | Null => Throw (unreadable engine v property)
  | Object members => Normal (own (lit property) members)
  | Boolean _ | Number _ | Text _ | Array _ => Normal Undefined
  end.

(** [v > 0] *)
Definition above_zero (v : Value) : Completion bool :=
  match v with
  | Undefined | Null => Normal false
  | Boolean b => Normal b
  | Number n => Normal (number_positive engine n)
  | Text _ | Array _ | Object _ => coerced_positive engine v
  end.

(** [v.length > 0] *)
Definition has_items (v : Value) : Completion bool :=
  match v with
  | Undefined | Null => Throw (unreadable engine v "length")
  | Text s => Normal (truthy s)
  | Array items => Normal (match items with [] => false | _ :: _ => true end)
  | Object members => above_zero (own (lit "length") members)
  | Boolean _ | Number _ => Normal false
  end.

(** [v && v.length > 0] *)
Definition present (v : Value) : Completion bool :=
  if truthy_value v then has_items v else Normal false.

(** [v[0]] *)
Definition first_of (v : Value) : Completion Value :=
  match v with
  | Undefined | Null => Throw (unreadable engine v "0")
  | Text s => Normal (match s with [] => Undefined | c :: _ => Text [c] end)
  | Array items =>
      Normal (match items with [] => Undefined | item :: _ => item end)
  | Object members => Normal (own (lit "0") members)
  | Boolean _ | Number _ => Normal Undefined
  end.

(** ToString *)
Definition to_string (v : Value) : Completion jsstring :=
  match v with
  | Undefined => Normal (lit "undefined")
  | Null => Normal (lit "null")
  | Boolean b => Normal (if b then lit "true" else lit "false")
  | Number n => Normal (number_toString engine n)
  | Text s => Normal s
  | Array _ | Object _ => object_toString engine v
  end.

(** An item of an array in [join]: nothing for null and undefined. *)
Definition item_string (v : Value) : Completion jsstring :=
  match v with
  | Undefined | Null => Normal []
  | _ => to_string v
  end.

(** [v.join(separator)], named [expression] in the source. *)
Definition call_join (expression : string) (v : Value) (separator : jsstring)
  : Completion jsstring :=
  match v with
  | Undefined | Null => Throw (unreadable engine v "join")
  | Array items =>
      (strings <- map_completing item_string items ;;
       Normal (join separator strings))%completion
  | Boolean _ | Number _ | Text _ | Object _ =>
      Throw (not_a_function engine expression)
  end.

(** [v === "text"] *)
Definition is_text (v : Value) (text : jsstring) : bool :=
  match v with
  | Text s => jsstring_eqb s text
  | _ => false
  end.

(** [document.getElementById(id).value = v]: the element is looked up,
    and [v] converted to a string when there is one. *)
Definition assign_value (id : string) (v : Value) : M unit :=
  doc <- gets document ;;
  match doc id with
  | Some _ =>
      text <- complete (match v with
                        | Null => Normal (null_text engine id)
                        | _ => to_string v
                        end) ;;
      modify (set_document (set_value doc id (stored id text)))
  | None => throw (null_error "value")
  end.

(** Populate form with patient data, whatever the patient is. *)
Definition populateFormWithPatient_any (patient : Value) : M unit :=
  names <- complete (member patient "name") ;;
  named <- complete (present names) ;;
  (if named then
     name <- complete (first_of names) ;;
     given <- complete (member name "given") ;;
     some <- complete (present given) ;;
     (if some then
        first <- complete (first_of given) ;;
        assign_value "firstName" first
      else ret tt) ;;
     family <- complete (member name "family") ;;
     if truthy_value family then assign_value "lastName" family else ret tt
   else ret tt) ;;
  gender <- complete (member patient "gender") ;;
  (if truthy_value gender then assign_value "gender" gender else ret tt) ;;
  birthDate <- complete (member patient "birthDate") ;;
  (if truthy_value birthDate then assign_value "birthDate" birthDate
   else ret tt) ;;
  telecom <- complete (member patient "telecom") ;;
  (if truthy_value telecom then
     match telecom with
     | Array entries =>
         forEach entries
           (fun telecom =>
              system <- complete (member telecom "system") ;;
              if is_text system (lit "phone") then
                value <- complete (member telecom "value") ;;
                assign_value "phone" value
              else if is_text system (lit "email") then
                value <- complete (member telecom "value") ;;
                assign_value "email" value
              else ret tt)
     | _ => throw (not_a_function engine "patient.telecom.forEach")
     end
   else ret tt) ;;
  address <- complete (member patient "address") ;;
  located <- complete (present address) ;;
  if located then
    first <- complete (first_of address) ;;
    text <- complete (member first "text") ;;
    assign_value "address" (if truthy_value text then text else Text [])
  else ret tt.

(** Utility function to extract patient name, whatever the patient is. *)
Definition getPatientName_any (patient : Value) : Completion jsstring :=
  (names <- member patient "name" ;;
   named <- present names ;;
   if named then
     name <- first_of names ;;
     given <- member name "given" ;;
     given <- (if truthy_value given
               then call_join "name.given.join" given (lit " ")
               else Normal []) ;;
     family <- member name "family" ;;
     family <- to_string (if truthy_value family then family else Text []) ;;
     let full := trim (given ++ lit " " ++ family) in
     Normal (if truthy full then full else lit "Unknown")
   else Normal (lit "Unknown"))%completion.

(** The line [setSelectedPatient] logs. *)
Definition selected_line (patient : Value) : Completion jsstring :=
  (name <- getPatientName_any patient ;;
   id <- member patient "id" ;;
   id <- to_string id ;;
   Normal (lit "Selected patient set: " ++ name ++ lit " (ID: " ++ id
           ++ lit ")"))%completion.

(** The manager, and the reply that a load has put in
    [this.selectedPatient], if it has put one there; until then the
    selection is that of the session. *)
Record Loaded : Type := {
  manager : Session;
  held : option Value
}.

(** The events of a load: those of the other operations, and the JSON of
    a reply. *)
Inductive LoadEvent : Type :=
| Plain (e : Event)
| DisplayReply (resource : Value).

Definition J (A : Type) : Type :=
  Loaded -> Completion A * Loaded * list LoadEvent.

Definition raise {A} (m : M A) : J A :=
  fun l =>
    match m (manager l) with
    | (r, s, e) => (r, {| manager := s; held := held l |}, map Plain e)
    end.

Definition jret {A} (a : A) : J A := fun l => (Normal a, l, []).

Definition jbind {A B} (m : J A) (f : A -> J B) : J B :=
  fun l =>
    match m l with
    | (Normal a, l1, e1) =>
        match f a l1 with (r, l2, e2) => (r, l2, e1 ++ e2) end
    | (Throw message, l1, e1) => (Throw message, l1, e1)
    end.

Definition jthrow {A} (message : jsstring) : J A :=
  fun l => (Throw message, l, []).

Definition jtry_catch {A} (body : J A) (handler : jsstring -> J A) : J A :=
  fun l =>
    match body l with
    | (Normal a, l1, e1) => (Normal a, l1, e1)
    | (Throw message, l1, e1) =>
        match handler message l1 with (r, l2, e2) => (r, l2, e1 ++ e2) end
    end.

Definition jemit (e : LoadEvent) : J unit := fun l => (Normal tt, l, [e]).

(** [this.selectedPatient = patient] *)
Definition hold (patient : Value) : J unit :=
  fun l => (Normal tt, {| manager := manager l; held := Some patient |}, []).

Local Notation "x <- c1 ;; c2" := (jbind c1 (fun x => c2))
  (at level 61, c1 at next level, right associativity) : load_scope.
Local Notation "c1 ;; c2" := (jbind c1 (fun _ => c2))
  (at level 61, right associativity) : load_scope.
(** Set selected patient as state, whatever the patient is. *)
Definition setSelectedPatient_any (patient : Value) : J unit :=
  (hold patient ;;
   line <- raise (complete (selected_line patient)) ;;
   raise (log line "info"))%loading.

(** [displayFHIRResource] on a reply. *)
Definition displayFHIRReply (resource : Value) : J unit :=
  (pane <- raise (gets (fun s => document s "fhirResource"%string)) ;;
   match pane with
   | Some _ => jemit (DisplayReply resource)
   | None => jret tt
   end)%loading.

(** [await response.json()] *)
Definition response_value (r : Response) : J Value :=
  match json_value r with
  | inl v => jret v
  | inr message => jthrow message
  end.

(** Load patient data for updating, whatever the server answers. *)
Definition loadPatientForUpdate_any : J unit :=
  jtry_catch
    (doc <- raise (gets document) ;;
     let patientId := value_of doc "updatePatientId" in
     if negb (truthy (trim patientId)) then
       raise (showError (lit "Please enter a patient ID to update"))
     else
       raise (log (lit "Loading patient " ++ patientId
                   ++ lit " for update...") "info") ;;
       base <- raise (gets baseUrl) ;;
       response <- raise (do_fetch host
                            {| url := base ++ lit "/Patient/" ++ patientId;
                               method := GET;
                               headers := accept_fhir;
                               body := None |}) ;;
       if ok response then
         patient <- response_value response ;;
         raise (populateFormWithPatient_any patient) ;;
         setSelectedPatient_any patient ;;
         raise (updateSubmitButton "update") ;;
         name <- raise (complete (getPatientName_any patient)) ;;
         raise (showSuccess (lit "Patient loaded for update: " ++ name)) ;;
         displayFHIRReply patient
       else if status response =? 404 then
         raise (showError (lit "Patient with ID " ++ patientId
                           ++ lit " not found"))
       else
         jthrow (lit "HTTP " ++ Number_toString (status response)
                 ++ lit ": " ++ statusText response))%loading
    (fun message =>
       raise (showError (lit "Failed to load patient: " ++ message))).

(** The events of the other operations among those of a load. *)
Definition ordinary (evs : list LoadEvent) : list Event :=
  flat_map (fun e => match e with Plain e => [e] | DisplayReply _ => [] end)
    evs.

Definition outcome {A} (r : Completion A * Loaded * list LoadEvent)
  : Completion A := fst (fst r).

Definition loaded {A} (r : Completion A * Loaded * list LoadEvent)
  : Loaded := snd (fst r).

Definition displayed {A} (r : Completion A * Loaded * list LoadEvent)
  : list LoadEvent := snd r.

(** A resource as a value of JSON: an absent property is no member. *)
Definition optional {A} (key : string) (f : A -> Value) (v : option A)
  : list (jsstring * Value) :=
  match v with
  | Some a => [(lit key, f a)]
  | None => []
  end.

Definition HumanName_value (name : HumanName) : Value :=
  Object (optional "use" Text (n_use name)
          ++ optional "family" Text (n_family name)
          ++ optional "given" (fun given => Array (map Text given))
               (n_given name)).

Definition ContactPoint_value (contact : ContactPoint) : Value :=
  Object [ (lit "system", Text (c_system contact));
           (lit "value", Text (c_value contact));
           (lit "use", Text (c_use contact)) ].

Definition Address_value (address : Address) : Value :=
  Object [ (lit "use", Text (a_use address));
           (lit "type", Text (a_type address));
           (lit "text", Text (a_text address)) ].

Definition Patient_value (patient : Patient) : Value :=
  Object (optional "resourceType" Text (p_resourceType patient)
          ++ optional "id" Text (p_id patient)
          ++ optional "active" Boolean (p_active patient)
          ++ optional "name" (fun names => Array (map HumanName_value names))
               (p_name patient)
          ++ optional "gender" Text (p_gender patient)
          ++ optional "birthDate" Text (p_birthDate patient)
          ++ optional "telecom"
               (fun entries => Array (map ContactPoint_value entries))
               (p_telecom patient)
          ++ optional "address"
               (fun entries => Array (map Address_value entries))
               (p_address patient)).


End Replies.

Arguments Undefined {number}.
Arguments Null {number}.
Arguments Boolean {number} b.
Arguments Text {number} s.
Arguments HumanName_value {number} name.
Arguments ContactPoint_value {number} contact.
Arguments Address_value {number} address.
Arguments Patient_value {number} patient.

(** An engine for the examples.  Its numbers are the integers.  The
    examples ask it for no conversion of an array or an object to a
    string, and for no comparison of a string, an array or an object with
    a number; it answers these with an error of its own. *)
Definition example_engine : Engine Z :=
  {| number_truthy := fun n => negb (n =? 0);
     number_positive := fun n => 0 <? n;
     number_toString := Number_toString;
     object_toString := fun _ => Throw (lit "conversion outside the examples");
     coerced_positive :=
       fun _ => Throw (lit "comparison outside the examples");
     unreadable :=
       fun v property =>
         lit "Cannot read properties of "
         ++ match v with Null => lit "null" | _ => lit "undefined" end
         ++ lit " (reading '" ++ lit property ++ lit "')";
     not_a_function :=
       fun expression => lit expression ++ lit " is not a function";
     null_text := fun _ => [] |}.

(** The reply [{name: [{given: Ada}]}] with the given name a string, not
    an array of strings. *)
Definition given_as_text : Value Z :=
  Object [ (lit "name", Array [ Object [ (lit "given", Text (lit "Ada")) ] ]) ].

(** A server of one reply. *)
Definition replying (v : Value Z) : Response -> Value Z + jsstring :=
  fun _ => inl v.

(** A server of resources: what [response.json()] gives is the resource. *)
Definition resources (r : Response) : Value Z + jsstring :=
  match json r with
  | inl p => inl (Patient_value p)
  | inr message => inr message
  end.

(** The emptied form with Ada selected, and 42 typed for loading. *)
Definition reloading : Session := session_on blank_page (Some ada_stored).

(** A load of the reply with the given name a string, with Ada
    selected. *)
Definition reloaded_given_as_text
  : Completion unit * Loaded Z * list (LoadEvent Z) :=
  loadPatientForUpdate_any answering_ok plain v8_null_error example_engine
    (replying given_as_text) {| manager := reloading; held := None |}.


(** A load of the stored Ada into a page without a gender field, with a
    patient without id selected. *)
Definition loaded_without_gender
  : Completion unit * Loaded Z * list (LoadEvent Z) :=
  loadPatientForUpdate_any serving_ada plain v8_null_error example_engine
    resources {| manager := loading_without_gender; held := None |}.

(* ================================================================== *)
(** * Properties *)

Arguments lit : simpl never.

(* ------------------------------------------------------------------ *)
(** ** The matcher decides the language of a pattern *)

Lemma matches_eps_inv (s : jsstring) : matches Eps s -> s = [].
Proof. intro H; inversion H; reflexivity. Qed.

Lemma matches_class_inv (p : codeunit -> bool) (s : jsstring) :
  matches (Class p) s -> exists c, s = [c] /\ p c = true.
Proof. intro H; inversion H; subst; eauto. Qed.

Lemma matches_cat_inv (r1 r2 : regex) (s : jsstring) :
  matches (Cat r1 r2) s ->
  exists s1 s2, s = s1 ++ s2 /\ matches r1 s1 /\ matches r2 s2.
Proof. intro H; inversion H; subst; eauto. Qed.

Lemma matches_alt_inv (r1 r2 : regex) (s : jsstring) :
  matches (Alt r1 r2) s -> matches r1 s \/ matches r2 s.
Proof. intro H; inversion H; subst; auto. Qed.

Lemma matches_cat_cons (r1 r2 : regex) (c : codeunit) (s1 s2 : jsstring) :
  matches r1 (c :: s1) -> matches r2 s2 -> matches (Cat r1 r2) (c :: s1 ++ s2).
Proof.
  intros H1 H2. change (c :: s1 ++ s2) with ((c :: s1) ++ s2).
  constructor; assumption.
Qed.

Lemma nullable_matches (r : regex) : nullable r = true <-> matches r [].
Proof.
  induction r; simpl.
  - split; intro H; [discriminate | inversion H].
  - split; intro H; [constructor | reflexivity].
  - split; intro H; [discriminate | inversion H].
  - split; intro H.
    + apply andb_true_iff in H as [H1 H2].
      change (@nil codeunit) with (@nil codeunit ++ []).
      constructor; [apply IHr1 | apply IHr2]; assumption.
    + apply matches_cat_inv in H as (s1 & s2 & E & H1 & H2).
      symmetry in E. apply app_eq_nil in E as [-> ->].
      apply andb_true_iff; split; [apply IHr1 | apply IHr2]; assumption.
  - split; intro H.
    + apply orb_true_iff in H as [H|H];
        [apply MAltL, IHr1 | apply MAltR, IHr2]; assumption.
    + apply orb_true_iff.
      apply matches_alt_inv in H as [H|H];
        [left; apply IHr1 | right; apply IHr2]; assumption.
  - split; intro H; [constructor | reflexivity].
Qed.

Lemma star_cons_inv (r : regex) (c : codeunit) (s : jsstring) :
  matches (Star r) (c :: s) ->
  exists s1 s2, s = s1 ++ s2 /\ matches r (c :: s1) /\ matches (Star r) s2.
Proof.
  intro H. remember (Star r) as e eqn:He. remember (c :: s) as w eqn:Hw.
  revert s Hw.
  induction H; intros t Hw; try discriminate.
  injection He as ->.
  destruct s1 as [|a s1].
  - simpl in Hw. apply IHmatches2; auto.
  - simpl in Hw. injection Hw as Ha Ht. subst a t.
    exists s1, s2. auto.
Qed.

Lemma cat_cons_inv (r1 r2 : regex) (c : codeunit) (s : jsstring) :
  matches (Cat r1 r2) (c :: s) ->
  (matches r1 [] /\ matches r2 (c :: s))
  \/ exists s1 s2, s = s1 ++ s2 /\ matches r1 (c :: s1) /\ matches r2 s2.
Proof.
  intro H. apply matches_cat_inv in H as (s1 & s2 & E & H1 & H2).
  destruct s1 as [|a s1]; simpl in E.
  - subst s2. left. auto.
  - injection E as Ha Ht. subst a s. right. eauto.
Qed.

Lemma deriv_matches (r : regex) :
  forall c s, matches (deriv c r) s <-> matches r (c :: s).
Proof.
  induction r; intros c s; simpl.
  - split; intro H; inversion H.
  - split; intro H; inversion H.
  - destruct (b c) eqn:Hb; split; intro H.
    + apply matches_eps_inv in H as ->. constructor; assumption.
    + apply matches_class_inv in H as (c' & E & _).
      injection E as _ ->. constructor.
    + inversion H.
    + apply matches_class_inv in H as (c' & E & Hc).
      injection E as -> _. congruence.
  - destruct (nullable r1) eqn:Hn.
    + split; intro H.
      * apply matches_alt_inv in H as [H|H].
        -- apply matches_cat_inv in H as (s1 & s2 & -> & H1 & H2).
           apply matches_cat_cons; [apply IHr1|]; assumption.
        -- change (c :: s) with ([] ++ c :: s).
           constructor; [apply nullable_matches | apply IHr2]; assumption.
      * apply cat_cons_inv in H as [[_ H]|(s1 & s2 & -> & H1 & H2)].
        -- apply MAltR, IHr2. assumption.
        -- apply MAltL. constructor; [apply IHr1|]; assumption.
    + split; intro H.
      * apply matches_cat_inv in H as (s1 & s2 & -> & H1 & H2).
        apply matches_cat_cons; [apply IHr1|]; assumption.
      * apply cat_cons_inv in H as [[H _]|(s1 & s2 & -> & H1 & H2)].
        -- apply nullable_matches in H. congruence.
        -- constructor; [apply IHr1|]; assumption.
  - split; intro H; apply matches_alt_inv in H as [H|H];
      solve [apply MAltL, IHr1; assumption | apply MAltR, IHr2; assumption].
  - split; intro H.
    + apply matches_cat_inv in H as (s1 & s2 & -> & H1 & H2).
      change (c :: s1 ++ s2) with ((c :: s1) ++ s2).
      constructor; [apply IHr|]; assumption.
    + apply star_cons_inv in H as (s1 & s2 & -> & H1 & H2).
      constructor; [apply IHr|]; assumption.
Qed.

Lemma test_matches (s : jsstring) :
  forall r, test r s = true <-> matches r s.
Proof.
  induction s as [|c s IH]; intro r; simpl.
  - apply nullable_matches.
  - rewrite IH. apply deriv_matches.
Qed.

(** [[c]{0,n}]: at most [n] characters, all of the class. *)
Lemma matches_upto_class (p : codeunit -> bool) (n : nat) :
  forall s, matches (Upto n (Class p)) s <->
            forallb p s = true /\ (List.length s <= n)%nat.
Proof.
  induction n as [|n IH]; intro s; simpl.
  - split.
    + intro H. apply matches_eps_inv in H as ->. simpl; auto.
    + intros [_ H]. destruct s; [constructor | simpl in H; lia].
  - unfold Opt. split.
    + intro H. apply matches_alt_inv in H as [H|H].
      * apply matches_cat_inv in H as (s1 & s2 & -> & H1 & H2).
        apply matches_class_inv in H1 as (c & -> & Hc).
        apply IH in H2 as [Hs Hl]. simpl. rewrite Hc, Hs. split; auto. lia.
      * apply matches_eps_inv in H as ->. simpl. split; auto. lia.
    + intros [Hs Hl]. destruct s as [|c s].
      * apply MAltR. constructor.
      * simpl in Hs, Hl. apply andb_true_iff in Hs as [Hc Hs].
        apply MAltL. change (c :: s) with ([c] ++ s).
        constructor; [constructor; assumption|].
        apply IH. split; [assumption | lia].
Qed.

(** The phone pattern accepts exactly the strings of the shape the
    specification describes. *)
Lemma phoneRegex_shape (s : jsstring) : test phoneRegex s = phone_shape s.
Proof.
  apply eq_true_iff_eq. rewrite test_matches. unfold phoneRegex, phone_shape.
  split.
  - intro H. apply matches_cat_inv in H as (s1 & s2 & -> & Hplus & Hrest).
    apply matches_cat_inv in Hrest as (t1 & t2 & -> & Hd & Hds).
    apply matches_class_inv in Hd as (d & -> & Hd).
    apply matches_upto_class in Hds as [Hds Hlen].
    assert (Hnot : (d =? 43)%N = false).
    { unfold is_1_9 in Hd. apply andb_true_iff in Hd as [Hd _].
      apply N.leb_le in Hd. apply N.eqb_neq. lia. }
    apply Nat.leb_le in Hlen.
    apply matches_alt_inv in Hplus as [Hplus|Hplus].
    + apply matches_class_inv in Hplus as (c & -> & Hc). simpl.
      unfold Chr in Hc. apply N.eqb_eq in Hc. subst c.
      change (N_of_ascii "+") with 43%N. simpl.
      rewrite Hd, Hds, Hlen. reflexivity.
    + apply matches_eps_inv in Hplus as ->. simpl.
      rewrite Hnot, Hd, Hds, Hlen. reflexivity.
  - intro H. destruct s as [|c s]; [discriminate|].
    destruct (c =? 43)%N eqn:Hc.
    + apply N.eqb_eq in Hc. subst c.
      destruct s as [|d rest]; [discriminate|].
      apply andb_true_iff in H as [H Hlen].
      apply andb_true_iff in H as [Hd Hds]. apply Nat.leb_le in Hlen.
      change (43%N :: d :: rest) with ([43%N] ++ [d] ++ rest).
      constructor.
      * apply MAltL. constructor. reflexivity.
      * constructor; [constructor; assumption|].
        apply matches_upto_class. auto.
    + apply andb_true_iff in H as [H Hlen].
      apply andb_true_iff in H as [Hd Hds]. apply Nat.leb_le in Hlen.
      change (c :: s) with ([] ++ [c] ++ s).
      constructor.
      * apply MAltR. constructor.
      * constructor; [constructor; assumption|].
        apply matches_upto_class. auto.
Qed.

(* ------------------------------------------------------------------ *)
(** ** The monad's equations *)

Lemma bind_gets {A B} (f : Session -> A) (k : A -> M B) (s : Session) :
  bind (gets f) k s = k (f s) s.
Proof.
  unfold bind, gets. destruct (k (f s) s) as [[r s2] e2]. reflexivity.
Qed.

Lemma showError_run (message : jsstring) (s : Session) :
  showError message s = (Normal tt, s, error_shown (document s) message).
Proof.
  unfold showError, log, when_present, bind, gets, emit, ret, error_shown.
  destruct (document s "results"%string); reflexivity.
Qed.

Lemma truthy_trim (s : jsstring) : truthy (trim s) = true -> truthy s = true.
Proof. destruct s; [discriminate | reflexivity]. Qed.

Lemma existsb_rev (f : codeunit -> bool) (s : jsstring) :
  existsb f (rev s) = existsb f s.
Proof.
  induction s as [|c r IH]; [reflexivity|].
  cbn [rev existsb]. rewrite existsb_app, IH. cbn [existsb].
  rewrite orb_false_r. apply orb_comm.
Qed.

Lemma trimStart_visible (s : jsstring) :
  existsb visible s = true ->
  existsb visible (trimStart s) = true.
Proof.
  induction s as [|c r IH]; [discriminate|]. cbn [existsb trimStart].
  unfold visible at 1. destruct (is_whitespace c) eqn:E; cbn [negb orb].
  - exact IH.
  - intros _. cbn [existsb]. unfold visible at 1. rewrite E. reflexivity.
Qed.

Lemma existsb_truthy (f : codeunit -> bool) (s : jsstring) :
  existsb f s = true -> truthy s = true.
Proof. destruct s; [discriminate | reflexivity]. Qed.

(** A string with a character that is not white space is not blank. *)
Lemma visible_not_blank (s : jsstring) :
  existsb visible s = true -> blank s = false.
Proof.
  intro H. unfold blank, trim, trimEnd. apply negb_false_iff.
  apply existsb_truthy with (f := visible).
  rewrite existsb_rev. apply trimStart_visible.
  rewrite existsb_rev. apply trimStart_visible. exact H.
Qed.


(* ------------------------------------------------------------------ *)
(** ** The builder *)

Section Properties.

Variable host : Host.

(** The builder leaves the session alone; it shows the error of the first
    check that fails and returns null, or shows nothing and returns the
    assembled resource. *)
Lemma createPatientResource_outcome (s : Session) :
  createPatientResource host s =
  match first_failure (validation_sequence host) (document s) with
  | Some message => (Normal None, s, error_shown (document s) message)
  | None => (Normal (Some (assembled (document s))), s, [])
  end.
Proof.
  cbv beta zeta delta [createPatientResource validation_sequence first_failure
                       bind gets ret showError log emit blank error_shown
                       when_present] iota.
  destruct (truthy (trim (value_of (document s) "firstName")));
    cbn [negb app];
    [|destruct (document s "results"%string); reflexivity].
  destruct (truthy (trim (value_of (document s) "lastName")));
    cbn [negb app];
    [|destruct (document s "results"%string); reflexivity].
  destruct (truthy (trim (value_of (document s) "gender")));
    cbn [negb app];
    [|destruct (document s "results"%string); reflexivity].
  destruct (truthy (trim (value_of (document s) "birthDate"))) eqn:Hb;
    cbn [negb app];
    [|destruct (document s "results"%string); reflexivity].
  unfold assembled. rewrite (truthy_trim _ Hb). cbn [andb].
  destruct (isNaN (Date_parse host (value_of (document s) "birthDate")));
    cbn [negb app];
    [destruct (document s "results"%string); reflexivity|].
  destruct (Date_gt (Date_parse host (value_of (document s) "birthDate"))
              (Some (Date_now host)));
    cbn [negb app];
    [destruct (document s "results"%string); reflexivity|].
  destruct (truthy (trim (value_of (document s) "email")));
    cbn [negb app andb orb];
    [destruct (test emailRegex (trim (value_of (document s) "email")));
     cbn [negb app];
     [|destruct (document s "results"%string); reflexivity] |];
    (destruct (truthy (trim (value_of (document s) "phone")));
     cbn [negb app andb orb];
     [destruct (test phoneRegex
                  (remove_all phone_separator (value_of (document s) "phone")));
      cbn [negb app];
      [|destruct (document s "results"%string); reflexivity] |]);
    destruct (truthy (value_of (document s) "phone"));
    destruct (truthy (value_of (document s) "email"));
    destruct (truthy (value_of (document s) "address")); reflexivity.
Qed.


(** Which outcome the builder has is decided by the first failing check. *)
Lemma build_fails_iff (s : Session) :
  build_fails host s <->
  first_failure (validation_sequence host) (document s) <> None.
Proof.
  unfold build_fails. rewrite createPatientResource_outcome.
  destruct (first_failure (validation_sequence host) (document s));
    cbn; split; congruence.
Qed.

Lemma build_succeeds_iff (s : Session) :
  build_succeeds host s <->
  first_failure (validation_sequence host) (document s) = None.
Proof.
  unfold build_succeeds. rewrite createPatientResource_outcome.
  destruct (first_failure (validation_sequence host) (document s)); cbn; split.
  - intros [p H]. discriminate.
  - discriminate.
  - reflexivity.
  - eauto.
Qed.

(* ------------------------------------------------------------------ *)
(** ** Running the operations *)

Ltac run_in H :=
  cbv beta zeta iota delta
    [try_catch bind ret throw emit gets modify log showError showSuccess
     when_present displayFHIRResource displaySinglePatient setSelectedPatient
     getSelectedPatient clearSelectedPatient updateSubmitButton
     do_fetch do_confirm response_json] in H;
  cbn [selectedPatient submitButton document baseUrl patients
       set_selectedPatient set_document set_submitButton set_baseUrl app
       negb] in H.

Ltac branch H :=
  run_in H;
  match type of H with
  | context [fetch host ?r] => destruct (fetch host r) eqn:?
  | context [confirm host ?m] => destruct (confirm host m) eqn:?
  | context [json ?r] => destruct (json r) eqn:?
  | context [if ?c then _ else _] =>
      let E := fresh "E" in
      destruct c eqn:E; try solve [vm_compute in E; discriminate E]
  | context [match document ?s ?id with _ => _ end] =>
      destruct (document s id) eqn:?
  | context [match submitButton ?s with _ => _ end] =>
      destruct (submitButton s) eqn:?
  | context [match selectedPatient ?s with _ => _ end] =>
      destruct (selectedPatient s) eqn:?
  end.

Ltac finish r Hr :=
  run_in Hr; subst r;
  cbv beta iota delta [events final completion fst snd];
  cbn [selectedPatient submitButton document baseUrl patients
       set_selectedPatient set_document set_submitButton set_baseUrl].

(** A form that fails validation: [createPatient] shows the error and
    does nothing else. *)
Lemma createPatient_invalid (s : Session) (message : jsstring) :
  first_failure (validation_sequence host) (document s) = Some message ->
  createPatient host s = (Normal tt, s, error_shown (document s) message).
Proof.
  intro Hf. unfold createPatient, try_catch. unfold bind at 1.
  rewrite createPatientResource_outcome, Hf.
  unfold error_shown. destruct (document s "results"%string); reflexivity.
Qed.

Lemma updateSelectedPatient_invalid (s : Session) (message : jsstring) :
  selectedPatient s <> None ->
  first_failure (validation_sequence host) (document s) = Some message ->
  updateSelectedPatient host s
  = (Normal tt, s, error_shown (document s) message).
Proof.
  intros Hsel Hf. unfold updateSelectedPatient, getSelectedPatient.
  rewrite bind_gets. destruct (selectedPatient s); [|congruence].
  unfold try_catch. unfold bind at 1.
  rewrite createPatientResource_outcome, Hf.
  unfold error_shown. destruct (document s "results"%string); reflexivity.
Qed.








(* ------------------------------------------------------------------ *)
(** ** The calendar *)











(* ------------------------------------------------------------------ *)
(** ** The builder's checks *)

(** C1. For every form, the builder applies its checks in the order
    first name non-blank, last name non-blank, gender non-blank, birth
    date non-blank, birth date valid, birth date not in the future, email
    shape (only for a non-blank email), phone shape (only for a non-blank
    phone); it shows the error of the first check that fails, and only
    that one, and returns null, and [createPatient] then issues no
    request and does nothing more.  In particular a form whose first
    name, last name, gender or birth date is blank after trimming fails. *)
Theorem first_failure_wins (s : Session) :
  createPatientResource host s =
    match first_failure (validation_sequence host) (document s) with
    | Some message => (Normal None, s, error_shown (document s) message)
    | None => (Normal (Some (assembled (document s))), s, [])
    end
  /\ (build_fails host s ->
      requests (events (createPatient host s)) = []
      /\ events (createPatient host s)
         = events (createPatientResource host s)
      /\ final (createPatient host s) = s)
  /\ (blank (value_of (document s) "firstName") = true
      \/ blank (value_of (document s) "lastName") = true
      \/ blank (value_of (document s) "gender") = true
      \/ blank (value_of (document s) "birthDate") = true ->
      build_fails host s).
Proof.
  split; [apply createPatientResource_outcome|]. split.
  - intro Hf. apply build_fails_iff in Hf.
    rewrite createPatientResource_outcome.
    destruct (first_failure (validation_sequence host) (document s))
      as [message|] eqn:E; [|congruence].
    rewrite (createPatient_invalid _ E). unfold error_shown.
    destruct (document s "results"%string); repeat split; reflexivity.
  - intro Hb. apply build_fails_iff.
    unfold validation_sequence, first_failure.
    destruct (blank (value_of (document s) "firstName")); [discriminate|].
    destruct (blank (value_of (document s) "lastName")); [discriminate|].
    destruct (blank (value_of (document s) "gender")); [discriminate|].
    destruct (blank (value_of (document s) "birthDate")); [discriminate|].
    destruct Hb as [Hb|[Hb|[Hb|Hb]]]; discriminate.
Qed.


(* ------------------------------------------------------------------ *)
(** ** The selection *)


(** C4. For every form, [updateSelectedPatient] with no patient selected
    shows "No patient selected for update" and does nothing else: no
    request is issued; and with a patient selected and a form on which
    the builder fails, no request is issued either and the selection is
    unchanged. *)
Theorem update_needs_selection_and_valid_form (s : Session) :
  (selectedPatient s = None ->
   updateSelectedPatient host s
   = (Normal tt, s,
      error_shown (document s)
        (lit "No patient selected for update. Please load a patient first."))
   /\ requests (events (updateSelectedPatient host s)) = [])
  /\ (selectedPatient s <> None -> build_fails host s ->
      requests (events (updateSelectedPatient host s)) = []
      /\ selectedPatient (final (updateSelectedPatient host s))
         = selectedPatient s
      /\ failed (events (updateSelectedPatient host s)) = true).
Proof.
  split.
  - intro Hsel. unfold updateSelectedPatient, getSelectedPatient.
    rewrite bind_gets, Hsel, showError_run. unfold error_shown.
    destruct (document s "results"%string); split; reflexivity.
  - intros Hsel Hf. apply build_fails_iff in Hf.
    destruct (first_failure (validation_sequence host) (document s))
      as [message|] eqn:E; [|congruence].
    rewrite (updateSelectedPatient_invalid _ Hsel E). unfold error_shown.
    destruct (document s "results"%string); repeat split; reflexivity.
Qed.


(** C8. [getPatientById] never changes the selection (nor anything else
    of the session), for every id and every answer; an answer 404 to a
    non-blank id shows the not-found error for that id, the selection
    being what it was. *)
Theorem getPatientById_keeps_selection (s : Session) :
  selectedPatient (final (getPatientById host s)) = selectedPatient s
  /\ final (getPatientById host s) = s
  /\ (forall r : Response,
        blank (value_of (document s) "patientId") = false ->
        fetch host {| url := baseUrl s ++ lit "/Patient/"
                             ++ value_of (document s) "patientId";
                      method := GET;
                      headers := accept_fhir;
                      body := None |} = Resolved r ->
        status r = 404 ->
        reported "error" (events (getPatientById host s))
        = [lit "ERROR: Patient with ID " ++ value_of (document s) "patientId"
           ++ lit " not found"]
        /\ reported "success" (events (getPatientById host s)) = []
        /\ selectedPatient (final (getPatientById host s))
           = selectedPatient s).
Proof.
  assert (Hfinal : final (getPatientById host s) = s).
  { remember (getPatientById host s) as res eqn:Hr.
    unfold getPatientById in Hr.
    repeat branch Hr; finish res Hr; reflexivity. }
  split; [rewrite Hfinal; reflexivity|]. split; [exact Hfinal|].
  intros r Hid Hfetch H404. rewrite Hfinal. unfold blank in Hid.
  remember (getPatientById host s) as res eqn:Hr.
  unfold getPatientById in Hr. run_in Hr.
  rewrite Hid in Hr. run_in Hr. rewrite Hfetch in Hr.
  run_in Hr. unfold ok in Hr. rewrite H404 in Hr.
  repeat branch Hr; finish res Hr; repeat split; reflexivity.
Qed.

End Properties.

(* ------------------------------------------------------------------ *)
(** ** The date the builder compares with *)

(** What the builder makes of the birth date 2026-11-03 on both sides of
    the date line: in Tokyo at half past eight in the morning of
    3 November it is refused, though it is that day's date there; in Los
    Angeles at eight in the evening of 2 November it is accepted, though
    it is the next day's date there. *)
Lemma boundary_on_local_calendars :
  (local_Day tokyo evening_2026_11_02 = MakeDay 2026 11 3
   /\ createPatientResource (host_at evening_2026_11_02 offline)
        born_tomorrow
      = (Normal None, born_tomorrow,
         error_shown (document born_tomorrow)
           (lit "Birth date cannot be in the future")))
  /\ (local_Day los_angeles early_2026_11_03 = MakeDay 2026 11 2
      /\ createPatientResource (host_at early_2026_11_03 offline)
           born_tomorrow
         = (Normal (Some (assembled (document born_tomorrow))),
            born_tomorrow, [])).
Proof.
  repeat split; vm_compute; reflexivity.
Qed.

(** A birth date with a time of day is compared as an instant: at noon
    of 2 November 2026 the birth date 2026-11-02T18:00:00Z, a string of
    that day's date, is refused. *)
Lemma time_of_day_is_compared :
  createPatientResource date_time_host born_this_evening
  = (Normal None, born_this_evening,
     error_shown (document born_this_evening)
       (lit "Birth date cannot be in the future")).
Proof. vm_compute. reflexivity. Qed.


(* ------------------------------------------------------------------ *)
(** ** The assembled resource *)

(** C6, as the code has it. For every form on which the builder
    succeeds, the resource has the single name [{use: "official", family:
    lastName, given: [firstName]}]; its telecom is the phone entry (when
    the phone is a non-empty string) followed by the email entry (when
    the email is a non-empty string), each with use "home"; its address
    is the singleton [{use: "home", type: "both", text: address}] exactly
    when the address is a non-empty string, a blank one of spaces
    included, and absent otherwise; the birth date is the form's, as
    typed. *)
Theorem assembled_resource (host : Host) (s : Session) (p : Patient) :
  completion (createPatientResource host s) = Normal (Some p) ->
  let doc := document s in
  p_name p = Some [ {| n_use := Some (lit "official");
                       n_family := Some (value_of doc "lastName");
                       n_given := Some [value_of doc "firstName"] |} ]
  /\ p_telecom p =
       Some ((if truthy (value_of doc "phone")
              then [ {| c_system := lit "phone";
                        c_value := value_of doc "phone";
                        c_use := lit "home" |} ]
              else [])
             ++ (if truthy (value_of doc "email")
                 then [ {| c_system := lit "email";
                           c_value := value_of doc "email";
                           c_use := lit "home" |} ]
                 else []))
  /\ p_address p =
       (if truthy (value_of doc "address")
        then Some [ {| a_use := lit "home"; a_type := lit "both";
                       a_text := value_of doc "address" |} ]
        else None)
  /\ p_birthDate p = Some (value_of doc "birthDate").
Proof.
  rewrite createPatientResource_outcome.
  destruct (first_failure (validation_sequence host) (document s));
    cbn; intro H; [discriminate|].
  injection H as <-. repeat split; reflexivity.
Qed.

(** C6 as stated fails: an address of one space is blank, and the
    resource has an address all the same. *)
Lemma blank_address_is_kept : ~ resource_to_the_letter.
Proof.
  intro H.
  destruct (H offline_host blank_address
              (assembled (document blank_address)) eq_refl)
    as (_ & _ & Haddress & _).
  vm_compute in Haddress. discriminate Haddress.
Qed.

(* ------------------------------------------------------------------ *)
(** ** The phone rule *)

Lemma first_failure_app (l1 l2 : list ((Document -> bool) * jsstring))
  (doc : Document) :
  first_failure (l1 ++ l2) doc =
  match first_failure l1 doc with
  | Some message => Some message
  | None => first_failure l2 doc
  end.
Proof.
  induction l1 as [|[holds message] l1 IH]; [reflexivity|].
  cbn [app first_failure]. destruct (holds doc); [exact IH | reflexivity].
Qed.

(** C7, as the code has it. For every form whose earlier checks pass: a
    blank phone is not checked; a phone that is not blank is accepted
    exactly when, after every white-space character (tabs and line breaks
    as well as spaces), hyphen and parenthesis is removed, what remains
    is an optional leading +, a non-zero first digit and zero to fifteen
    further digits.  "+1 (555) 123-4567" is accepted and "0123" is
    rejected. *)
Theorem phone_rule (host : Host) (s : Session) :
  first_failure (firstn 7 (validation_sequence host)) (document s) = None ->
  (blank (value_of (document s) "phone") = true -> build_succeeds host s)
  /\ (blank (value_of (document s) "phone") = false ->
      (build_succeeds host s <->
       phone_shape (remove_all phone_separator (value_of (document s) "phone"))
       = true))
  /\ phone_shape (remove_all phone_separator (lit "+1 (555) 123-4567")) = true
  /\ phone_shape (remove_all phone_separator (lit "0123")) = false.
Proof.
  intro Hearlier.
  assert (Hlast :
    first_failure (validation_sequence host) (document s)
    = if blank (value_of (document s) "phone")
         || phone_shape
              (remove_all phone_separator (value_of (document s) "phone"))
      then None
      else Some (lit "Phone number must contain only digits and valid formatting characters")).
  { rewrite <- (firstn_skipn 7 (validation_sequence host)).
    rewrite first_failure_app, Hearlier.
    cbn [skipn validation_sequence first_failure].
    rewrite phoneRegex_shape. reflexivity. }
  split; [|split; [|split; reflexivity]].
  - intro Hb. apply build_succeeds_iff. rewrite Hlast, Hb. reflexivity.
  - intro Hb. rewrite build_succeeds_iff, Hlast, Hb. cbn [orb].
    destruct (phone_shape _); split; congruence.
Qed.

(** C7 as stated fails: the phone "1", TAB, "2" is accepted, and with
    only spaces, hyphens and parentheses removed it has not the shape. *)
Lemma tab_is_stripped_too : ~ phone_rule_to_the_letter.
Proof.
  intro H.
  destruct (H offline_host tabbed_phone eq_refl)
    as [Hshape _].
  assert (Hok : build_succeeds offline_host tabbed_phone).
  { eexists. vm_compute. reflexivity. }
  apply Hshape in Hok. vm_compute in Hok. discriminate Hok.
Qed.

(* ------------------------------------------------------------------ *)
(** ** The server URL *)

Lemma remove_trailing_slash_slash (s : jsstring) :
  remove_trailing_slash (s ++ [47%N]) = s.
Proof.
  unfold remove_trailing_slash. rewrite rev_app_distr. cbn.
  apply rev_involutive.
Qed.

(** A server URL typed in the page is stored without its last slash. *)
Lemma updateServerUrl_strips (s : Session) (value : jsstring) :
  document s "fhirServerUrl"%string = Some value ->
  truthy value = true ->
  baseUrl (final (updateServerUrl s)) = remove_trailing_slash value.
Proof.
  intros Hdoc Hvalue. unfold updateServerUrl. rewrite bind_gets, Hdoc, Hvalue.
  reflexivity.
Qed.

(** Without a server URL in the page, the manager keeps its default. *)
Lemma constructor_default (doc : Document) (button : option jsstring) :
  doc "fhirServerUrl"%string = None \/ doc "fhirServerUrl"%string = Some [] ->
  baseUrl (final (constructor doc button))
  = lit "https://fhir-bootcamp.medblocks.com/fhir/".
Proof.
  intro H. unfold constructor, init, updateServerUrl, log, bind, gets, emit.
  cbn [document]. destruct H as [-> | ->]; reflexivity.
Qed.

(** C9, at the page without a server URL field: the manager starts with
    the default URL, whose trailing slash has not been stripped, and its
    requests go to a path with a doubled slash. *)
Theorem default_baseUrl_keeps_slash :
  baseUrl (final (constructor (page ada_fields) None))
  = lit "https://fhir-bootcamp.medblocks.com/fhir/"
  /\ remove_trailing_slash (baseUrl (final (constructor (page ada_fields) None)))
     = lit "https://fhir-bootcamp.medblocks.com/fhir"
  /\ map url
       (requests
          (events
             (createPatient offline_host
                (final (constructor (page ada_fields) None)))))
     = [lit "https://fhir-bootcamp.medblocks.com/fhir//Patient"].
Proof. repeat split; vm_compute; reflexivity. Qed.

(* ------------------------------------------------------------------ *)
(** ** The standalone validator *)

Lemma falsy_is_not_Patient (v : option jsstring) :
  truthy_opt v = false -> jsstring_eqb (or_empty v) (lit "Patient") = false.
Proof. destruct v as [[|c r]|]; [reflexivity | discriminate | reflexivity]. Qed.

Lemma in_optional (c : bool) (m x : jsstring) :
  In x (if c then [m] else []) -> c = true /\ m = x.
Proof. destruct c; cbn; [intros [H|[]]; auto | intros []]. Qed.

(** The errors of the validator, rule by rule. *)
Lemma validator_errors_by_rule (p : Patient) :
  errors (validatePatientResource p) =
  (if negb (jsstring_eqb (or_empty (p_resourceType p)) (lit "Patient"))
   then [lit "Resource type must be " ++ [34%N] ++ lit "Patient" ++ [34%N]]
   else [])
  ++ (if match p_name p with Some (_ :: _) => false | _ => true end
      then [lit "Patient must have at least one name"] else [])
  ++ (if truthy_opt (p_gender p)
         && negb (existsb (jsstring_eqb (or_empty (p_gender p)))
                    [lit "male"; lit "female"; lit "other"; lit "unknown"])
      then [lit "Invalid gender value"] else [])
  ++ (if truthy_opt (p_birthDate p)
         && negb (test birthDateRegex (or_empty (p_birthDate p)))
      then [lit "Birth date must be in YYYY-MM-DD format"] else []).
Proof.
  unfold validatePatientResource. cbn [errors app].
  assert (H1 :
    negb (truthy_opt (p_resourceType p))
    || negb (jsstring_eqb (or_empty (p_resourceType p)) (lit "Patient"))
    = negb (jsstring_eqb (or_empty (p_resourceType p)) (lit "Patient"))).
  { destruct (truthy_opt (p_resourceType p)) eqn:E; [reflexivity|].
    rewrite (falsy_is_not_Patient _ E). reflexivity. }
  rewrite H1.
  assert (H2 :
    match p_name p with
    | Some l => (List.length l =? 0)%nat
    | None => true
    end
    = match p_name p with Some (_ :: _) => false | _ => true end).
  { destruct (p_name p) as [[|n l]|]; reflexivity. }
  rewrite H2.
  set (c1 := negb (jsstring_eqb (or_empty (p_resourceType p)) (lit "Patient"))).
  set (c2 := match p_name p with Some (_ :: _) => false | _ => true end).
  set (c3 := truthy_opt (p_gender p) && _).
  set (c4 := truthy_opt (p_birthDate p) && _).
  destruct c1, c2, c3, c4; reflexivity.
Qed.

Lemma validator_errors (p : Patient) :
  errors (validatePatientResource p) = violations resource_rules p.
Proof.
  rewrite validator_errors_by_rule.
  unfold violations, resource_rules. cbn [filter map fst snd].
  set (c1 := negb (jsstring_eqb (or_empty (p_resourceType p)) (lit "Patient"))).
  set (c2 := match p_name p with Some (_ :: _) => false | _ => true end).
  set (c3 := truthy_opt (p_gender p) && _).
  set (c4 := truthy_opt (p_birthDate p) && _).
  destruct c1, c2, c3, c4; reflexivity.
Qed.

(** C10. For every patient object, the validator reports every violated
    rule, in the order resource type, name, gender, birth date, and none
    hides another; [isValid] is true exactly when no error is reported;
    the gender and birth date rules apply only to a gender or a birth
    date that is present and not empty, so that a resource of type
    "Patient" with a name, no gender and no birth date is valid. *)
Theorem validator_accumulates (p : Patient) :
  errors (validatePatientResource p) = violations resource_rules p
  /\ (isValid (validatePatientResource p) = true <->
      errors (validatePatientResource p) = [])
  /\ (truthy_opt (p_gender p) = false ->
      ~ In (lit "Invalid gender value") (errors (validatePatientResource p)))
  /\ (truthy_opt (p_birthDate p) = false ->
      ~ In (lit "Birth date must be in YYYY-MM-DD format")
          (errors (validatePatientResource p)))
  /\ (p_resourceType p = Some (lit "Patient") ->
      (exists n rest, p_name p = Some (n :: rest)) ->
      p_gender p = None -> p_birthDate p = None ->
      isValid (validatePatientResource p) = true
      /\ errors (validatePatientResource p) = []).
Proof.
  assert (Hvalid : isValid (validatePatientResource p) = true <->
                   errors (validatePatientResource p) = []).
  { change (isValid (validatePatientResource p))
      with (List.length (errors (validatePatientResource p)) =? 0)%nat.
    destruct (errors (validatePatientResource p)); cbn; split;
      congruence. }
  split; [apply validator_errors|]. split; [exact Hvalid|].
  split; [|split].
  - intros Hg H. rewrite validator_errors_by_rule, !in_app_iff in H.
    destruct H as [H|[H|[H|H]]]; apply in_optional in H as [Hc Hx];
      try (vm_compute in Hx; discriminate Hx).
    rewrite Hg in Hc. discriminate Hc.
  - intros Hb H. rewrite validator_errors_by_rule, !in_app_iff in H.
    destruct H as [H|[H|[H|H]]]; apply in_optional in H as [Hc Hx];
      try (vm_compute in Hx; discriminate Hx).
    rewrite Hb in Hc. discriminate Hc.
  - intros Ht (n & rest & Hn) Hg Hb.
    assert (E : violations resource_rules p = []).
    { unfold violations, resource_rules. cbn [filter map fst snd].
      rewrite Ht, Hn, Hg, Hb. reflexivity. }
    split; [apply Hvalid|]; rewrite validator_errors; exact E.
Qed.

(* ------------------------------------------------------------------ *)
(** ** The theorems at work *)

(** A first name of two spaces: the builder fails and [createPatient]
    issues no request. *)
Lemma first_failure_wins_witness :
  blank (value_of (document blank_first_name) "firstName") = true
  /\ build_fails offline_host blank_first_name
  /\ requests (events (createPatient offline_host blank_first_name)) = [].
Proof.
  destruct (first_failure_wins offline_host blank_first_name)
    as (_ & Hquiet & Hblank).
  assert (Hb : blank (value_of (document blank_first_name) "firstName") = true)
    by reflexivity.
  pose proof (Hblank (or_introl Hb)) as Hf.
  split; [exact Hb|]. split; [exact Hf|]. apply (Hquiet Hf).
Defined.



(** An update with nobody selected, and one with Ada selected and a
    blank first name: no request either time. *)
Lemma update_needs_selection_and_valid_form_witness :
  requests (events (updateSelectedPatient failing_host creating_ada)) = []
  /\ requests
       (events (updateSelectedPatient failing_host editing_blank_first_name))
     = []
  /\ selectedPatient
       (final (updateSelectedPatient failing_host editing_blank_first_name))
     = Some ada_stored.
Proof.
  split.
  - destruct (update_needs_selection_and_valid_form failing_host creating_ada)
      as [Hnone _].
    apply (Hnone eq_refl).
  - destruct (update_needs_selection_and_valid_form failing_host
                editing_blank_first_name) as [_ Hinvalid].
    assert (Hsel : selectedPatient editing_blank_first_name <> None)
      by discriminate.
    assert (Hf : build_fails failing_host editing_blank_first_name)
      by reflexivity.
    destruct (Hinvalid Hsel Hf) as (Hreq & Hkept & _).
    split; [exact Hreq | exact Hkept].
Defined.


(** With Ada selected, fetching id 999 from a server that answers 404:
    the not-found error is shown and Ada stays selected. *)
Lemma getPatientById_keeps_selection_witness :
  reported "error" (events (getPatientById missing_host fetching_999))
  = [lit "ERROR: Patient with ID 999 not found"]
  /\ selectedPatient (final (getPatientById missing_host fetching_999))
     = Some ada_stored.
Proof.
  destruct (getPatientById_keeps_selection missing_host fetching_999)
    as (_ & _ & H404).
  destruct (H404 (response_with 404 (lit "Not Found")
                    (inr (lit "Unexpected end of JSON input")))
              eq_refl eq_refl eq_refl) as (Hshown & _ & Hkept).
  split; [exact Hshown | exact Hkept].
Defined.

(** Ada's form with a phone and an email: the phone entry comes first. *)
Lemma assembled_resource_witness :
  p_telecom (assembled (document with_contacts))
  = Some [ {| c_system := lit "phone"; c_value := lit "+1 (555) 123-4567";
              c_use := lit "home" |};
           {| c_system := lit "email"; c_value := lit "ada@example.org";
              c_use := lit "home" |} ]
  /\ p_address (assembled (document with_contacts)) = None.
Proof.
  destruct (@assembled_resource offline_host with_contacts
              (assembled (document with_contacts)) eq_refl)
    as (_ & Htelecom & Haddress & _).
  split; [exact Htelecom | exact Haddress].
Defined.

(** Ada's form with the phone "+1 (555) 123-4567" is accepted. *)
Lemma phone_rule_witness : build_succeeds offline_host with_contacts.
Proof.
  destruct (@phone_rule offline_host with_contacts eq_refl)
    as (_ & Hchecked & _).
  apply (Hchecked eq_refl). reflexivity.
Defined.

(** A resource with a type and a name only is valid. *)
Lemma validator_accumulates_witness :
  isValid (validatePatientResource name_only) = true
  /\ errors (validatePatientResource name_only) = [].
Proof.
  destruct (validator_accumulates name_only) as (_ & _ & _ & _ & Hvalid).
  apply Hvalid; try reflexivity. do 2 eexists. reflexivity.
Defined.

(* ================================================================== *)
(** * More properties of the manager *)

(* ------------------------------------------------------------------ *)
(** ** More on patterns *)

Lemma matches_star_class (p : codeunit -> bool) (s : jsstring) :
  matches (Star (Class p)) s <-> forallb p s = true.
Proof.
  split.
  - intro H. remember (Star (Class p)) as r eqn:Hr.
    induction H; try discriminate; [reflexivity|].
    injection Hr as ->.
    apply matches_class_inv in H as (c & -> & Hc).
    cbn [app forallb]. rewrite Hc. apply IHmatches2. reflexivity.
  - induction s as [|c s IH]; intro H; [constructor|].
    cbn [forallb] in H. apply andb_true_iff in H as [Hc Hs].
    change (c :: s) with ([c] ++ s).
    constructor; [constructor; assumption | apply IH; assumption].
Qed.

Lemma matches_plus_class (p : codeunit -> bool) (s : jsstring) :
  matches (Plus (Class p)) s <-> s <> [] /\ forallb p s = true.
Proof.
  unfold Plus. split.
  - intro H. apply matches_cat_inv in H as (s1 & s2 & -> & H1 & H2).
    apply matches_class_inv in H1 as (c & -> & Hc).
    apply matches_star_class in H2. cbn [app forallb]. rewrite Hc, H2.
    split; [discriminate | reflexivity].
  - intros [Hne H]. destruct s as [|c s]; [congruence|].
    cbn [forallb] in H. apply andb_true_iff in H as [Hc Hs].
    change (c :: s) with ([c] ++ s).
    constructor; [constructor; assumption | apply matches_star_class, Hs].
Qed.

Lemma matches_chr (a : ascii) (s : jsstring) :
  matches (Chr a) s <-> s = [N_of_ascii a].
Proof.
  unfold Chr. split.
  - intro H. apply matches_class_inv in H as (c & -> & Hc).
    apply N.eqb_eq in Hc. rewrite <- Hc. reflexivity.
  - intros ->. constructor. apply N.eqb_refl.
Qed.

Lemma matches_times_class (p : codeunit -> bool) (n : nat) :
  forall s, matches (Times n (Class p)) s <->
            List.length s = n /\ forallb p s = true.
Proof.
  induction n as [|n IH]; intro s; cbn [Times].
  - split.
    + intro H. apply matches_eps_inv in H as ->. auto.
    + intros [H _]. destruct s; [constructor | discriminate].
  - split.
    + intro H. apply matches_cat_inv in H as (s1 & s2 & -> & H1 & H2).
      apply matches_class_inv in H1 as (c & -> & Hc).
      apply IH in H2 as [Hl Hs]. cbn [app List.length forallb].
      rewrite Hc, Hs, Hl. auto.
    + intros [Hl Hs]. destruct s as [|c s]; [discriminate|].
      cbn [forallb] in Hs. apply andb_true_iff in Hs as [Hc Hs].
      injection Hl as Hl. change (c :: s) with ([c] ++ s).
      constructor; [constructor; assumption | apply IH; auto].
Qed.

(** The email pattern accepts exactly the strings of the shape
    user@domain.tld. *)
Lemma emailRegex_shape (s : jsstring) :
  test emailRegex s = true <-> email_shape s.
Proof.
  rewrite test_matches. unfold emailRegex, email_shape. split.
  - intro H.
    apply matches_cat_inv in H as (user & s1 & -> & Hu & H).
    apply matches_cat_inv in H as (at_ & s2 & -> & Hat & H).
    apply matches_cat_inv in H as (domain & s3 & -> & Hd & H).
    apply matches_cat_inv in H as (dot & tld & -> & Hdot & Ht).
    apply matches_chr in Hat, Hdot. subst at_ dot.
    apply matches_plus_class in Hu as [? ?].
    apply matches_plus_class in Hd as [? ?].
    apply matches_plus_class in Ht as [? ?].
    exists user, domain, tld. repeat split; assumption.
  - intros (user & domain & tld & -> & Hu & Hd & Ht & Fu & Fd & Ft).
    constructor; [apply matches_plus_class; auto|].
    constructor; [apply matches_chr; reflexivity|].
    constructor; [apply matches_plus_class; auto|].
    constructor; [apply matches_chr; reflexivity|].
    apply matches_plus_class; auto.
Qed.

Lemma not_space_or_at_count (s : jsstring) :
  forallb not_space_or_at s = true ->
  count_occ N.eq_dec s 64%N = 0%nat /\ forallb visible s = true.
Proof.
  induction s as [|c s IH]; [auto|]. cbn [forallb count_occ].
  intro H. apply andb_true_iff in H as [Hc Hs].
  destruct (IH Hs) as [IH1 IH2]. unfold not_space_or_at in Hc.
  apply negb_true_iff, orb_false_iff in Hc as [Hw Hat].
  apply N.eqb_neq in Hat. unfold visible at 1. rewrite Hw, IH2.
  destruct (N.eq_dec c 64); [congruence | auto].
Qed.

(** The birth date pattern accepts exactly four digits, a hyphen, two
    digits, a hyphen, two digits. *)
Lemma birthDateRegex_shape (s : jsstring) :
  test birthDateRegex s = date_pattern s.
Proof.
  apply eq_true_iff_eq. rewrite test_matches. unfold birthDateRegex. split.
  - intro H.
    apply matches_cat_inv in H as (y & s1 & -> & Hy & H).
    apply matches_cat_inv in H as (h1 & s2 & -> & Hh1 & H).
    apply matches_cat_inv in H as (m & s3 & -> & Hm & H).
    apply matches_cat_inv in H as (h2 & d & -> & Hh2 & Hd).
    apply matches_chr in Hh1, Hh2. subst h1 h2.
    apply matches_times_class in Hy as [Ly Fy].
    apply matches_times_class in Hm as [Lm Fm].
    apply matches_times_class in Hd as [Ld Fd].
    do 4 (destruct y as [|? y]; [discriminate|]).
    destruct y; [|discriminate].
    do 2 (destruct m as [|? m]; [discriminate|]).
    destruct m; [|discriminate].
    do 2 (destruct d as [|? d]; [discriminate|]).
    destruct d; [|discriminate].
    cbn [app date_pattern forallb] in *.
    repeat match goal with
           | E : _ && _ = true |- _ => apply andb_true_iff in E as [? ?]
           end.
    repeat match goal with
           | E : is_digit _ = true |- _ => rewrite E; clear E
           end.
    reflexivity.
  - intro H. unfold date_pattern in H.
    do 10 (destruct s as [|? s]; [discriminate|]).
    destruct s; [|discriminate].
    cbn [forallb] in H.
    repeat match goal with
           | E : _ && _ = true |- _ => apply andb_true_iff in E as [? ?]
           end.
    repeat match goal with
           | E : (_ =? 45)%N = true |- _ => apply N.eqb_eq in E; subst
           end.
    match goal with
    | |- matches _ [?a; ?b; ?c; ?d; _; ?e; ?f; _; ?g; ?h] =>
        change (matches
                  (Cat (Times 4 (Class is_digit))
                     (Cat (Chr "-")
                        (Cat (Times 2 (Class is_digit))
                           (Cat (Chr "-") (Times 2 (Class is_digit))))))
                  ([a; b; c; d] ++ [45%N] ++ [e; f] ++ [45%N] ++ [g; h]))
    end.
    constructor; [apply matches_times_class|].
    { cbn [List.length forallb].
      repeat match goal with
             | E : is_digit _ = true |- _ => rewrite E; clear E
             end. auto. }
    constructor; [apply matches_chr; reflexivity|].
    constructor; [apply matches_times_class|].
    { cbn [List.length forallb].
      repeat match goal with
             | E : is_digit _ = true |- _ => rewrite E; clear E
             end. auto. }
    constructor; [apply matches_chr; reflexivity|].
    apply matches_times_class. cbn [List.length forallb].
    repeat match goal with
           | E : is_digit _ = true |- _ => rewrite E; clear E
           end. auto.
Qed.

(* ------------------------------------------------------------------ *)
(** ** The email check *)

Lemma error_shown_inj (doc : Document) (m1 m2 : jsstring) :
  error_shown doc m1 = error_shown doc m2 -> m1 = m2.
Proof.
  unfold error_shown. intro H. injection H as H _.
  first [exact H | apply app_inv_head in H; exact H].
Qed.

Lemma first_failure_split (n : nat)
  (checks : list ((Document -> bool) * jsstring)) (doc : Document) :
  first_failure (firstn n checks) doc = None ->
  first_failure checks doc = first_failure (skipn n checks) doc.
Proof.
  intro H. rewrite <- (firstn_skipn n checks) at 1.
  rewrite first_failure_app, H. reflexivity.
Qed.

(** X1. On a form whose earlier checks pass and whose email is not
    blank, the builder shows the email error exactly when the trimmed
    email is not of the shape user@domain.tld (each part non-empty, free
    of white space and of @); an email it lets through has exactly one @
    and no white space inside. *)
Theorem email_rule (host : Host) (s : Session) :
  first_failure (firstn 6 (validation_sequence host)) (document s) = None ->
  blank (value_of (document s) "email") = false ->
  (createPatientResource host s
   = (Normal None, s, error_shown (document s) email_error)
   <-> ~ email_shape (trim (value_of (document s) "email")))
  /\ (build_succeeds host s ->
      count_occ N.eq_dec (trim (value_of (document s) "email")) 64%N = 1%nat
      /\ forallb visible (trim (value_of (document s) "email")) = true).
Proof.
  intros Hearlier Hblank.
  assert (Hrest :
    first_failure (validation_sequence host) (document s)
    = if test emailRegex (trim (value_of (document s) "email"))
      then if blank (value_of (document s) "phone")
              || test phoneRegex
                   (remove_all phone_separator (value_of (document s) "phone"))
           then None
           else Some (lit "Phone number must contain only digits and valid formatting characters")
      else Some email_error).
  { rewrite (@first_failure_split 6 _ _ Hearlier).
    cbn [skipn validation_sequence first_failure]. rewrite Hblank.
    reflexivity. }
  pose proof (emailRegex_shape (trim (value_of (document s) "email")))
    as Hshape.
  destruct (test emailRegex (trim (value_of (document s) "email"))) eqn:Ht.
  - assert (Hs : email_shape (trim (value_of (document s) "email")))
      by (apply Hshape; reflexivity).
    split.
    + split; [|intro Hn; contradiction].
      rewrite createPatientResource_outcome, Hrest. intros H _.
      destruct (_ || _); [discriminate|].
      apply (f_equal snd) in H. cbn [snd] in H.
      apply error_shown_inj in H. vm_compute in H. discriminate H.
    + intros _. destruct Hs as (u & d & t & -> & _ & _ & _ & Fu & Fd & Ft).
      apply not_space_or_at_count in Fu as [Cu Vu].
      apply not_space_or_at_count in Fd as [Cd Vd].
      apply not_space_or_at_count in Ft as [Ct Vt].
      split.
      * rewrite !count_occ_app, Cu, Cd, Ct. reflexivity.
      * rewrite !forallb_app.
        repeat (apply andb_true_iff; split); try assumption; reflexivity.
  - assert (Hs : ~ email_shape (trim (value_of (document s) "email"))).
    { intro H. apply Hshape in H. discriminate H. }
    split.
    + split; [intros _; exact Hs|]. intros _.
      rewrite createPatientResource_outcome, Hrest. reflexivity.
    + intro Hok. apply build_succeeds_iff in Hok.
      rewrite Hrest in Hok. discriminate Hok.
Qed.

(* ------------------------------------------------------------------ *)
(** ** The builder and the validator *)

Lemma blank_false_truthy (s : jsstring) : blank s = false -> truthy s = true.
Proof.
  unfold blank. intro H. apply negb_false_iff in H. apply truthy_trim, H.
Qed.

(** A form the builder accepts has its four required fields. *)
Lemma build_succeeds_required (host : Host) (s : Session) :
  build_succeeds host s ->
  blank (value_of (document s) "firstName") = false
  /\ blank (value_of (document s) "lastName") = false
  /\ blank (value_of (document s) "gender") = false
  /\ blank (value_of (document s) "birthDate") = false.
Proof.
  intro H. apply build_succeeds_iff in H.
  unfold validation_sequence in H. cbn [first_failure] in H.
  destruct (blank (value_of (document s) "firstName")); [discriminate|].
  destruct (blank (value_of (document s) "lastName")); [discriminate|].
  destruct (blank (value_of (document s) "gender")); [discriminate|].
  destruct (blank (value_of (document s) "birthDate")); [discriminate|].
  auto.
Qed.

Lemma parse_iso_date_pattern (s : jsstring) :
  parse_iso_date s <> None -> date_pattern s = true.
Proof.
  unfold parse_iso_date, date_pattern.
  do 10 (destruct s as [|? s]; [congruence|]).
  destruct s; [|congruence].
  destruct (_ && _ && _); congruence.
Qed.

(** X2. The builder does not guarantee what the validator asks: on the
    resource built from an accepted form the validator reports at most
    the gender error and the birth date error, in this order, and finds
    the resource valid exactly when the gender typed is one of male,
    female, other, unknown and the birth date typed is four digits, a
    hyphen, two digits, a hyphen, two digits; a birth date in the ISO
    date-only form always passes. *)
Theorem built_resource_validation (host : Host) (s : Session) :
  build_succeeds host s ->
  errors (validatePatientResource (assembled (document s)))
  = (if known_gender (value_of (document s) "gender") then []
     else [lit "Invalid gender value"])
    ++ (if date_pattern (value_of (document s) "birthDate") then []
        else [lit "Birth date must be in YYYY-MM-DD format"])
  /\ (isValid (validatePatientResource (assembled (document s))) = true <->
      known_gender (value_of (document s) "gender") = true
      /\ date_pattern (value_of (document s) "birthDate") = true)
  /\ (parse_iso_date (value_of (document s) "birthDate") <> None ->
      date_pattern (value_of (document s) "birthDate") = true).
Proof.
  intro Hok. apply build_succeeds_required in Hok as (_ & _ & Hg & Hb).
  apply blank_false_truthy in Hg, Hb.
  assert (He :
    errors (validatePatientResource (assembled (document s)))
    = (if known_gender (value_of (document s) "gender") then []
       else [lit "Invalid gender value"])
      ++ (if date_pattern (value_of (document s) "birthDate") then []
          else [lit "Birth date must be in YYYY-MM-DD format"])).
  { rewrite validator_errors_by_rule.
    cbn [assembled p_resourceType p_name p_gender p_birthDate or_empty
         truthy_opt].
    rewrite Hg, Hb, birthDateRegex_shape. fold (known_gender
      (value_of (document s) "gender")).
    destruct (known_gender _), (date_pattern _); reflexivity. }
  split; [exact He|]. split; [|apply parse_iso_date_pattern].
  change (isValid (validatePatientResource (assembled (document s))))
    with (List.length
            (errors (validatePatientResource (assembled (document s))))
          =? 0)%nat.
  rewrite He.
  destruct (known_gender _), (date_pattern _); cbn; split;
    try tauto; try discriminate; intros [? ?]; discriminate.
Qed.

(* ------------------------------------------------------------------ *)
(** ** Trimming and the display name *)

Lemma starts_visible_trimStart (s : jsstring) :
  starts_visible (trimStart s) = true.
Proof.
  induction s as [|c s IH]; [reflexivity|]. cbn [trimStart].
  destruct (is_whitespace c) eqn:E; [exact IH|].
  cbn [starts_visible]. unfold visible. rewrite E. reflexivity.
Qed.

Lemma trimStart_fixed (s : jsstring) :
  starts_visible s = true -> trimStart s = s.
Proof.
  destruct s as [|c s]; [reflexivity|]. cbn [starts_visible trimStart].
  unfold visible. intro H. apply negb_true_iff in H. rewrite H. reflexivity.
Qed.

Lemma trimStart_snoc (s : jsstring) (c : codeunit) :
  visible c = true -> trimStart (s ++ [c]) = trimStart s ++ [c].
Proof.
  intro Hc. assert (Hw : is_whitespace c = false)
    by (apply negb_true_iff; exact Hc).
  induction s as [|a s IH]; cbn [app trimStart].
  - rewrite Hw. reflexivity.
  - destruct (is_whitespace a); [exact IH | reflexivity].
Qed.

Lemma starts_visible_trimEnd (s : jsstring) :
  starts_visible s = true -> starts_visible (trimEnd s) = true.
Proof.
  destruct s as [|c s]; [reflexivity|]. cbn [starts_visible]. intro Hc.
  unfold trimEnd. cbn [rev]. rewrite (@trimStart_snoc (rev s) c Hc), rev_app_distr.
  exact Hc.
Qed.

(** Trimming twice is trimming once. *)
Lemma trim_trim (s : jsstring) : trim (trim s) = trim s.
Proof.
  unfold trim at 1.
  rewrite (trimStart_fixed (trim s)).
  - unfold trim at 1, trimEnd at 1. unfold trimEnd. rewrite rev_involutive.
    rewrite (trimStart_fixed (trimStart (rev (trimStart s)))).
    + reflexivity.
    + apply starts_visible_trimStart.
  - unfold trim. apply starts_visible_trimEnd, starts_visible_trimStart.
Qed.

Lemma trimStart_blank (s : jsstring) :
  existsb visible s = false -> trimStart s = [].
Proof.
  induction s as [|c s IH]; [reflexivity|]. cbn [existsb trimStart].
  unfold visible at 1. intro H. apply orb_false_iff in H as [Hc Hs].
  apply negb_false_iff in Hc. rewrite Hc. exact (IH Hs).
Qed.

(** A string is blank exactly when all of it is white space. *)
Lemma blank_iff_no_visible (s : jsstring) :
  blank s = negb (existsb visible s).
Proof.
  destruct (existsb visible s) eqn:E.
  - apply visible_not_blank, E.
  - unfold blank, trim. rewrite (@trimStart_blank s E). reflexivity.
Qed.

(** X3. The name [getPatientName] gives for any resource is never empty
    and carries no white space at either end (it is "Unknown" for want of
    a better one); for the resource the builder makes of an accepted
    form, it is the first and the last name as typed, joined by a space
    and trimmed. *)
Theorem getPatientName_presentable (host : Host) (s : Session)
  (p : Patient) :
  truthy (getPatientName p) = true
  /\ trim (getPatientName p) = getPatientName p
  /\ (build_succeeds host s ->
      getPatientName (assembled (document s))
      = trim (value_of (document s) "firstName" ++ lit " "
              ++ value_of (document s) "lastName")).
Proof.
  split; [|split].
  - unfold getPatientName. destruct (p_name p) as [[|name rest]|];
      try reflexivity.
    destruct (truthy (trim _)) eqn:E; [exact E | reflexivity].
  - unfold getPatientName. destruct (p_name p) as [[|name rest]|];
      try reflexivity.
    destruct (truthy (trim _)) eqn:E; [apply trim_trim | reflexivity].
  - intro Hok. apply build_succeeds_required in Hok as (Hfn & _).
    unfold getPatientName.
    cbn [assembled p_name n_given n_family or_empty join].
    replace (truthy (trim (value_of (document s) "firstName" ++ lit " "
                           ++ value_of (document s) "lastName")))
      with true; [reflexivity|].
    symmetry. apply negb_false_iff.
    change (blank (value_of (document s) "firstName" ++ lit " "
                   ++ value_of (document s) "lastName") = false).
    rewrite blank_iff_no_visible in Hfn |- *.
    apply negb_false_iff in Hfn. rewrite existsb_app, Hfn. reflexivity.
Qed.

(* ------------------------------------------------------------------ *)
(** ** The server URL, continued *)

Lemma remove_trailing_slash_other (v : jsstring) :
  (forall w, v <> w ++ [47%N]) -> remove_trailing_slash v = v.
Proof.
  intro H. unfold remove_trailing_slash.
  destruct (rev v) as [|c r] eqn:E; [reflexivity|].
  destruct (N.eqb_spec c 47); [|reflexivity].
  exfalso. apply (H (rev r)). subst c.
  rewrite <- (rev_involutive v), E. reflexivity.
Qed.

(** X4. [updateServerUrl] takes the server URL from the page when the
    field exists and is not empty, and leaves the manager alone
    otherwise; it removes one slash at the end and no more (a value
    ending in two slashes still ends in one), keeps a value without a
    slash at the end as typed, and touches neither the selection nor the
    page. *)
Theorem updateServerUrl_effect (s : Session) :
  (forall w : jsstring,
     document s "fhirServerUrl"%string = Some (w ++ [47%N]) ->
     final (updateServerUrl s) = set_baseUrl w s)
  /\ (forall v : jsstring,
        document s "fhirServerUrl"%string = Some v -> v <> [] ->
        (forall w, v <> w ++ [47%N]) ->
        final (updateServerUrl s) = set_baseUrl v s)
  /\ (document s "fhirServerUrl"%string = None
      \/ document s "fhirServerUrl"%string = Some [] ->
      updateServerUrl s = (Normal tt, s, [])).
Proof.
  unfold updateServerUrl. rewrite bind_gets. split; [|split].
  - intros w ->. replace (truthy (w ++ [47%N])) with true
      by (destruct w; reflexivity).
    rewrite remove_trailing_slash_slash. reflexivity.
  - intros v -> Hne Hno. replace (truthy v) with true
      by (destruct v; [congruence | reflexivity]).
    rewrite (@remove_trailing_slash_other v Hno). reflexivity.
  - intros [-> | ->]; reflexivity.
Qed.

(* ------------------------------------------------------------------ *)
(** ** Requests and what follows them *)

Section Requests.

Variable host : Host.

Ltac run_in H :=
  cbv beta zeta iota delta
    [try_catch bind ret throw emit gets modify log showError showSuccess
     when_present displayFHIRResource displaySinglePatient setSelectedPatient
     getSelectedPatient clearSelectedPatient updateSubmitButton
     do_fetch do_confirm response_json create_request id_request] in H;
  cbn [selectedPatient submitButton document baseUrl patients
       set_selectedPatient set_document set_submitButton set_baseUrl app
       negb] in H.

Ltac branch H :=
  run_in H;
  match type of H with
  | context [fetch host ?r] => destruct (fetch host r) eqn:?
  | context [confirm host ?m] => destruct (confirm host m) eqn:?
  | context [json ?r] => destruct (json r) eqn:?
  | context [if ?c then _ else _] =>
      let E := fresh "E" in
      destruct c eqn:E; try solve [vm_compute in E; discriminate E]
  | context [match document ?s ?id with _ => _ end] =>
      destruct (document s id) eqn:?
  | context [match submitButton ?s with _ => _ end] =>
      destruct (submitButton s) eqn:?
  | context [match selectedPatient ?s with _ => _ end] =>
      destruct (selectedPatient s) eqn:?
  end.

Ltac branch_page H :=
  run_in H;
  match type of H with
  | context [String.eqb ?a ?b] =>
      let v := eval vm_compute in (String.eqb a b) in
      change (String.eqb a b) with v in H
  | context [match document ?s ?id with _ => _ end] =>
      destruct (document s id) eqn:?
  | context [match submitButton ?s with _ => _ end] =>
      destruct (submitButton s) eqn:?
  | context [match selectedPatient ?s with _ => _ end] =>
      destruct (selectedPatient s) eqn:?
  end.

Ltac finish r Hr :=
  run_in Hr; subst r;
  cbv beta iota delta [events final completion fst snd];
  cbn [selectedPatient submitButton document baseUrl patients
       set_selectedPatient set_document set_submitButton set_baseUrl];
  repeat match goal with
         | E : submitButton ?x = _ |- context [submitButton ?x] => rewrite E
         end;
  cbn [caption].

(** What [createPatient] does when the form is accepted and the server
    stores the resource. *)
Lemma createPatient_stores (s : Session) (r : Response) (p : Patient) :
  build_succeeds host s ->
  fetch host (create_request s) = Resolved r ->
  ok r = true -> json r = inl p ->
  requests (events (createPatient host s)) = [create_request s]
  /\ selectedPatient (final (createPatient host s)) = Some p
  /\ submitButton (final (createPatient host s))
     = caption (lit "Update Patient") (submitButton s)
  /\ document (final (createPatient host s)) = document s
  /\ baseUrl (final (createPatient host s)) = baseUrl s
  /\ failed (events (createPatient host s)) = false
  /\ reported "success" (events (createPatient host s))
     = [lit "SUCCESS: Patient created successfully: " ++ getPatientName p
        ++ lit " (ID: " ++ template (p_id p) ++ lit ")"].
Proof.
  intros Hok Hfetch Hr2 Hjson. apply build_succeeds_iff in Hok.
  unfold create_request in Hfetch.
  remember (createPatient host s) as res eqn:Hr.
  unfold createPatient, try_catch in Hr. unfold bind at 1 in Hr.
  rewrite createPatientResource_outcome, Hok in Hr. run_in Hr.
  repeat branch_page Hr; run_in Hr; rewrite Hfetch in Hr; run_in Hr;
    rewrite Hr2 in Hr; run_in Hr; rewrite Hjson in Hr;
    repeat branch_page Hr; finish res Hr; repeat split; reflexivity.
Qed.

(** What [updateSelectedPatient] sends when a patient is selected and
    the form is accepted. *)
Lemma updateSelectedPatient_request (s : Session) (sel : Patient) :
  selectedPatient s = Some sel -> build_succeeds host s ->
  requests (events (updateSelectedPatient host s))
  = [ {| url := baseUrl s ++ lit "/Patient/" ++ template (p_id sel);
         method := PUT;
         headers := content_fhir;
         body := Some (set_id (assembled (document s)) (p_id sel)) |} ].
Proof.
  intros Hsel Hok. apply build_succeeds_iff in Hok.
  remember (updateSelectedPatient host s) as res eqn:Hr.
  unfold updateSelectedPatient, getSelectedPatient in Hr.
  rewrite bind_gets, Hsel in Hr.
  unfold try_catch in Hr. unfold bind at 1 in Hr.
  rewrite createPatientResource_outcome, Hok in Hr.
  repeat branch Hr; finish res Hr; reflexivity.
Qed.

(** X5. With a patient selected and a form the builder accepts,
    [updateSelectedPatient] sends exactly one request: a PUT to
    baseUrl/Patient/id with the id of the selected resource, whose body
    is the resource built from the form with that id put in; when the
    selected resource has no id the path ends in "undefined". *)
Theorem update_targets_selected_id (s : Session) (sel : Patient) :
  selectedPatient s = Some sel -> build_succeeds host s ->
  requests (events (updateSelectedPatient host s))
  = [ {| url := baseUrl s ++ lit "/Patient/" ++ template (p_id sel);
         method := PUT;
         headers := content_fhir;
         body := Some (set_id (assembled (document s)) (p_id sel)) |} ]
  /\ (p_id sel = None ->
      map url (requests (events (updateSelectedPatient host s)))
      = [baseUrl s ++ lit "/Patient/undefined"]).
Proof.
  intros Hsel Hok.
  rewrite (@updateSelectedPatient_request s sel Hsel Hok).
  split; [reflexivity|]. intros ->. reflexivity.
Qed.

(** X6. When the form is accepted and the server answers the POST with
    a 2xx status and a resource, [createPatient] has sent that one
    request (the built resource, without id, to baseUrl/Patient), the
    resource of the answer is selected, the submit button reads "Update
    Patient", the form is left as typed, and the success line names the
    patient and the id ("undefined" when the answer has none). *)
Theorem create_selects_stored (s : Session) (r : Response) (p : Patient) :
  build_succeeds host s ->
  fetch host (create_request s) = Resolved r ->
  ok r = true -> json r = inl p ->
  requests (events (createPatient host s)) = [create_request s]
  /\ p_id (assembled (document s)) = None
  /\ selectedPatient (final (createPatient host s)) = Some p
  /\ submitButton (final (createPatient host s))
     = caption (lit "Update Patient") (submitButton s)
  /\ document (final (createPatient host s)) = document s
  /\ reported "success" (events (createPatient host s))
     = [lit "SUCCESS: Patient created successfully: " ++ getPatientName p
        ++ lit " (ID: " ++ template (p_id p) ++ lit ")"].
Proof.
  intros Hok Hfetch Hr Hjson.
  destruct (@createPatient_stores s r p Hok Hfetch Hr Hjson)
    as (H1 & H2 & H3 & H4 & _ & _ & H7).
  repeat split; assumption.
Qed.

(** X7. A create followed at once by an update sends the same resource
    again: after [createPatient] has stored a resource, the request of
    [updateSelectedPatient] is a PUT to the id the server gave, and its
    body is the body of the POST with that id put in. *)
Theorem create_then_update (s : Session) (r : Response) (p : Patient) :
  build_succeeds host s ->
  fetch host (create_request s) = Resolved r ->
  ok r = true -> json r = inl p ->
  requests (events (updateSelectedPatient host
                      (final (createPatient host s))))
  = [ {| url := baseUrl s ++ lit "/Patient/" ++ template (p_id p);
         method := PUT;
         headers := content_fhir;
         body := option_map (fun resource => set_id resource (p_id p))
                   (body (create_request s)) |} ].
Proof.
  intros Hok Hfetch Hr Hjson.
  destruct (@createPatient_stores s r p Hok Hfetch Hr Hjson)
    as (_ & Hsel & _ & Hdoc & Hbase & _).
  assert (Hok' : build_succeeds host (final (createPatient host s))).
  { apply build_succeeds_iff. rewrite Hdoc. apply build_succeeds_iff, Hok. }
  rewrite (@updateSelectedPatient_request _ p Hsel Hok'), Hdoc, Hbase.
  reflexivity.
Qed.

Lemma deletePatient_requests (s : Session) :
  (List.length (requests (events (deletePatient host s))) <= 1)%nat.
Proof.
  remember (deletePatient host s) as res eqn:Hr.
  unfold deletePatient in Hr.
  repeat branch Hr; finish res Hr; cbn; lia.
Qed.

(** X8. No operation sends more than one request: [createPatient],
    [updateSelectedPatient], [deletePatient] and [getPatientById] each
    issue at most one call of [fetch], whatever the form, the selection
    and the answers. *)
Theorem at_most_one_request (s : Session) :
  (List.length (requests (events (createPatient host s))) <= 1)%nat
  /\ (List.length (requests (events (updateSelectedPatient host s))) <= 1)%nat
  /\ (List.length (requests (events (deletePatient host s))) <= 1)%nat
  /\ (List.length (requests (events (getPatientById host s))) <= 1)%nat.
Proof.
  split; [|split; [|split]].
  - remember (createPatient host s) as res eqn:Hr.
    unfold createPatient, try_catch in Hr. unfold bind at 1 in Hr.
    rewrite createPatientResource_outcome in Hr.
    destruct (first_failure (validation_sequence host) (document s)) as [m|].
    + finish res Hr. unfold error_shown.
      destruct (document s "results"%string); cbn; lia.
    + repeat branch Hr; finish res Hr; cbn; lia.
  - remember (updateSelectedPatient host s) as res eqn:Hr.
    unfold updateSelectedPatient, getSelectedPatient in Hr.
    rewrite bind_gets in Hr.
    destruct (selectedPatient s) as [sel|] eqn:Hsel.
    + unfold try_catch in Hr. unfold bind at 1 in Hr.
      rewrite createPatientResource_outcome in Hr.
      destruct (first_failure (validation_sequence host) (document s))
        as [m|].
      * finish res Hr. unfold error_shown.
        destruct (document s "results"%string); cbn; lia.
      * repeat branch Hr; finish res Hr; cbn; lia.
    + repeat branch Hr; finish res Hr; cbn; lia.
  - apply deletePatient_requests.
  - remember (getPatientById host s) as res eqn:Hr.
    unfold getPatientById in Hr.
    repeat branch Hr; finish res Hr; cbn; lia.
Qed.

(** X9. [deletePatient] asks before it deletes: with a blank id it
    neither prompts nor sends anything; when the prompt is declined it
    logs the cancellation and leaves the session as it was, without a
    request and without an error; and whenever it has sent a request, the
    prompt was answered yes. *)
Theorem delete_asks_first (s : Session) :
  (blank (value_of (document s) "updatePatientId") = true ->
   deletePatient host s
   = (Normal tt, s,
      error_shown (document s) (lit "Please enter a patient ID to delete")))
  /\ (blank (value_of (document s) "updatePatientId") = false ->
      confirm host (lit "Are you sure you want to delete patient "
                    ++ value_of (document s) "updatePatientId"
                    ++ lit "? This action cannot be undone.") = false ->
      deletePatient host s
      = (Normal tt, s,
         [Confirmed (lit "Are you sure you want to delete patient "
                     ++ value_of (document s) "updatePatientId"
                     ++ lit "? This action cannot be undone.") false;
          Console "info" (lit "Delete operation cancelled by user")]))
  /\ (requests (events (deletePatient host s)) <> [] ->
      exists message,
        In (Confirmed message true) (events (deletePatient host s))).
Proof.
  split; [|split].
  - intro Hb. unfold blank in Hb. unfold deletePatient, try_catch.
    rewrite bind_gets, Hb, showError_run. reflexivity.
  - intros Hb Hc. unfold blank in Hb.
    remember (deletePatient host s) as res eqn:Hr.
    unfold deletePatient in Hr. run_in Hr. rewrite Hb, Hc in Hr.
    run_in Hr. subst res. reflexivity.
  - remember (deletePatient host s) as res eqn:Hr.
    unfold deletePatient in Hr.
    repeat branch Hr; finish res Hr; intro H;
      solve [exfalso; apply H; reflexivity
            |eexists; cbn; eauto 10].
Qed.



End Requests.

(* ------------------------------------------------------------------ *)
(** ** Filling the form *)

Lemma bind_run {A B} (m : M A) (f : A -> M B) (s s1 : Session) (a : A) :
  m s = (Normal a, s1, []) -> bind m f s = f a s1.
Proof.
  intro H. unfold bind. rewrite H. destruct (f a s1) as [[r s2] e2].
  reflexivity.
Qed.

Lemma set_document_same (s : Session) : set_document (document s) s = s.
Proof. destruct s; reflexivity. Qed.

Lemma same_but_form_refl (s : Session) : same_but_form s s.
Proof. unfold same_but_form. repeat split; auto. Qed.

Lemma same_but_form_trans (s1 s2 s3 : Session) :
  same_but_form s1 s2 -> same_but_form s2 s3 -> same_but_form s1 s3.
Proof.
  intros (A1 & A2 & A3 & A4 & A5 & A6) (B1 & B2 & B3 & B4 & B5 & B6).
  unfold same_but_form. repeat split; try congruence.
  - intro H. apply A5, B5, H.
  - intro H. apply B5, A5, H.
  - intros id Hid. rewrite (B6 id Hid). apply A6, Hid.
Qed.

Lemma form_only_ret {A} (a : A) : form_only (ret a).
Proof. intro s. split; [reflexivity | apply same_but_form_refl]. Qed.

Lemma form_only_bind {A B} (m : M A) (f : A -> M B) :
  form_only m -> (forall a, form_only (f a)) -> form_only (bind m f).
Proof.
  intros Hm Hf s. unfold bind. destruct (Hm s) as [He Hs].
  destruct (m s) as [[[a|msg] s1] e1]; cbn in He, Hs; subst e1.
  - destruct (Hf a s1) as [He' Hs'].
    destruct (f a s1) as [[r s2] e2]; cbn in He', Hs' |- *. subst e2.
    split; [reflexivity | exact (same_but_form_trans Hs Hs')].
  - split; [reflexivity | exact Hs].
Qed.

Lemma form_only_if {A} (c : bool) (m m' : M A) :
  form_only m -> form_only m' -> form_only (if c then m else m').
Proof. destruct c; auto. Qed.

Lemma form_only_forEach {A} (l : list A) (f : A -> M unit) :
  (forall x, form_only (f x)) -> form_only (forEach l f).
Proof.
  intro Hf. induction l as [|x l IH]; cbn [forEach].
  - apply form_only_ret.
  - apply form_only_bind; [apply Hf | intros _; exact IH].
Qed.

Section Filled.

Variable host : Host.
Variable stored : string -> jsstring -> jsstring.
Variable null_error : string -> jsstring.

Lemma form_only_assign (id : string) (v : jsstring) :
  In id form_fields -> form_only (assign stored null_error id v).
Proof.
  intros Hid s. unfold assign. rewrite bind_gets.
  destruct (document s id) eqn:E.
  - split; [reflexivity|]. cbn. unfold same_but_form. cbn.
    repeat split; try reflexivity; unfold set_value.
    + destruct (String.eqb_spec id0 id); [discriminate | auto].
    + destruct (String.eqb_spec id0 id); [subst; congruence | auto].
    + intros id' Hn. destruct (String.eqb_spec id' id);
        [subst; contradiction | reflexivity].
  - split; [reflexivity | apply same_but_form_refl].
Qed.

(** Whatever the resource and the page, [populateFormWithPatient] shows
    nothing and changes at most what the fields of the form hold. *)
Lemma populate_form_only (p : Patient) :
  form_only (populateFormWithPatient stored null_error p).
Proof.
  unfold populateFormWithPatient.
  repeat first
    [ apply form_only_bind; [|intros _]
    | apply form_only_if
    | apply form_only_ret
    | apply form_only_assign; cbn; tauto
    | apply form_only_forEach; intro
    | match goal with
      | |- form_only (match ?x with _ => _ end) => destruct x
      end ].
Qed.

Lemma has_form_fill (doc : Document) (id : string) (v : jsstring) :
  has_form doc -> has_form (fill stored doc id v).
Proof.
  intros H id' Hin. unfold fill, set_value.
  destruct (String.eqb id' id); [discriminate | apply H, Hin].
Qed.

Lemma fills_ret : fills (ret tt) (fun doc => doc).
Proof.
  intros s H. split; [|exact H]. rewrite set_document_same. reflexivity.
Qed.

Lemma fills_assign (id : string) (v : jsstring) :
  In id form_fields ->
  fills (assign stored null_error id v) (fun doc => fill stored doc id v).
Proof.
  intros Hid s H. split; [|apply has_form_fill, H].
  unfold assign. rewrite bind_gets.
  destruct (document s id) eqn:E; [reflexivity|]. exfalso. exact (H id Hid E).
Qed.

Lemma fills_bind (m m' : M unit) (g g' : Document -> Document) :
  fills m g -> fills m' g' ->
  fills (bind m (fun _ => m')) (fun doc => g' (g doc)).
Proof.
  intros Hm Hm' s H. destruct (Hm s H) as [E Hg].
  rewrite (@bind_run unit unit m (fun _ => m') s _ tt E).
  destruct (Hm' (set_document (g (document s)) s) Hg) as [E' Hg'].
  split; [|exact Hg']. rewrite E'. reflexivity.
Qed.

Lemma fills_if (c : bool) (m m' : M unit) (g g' : Document -> Document) :
  fills m g -> fills m' g' ->
  fills (if c then m else m') (fun doc => if c then g doc else g' doc).
Proof. destruct c; auto. Qed.

Lemma fills_forEach {A} (l : list A) (f : A -> M unit)
  (g : Document -> A -> Document) :
  (forall x, fills (f x) (fun doc => g doc x)) ->
  fills (forEach l f) (fun doc => fold_left g l doc).
Proof.
  intro Hf. induction l as [|x l IH]; cbn [forEach fold_left].
  - apply fills_ret.
  - exact (@fills_bind _ _ _ _ (Hf x) IH).
Qed.

Lemma fills_ext (m : M unit) (g g' : Document -> Document) :
  (forall doc, g doc = g' doc) -> fills m g -> fills m g'.
Proof.
  intros E H s Hs. rewrite <- E. apply H, Hs.
Qed.

(** On a page that has the form, [populateFormWithPatient] runs to its
    end and leaves the page [populated]. *)
Lemma populate_fills (p : Patient) :
  fills (populateFormWithPatient stored null_error p) (populated stored p).
Proof.
  unfold populateFormWithPatient, populated.
  destruct (p_name p) as [[|name rest]|];
    try destruct (n_given name) as [[|first others]|];
    destruct (p_telecom p) as [entries|];
    destruct (p_address p) as [[|home more]|];
    (eapply fills_ext; [|
       repeat first
         [ apply fills_bind
         | apply fills_if
         | apply fills_ret
         | apply fills_assign; cbn; tauto
         | apply fills_forEach; intro ] ]);
    intro doc; reflexivity.
Qed.

End Filled.

(* ------------------------------------------------------------------ *)
(** ** Loading a patient, clearing the form, and the age *)

Lemma same_form_build (host : Host) (doc doc' : Document) :
  same_form doc doc' ->
  assembled doc' = assembled doc
  /\ first_failure (validation_sequence host) doc'
     = first_failure (validation_sequence host) doc.
Proof.
  intro H. unfold assembled, validation_sequence. cbn [first_failure].
  rewrite (H "firstName"%string), (H "lastName"%string),
    (H "gender"%string), (H "birthDate"%string), (H "phone"%string),
    (H "email"%string), (H "address"%string) by (cbn; tauto).
  split; reflexivity.
Qed.

Section Loading.

Variable host : Host.
Variable stored : string -> jsstring -> jsstring.
Variable form_reset : Document -> Document.
Variable null_error : string -> jsstring.
Variable local_date : Z -> Z * Z * Z.

Ltac run_in H :=
  cbv beta zeta iota delta
    [try_catch bind ret throw emit gets modify log showError showSuccess
     when_present displayFHIRResource displaySinglePatient setSelectedPatient
     getSelectedPatient clearSelectedPatient updateSubmitButton
     do_fetch do_confirm response_json create_request id_request
     setSelectedPatient_of] in H;
  cbn [selectedPatient submitButton document baseUrl patients
       set_selectedPatient set_document set_submitButton set_baseUrl app
       negb] in H.

Ltac branch H :=
  run_in H;
  match type of H with
  | context [String.eqb ?a ?b] =>
      let v := eval vm_compute in (String.eqb a b) in
      change (String.eqb a b) with v in H
  | context [fetch host ?r] => destruct (fetch host r) eqn:?
  | context [json ?r] => destruct (json r) eqn:?
  | context [populateFormWithPatient stored null_error ?p ?s0] =>
      let c := fresh "c" in
      let s1 := fresh "s" in
      let e1 := fresh "e" in
      let He := fresh "He" in
      let Hs := fresh "Hs" in
      destruct (populate_form_only stored null_error p s0) as [He Hs];
      destruct (populateFormWithPatient stored null_error p s0)
        as [[c s1] e1];
      cbn [events final fst snd] in He, Hs; subst e1;
      destruct Hs as (? & ? & ? & ? & ? & ?); destruct c
  | context [if ?c then _ else _] =>
      let E := fresh "E" in
      destruct c eqn:E; try solve [vm_compute in E; discriminate E]
  | context [match document ?s ?id with _ => _ end] =>
      destruct (document s id) eqn:?
  | context [match submitButton ?s with _ => _ end] =>
      destruct (submitButton s) eqn:?
  | context [match selectedPatient ?s with _ => _ end] =>
      destruct (selectedPatient s) eqn:?
  end.

Ltac finish r Hr :=
  run_in Hr; subst r;
  cbv beta iota delta [events final completion fst snd];
  cbn [selectedPatient submitButton document baseUrl patients
       set_selectedPatient set_document set_submitButton set_baseUrl];
  repeat match goal with
         | E : submitButton ?x = _ |- context [submitButton ?x] => rewrite E
         end;
  cbn [caption].

(** X12. On a page that has the form, a load that the server answers
    with a 2xx status and a resource sends one GET for the id typed,
    fills the form from the resource, selects the resource and turns the
    submit button to "Update Patient". *)
Theorem load_selects_and_fills (s : Session) (r : Response) (p : Patient) :
  has_form (document s) ->
  blank (value_of (document s) "updatePatientId") = false ->
  fetch host (id_request GET "updatePatientId" s) = Resolved r ->
  ok r = true -> json r = inl p ->
  requests (events (loadPatientForUpdate host stored null_error s))
  = [id_request GET "updatePatientId" s]
  /\ selectedPatient (final (loadPatientForUpdate host stored null_error s))
     = Some p
  /\ document (final (loadPatientForUpdate host stored null_error s))
     = populated stored p (document s)
  /\ submitButton (final (loadPatientForUpdate host stored null_error s))
     = caption (lit "Update Patient") (submitButton s)
  /\ failed (events (loadPatientForUpdate host stored null_error s)) = false.
Proof.
  intros Hform Hid Hfetch Hok Hjson. unfold blank in Hid.
  unfold id_request in Hfetch.
  destruct (populate_fills stored null_error p s Hform) as [Hfill Hform'].
  remember (loadPatientForUpdate host stored null_error s) as res eqn:Hr.
  unfold loadPatientForUpdate in Hr. run_in Hr. rewrite Hid in Hr.
  run_in Hr. rewrite Hfetch in Hr. run_in Hr. rewrite Hok in Hr.
  run_in Hr. rewrite Hjson in Hr. run_in Hr. rewrite Hfill in Hr.
  repeat branch Hr; finish res Hr; repeat split; reflexivity.
Qed.

Lemma required_truthy (doc : Document) :
  first_failure (validation_sequence host) doc = None ->
  truthy (value_of doc "lastName") = true
  /\ truthy (value_of doc "gender") = true
  /\ truthy (value_of doc "birthDate") = true.
Proof.
  unfold validation_sequence. cbn [first_failure]. intro H.
  destruct (blank (value_of doc "firstName")) eqn:E1; [discriminate|].
  destruct (blank (value_of doc "lastName")) eqn:E2; [discriminate|].
  destruct (blank (value_of doc "gender")) eqn:E3; [discriminate|].
  destruct (blank (value_of doc "birthDate")) eqn:E4; [discriminate|].
  repeat split; apply blank_false_truthy; assumption.
Qed.

Lemma system_phone : jsstring_eqb (lit "phone") (lit "phone") = true.
Proof. reflexivity. Qed.

Lemma system_email :
  jsstring_eqb (lit "email") (lit "phone") = false
  /\ jsstring_eqb (lit "email") (lit "email") = true.
Proof. split; reflexivity. Qed.

(** X13. What the builder made, the form takes back: when the elements
    of the page hold what they are given, filling a form (whose phone,
    email and address are empty wherever the resource has none) from a
    resource that the builder made of an accepted form, with whatever id,
    gives a form that holds what that form held; the builder accepts
    it and makes the same resource of it. *)
Theorem fill_then_build_round_trip (s : Session) (doc0 : Document)
  (id : option jsstring) :
  (forall field v, stored field v = v) ->
  has_form (document s) ->
  first_failure (validation_sequence host) doc0 = None ->
  (forall field, In field ["phone"; "email"; "address"]%string ->
                 value_of doc0 field = [] ->
                 value_of (document s) field = []) ->
  populateFormWithPatient stored null_error (set_id (assembled doc0) id) s
  = (Normal tt,
     set_document (populated stored (set_id (assembled doc0) id) (document s))
       s, [])
  /\ same_form doc0
       (populated stored (set_id (assembled doc0) id) (document s))
  /\ createPatientResource host
       (set_document
          (populated stored (set_id (assembled doc0) id) (document s)) s)
     = (Normal (Some (assembled doc0)),
        set_document
          (populated stored (set_id (assembled doc0) id) (document s)) s,
        []).
Proof using host stored null_error.
  clear form_reset local_date.
  intros Hplain Hform Hvalid Hempty.
  destruct (required_truthy _ Hvalid) as (Hln & Hg & Hb).
  assert (Hsame :
    same_form doc0
      (populated stored (set_id (assembled doc0) id) (document s))).
  { assert (Hgone : forall field,
              In field ["phone"; "email"; "address"]%string ->
              truthy (value_of doc0 field) = false ->
              value_of doc0 field = []
              /\ value_of (document s) field = []).
    { intros field Hin Hfalse.
      assert (E : value_of doc0 field = [])
        by (destruct (value_of doc0 field); [reflexivity | discriminate]).
      split; [exact E | exact (Hempty field Hin E)]. }
    unfold populated, fill.
    cbn [set_id assembled p_name p_gender p_birthDate p_telecom p_address
         n_given n_family truthy_opt or_empty].
    rewrite Hln, Hg, Hb.
    destruct (truthy (value_of doc0 "phone")) eqn:Tp;
      [|destruct (Hgone "phone"%string) as [Zp Sp]; [cbn; tauto|exact Tp|]];
      (destruct (truthy (value_of doc0 "email")) eqn:Te;
       [|destruct (Hgone "email"%string) as [Ze Se]; [cbn; tauto|exact Te|]]);
      (destruct (truthy (value_of doc0 "address")) eqn:Ta;
       [|destruct (Hgone "address"%string) as [Za Sa];
         [cbn; tauto|exact Ta|]]);
      cbn [app fold_left c_system c_value a_text];
      rewrite ?system_phone, ?(proj1 system_email), ?(proj2 system_email);
      rewrite ?Hplain;
      intros field Hin; unfold value_of at 1; unfold set_value;
      repeat (destruct Hin as [<- | Hin];
              [cbn [String.eqb Ascii.eqb Bool.eqb andb or_empty];
               change (or_empty (document s ?f))
                 with (value_of (document s) f);
               congruence|]);
      destruct Hin. }
  split; [apply populate_fills, Hform|]. split; [exact Hsame|].
  rewrite createPatientResource_outcome. cbn [document set_document].
  destruct (same_form_build host Hsame) as [-> ->]. rewrite Hvalid.
  reflexivity.
Qed.

(** X14. Filling the form writes only what the resource has: a field
    whose datum the resource lacks keeps what it held before, so that
    after a patient without telecom and address is loaded the phone, the
    email and the address of the form are still those typed earlier. *)
Theorem fill_leaves_missing_fields (s : Session) (p : Patient) :
  has_form (document s) ->
  p_telecom p = None -> p_address p = None ->
  populateFormWithPatient stored null_error p s
  = (Normal tt, set_document (populated stored p (document s)) s, [])
  /\ populated stored p (document s) "phone"%string
     = document s "phone"%string
  /\ populated stored p (document s) "email"%string
     = document s "email"%string
  /\ populated stored p (document s) "address"%string
     = document s "address"%string.
Proof.
  intros Hform Ht Ha. split; [apply populate_fills, Hform|].
  unfold populated, fill, set_value. rewrite Ht, Ha.
  destruct (p_name p) as [[|name rest]|];
    try destruct (n_given name) as [[|first others]|];
    try destruct (truthy_opt (n_family name));
    destruct (truthy_opt (p_gender p));
    destruct (truthy_opt (p_birthDate p)); repeat split; reflexivity.
Qed.

(** X15. [clearForm] on a page that has the form resets the form, puts
    the button back to "Create Patient" and clears the selection, and
    then fails: it ends with the TypeError of reading the name of null,
    which nothing catches, and the line "Form cleared" is never logged.
    On a page without the form it does nothing. *)
Theorem clearForm_throws (s : Session) :
  (document s "patientForm"%string <> None ->
   completion (clearForm form_reset null_error s)
   = Throw (null_error "name")
   /\ events (clearForm form_reset null_error s) = []
   /\ selectedPatient (final (clearForm form_reset null_error s)) = None
   /\ submitButton (final (clearForm form_reset null_error s))
      = caption (lit "Create Patient") (submitButton s)
   /\ document (final (clearForm form_reset null_error s))
      = form_reset (document s)
   /\ baseUrl (final (clearForm form_reset null_error s)) = baseUrl s)
  /\ (document s "patientForm"%string = None ->
      clearForm form_reset null_error s = (Normal tt, s, [])).
Proof.
  split.
  - intro H. remember (clearForm form_reset null_error s) as res eqn:Hr.
    unfold clearForm in Hr. rewrite bind_gets in Hr.
    destruct (document s "patientForm"%string); [|congruence].
    repeat branch Hr; finish res Hr; repeat split; reflexivity.
  - intro H. unfold clearForm. rewrite bind_gets, H. reflexivity.
Qed.


End Loading.

(* ------------------------------------------------------------------ *)
(** ** Searching and listing *)

Lemma map_completing_length {A B} (f : A -> Completion B) (l : list A)
  (ys : list B) :
  map_completing f l = Normal ys -> List.length ys = List.length l.
Proof.
  revert ys. induction l as [|x l IH]; intros ys H; cbn in H.
  - injection H as <-. reflexivity.
  - destruct (f x); [|discriminate].
    destruct (map_completing f l); [|discriminate].
    injection H as <-. cbn. f_equal. apply IH. reflexivity.
Qed.

Lemma join_nonempty (sep : jsstring) (l : list jsstring) :
  (exists x, In x l) -> Forall (fun x => x <> []) l -> join sep l <> [].
Proof.
  destruct l as [|x l]; [intros [y []]|]. intros _ H. inversion H; subst.
  cbn [join]. destruct l; [assumption|].
  destruct x; [congruence | discriminate].
Qed.

Section Listed.

Variable host : Host.
Variable undefined_error : string -> jsstring.
Variable toUpperCase : jsstring -> jsstring.
Variable encodeURIComponent : jsstring -> jsstring + jsstring.
Variable json_bundle : Response -> Bundle + jsstring.

(** An entry without a resource stops the listing. *)
Lemma cards_need_resources (entries : list BundleEntry) :
  In {| e_resource := None |} entries ->
  map_completing
    (fun entry =>
       formatPatientDemographics undefined_error toUpperCase (e_resource entry))
    entries
  = Throw (undefined_error "name").
Proof.
  induction entries as [|[[p|]] rest IH]; intro H; cbn.
  - destruct H.
  - destruct H as [H|H]; [discriminate|]. rewrite (IH H). reflexivity.
  - reflexivity.
Qed.

Lemma cards_of_resources (entries : list BundleEntry) :
  Forall (fun entry => e_resource entry <> None) entries ->
  exists cards,
    map_completing
      (fun entry =>
         formatPatientDemographics undefined_error toUpperCase (e_resource entry))
      entries
    = Normal cards
    /\ List.length cards = List.length entries.
Proof.
  induction 1 as [|[[p|]] rest Hx Hrest IH]; cbn.
  - exists []. auto.
  - destruct IH as (cards & -> & Hl). eexists. split; [reflexivity|].
    cbn. f_equal. exact Hl.
  - exfalso. apply Hx. reflexivity.
Qed.

Ltac run_in H :=
  cbv beta zeta iota delta
    [ltry_catch lbind lret lthrow lemit lift lcomplete
     displaySearchResults displayFHIRBundle response_bundle
     try_catch bind ret throw emit gets modify log showError showSuccess
     when_present do_fetch] in H;
  cbn [selectedPatient submitButton document baseUrl patients app negb map]
    in H.

Ltac branch H :=
  run_in H;
  match type of H with
  | context [fetch host ?r] => destruct (fetch host r) eqn:?
  | context [json_bundle ?r] => destruct (json_bundle r) eqn:?
  | context [encodeURIComponent ?t] =>
      destruct (encodeURIComponent t) eqn:?
  | context [map_completing ?f ?l] => destruct (map_completing f l) eqn:?
  | context [match b_entry ?b with _ => _ end] =>
      destruct (b_entry b) as [[|? ?]|] eqn:?
  | context [if ?c then _ else _] =>
      let E := fresh "E" in
      destruct c eqn:E; try solve [vm_compute in E; discriminate E]
  | context [match document ?s ?id with _ => _ end] =>
      destruct (document s id) eqn:?
  end.

Ltac finish r Hr :=
  run_in Hr; subst r;
  cbv beta iota delta [shown after events final completion fst snd];
  cbn [core flat_map app].

(** X17. Searching and listing never touch the session: after
    [searchPatients] and after [getAllPatients] the selection, the server
    URL and the page are what they were, whatever the answer; each sends
    at most one request; and [searchPatients] sends none when the term is
    blank or cannot be encoded. *)
Theorem listing_leaves_session (s : Session) :
  after (searchPatients host undefined_error toUpperCase encodeURIComponent
           json_bundle s) = s
  /\ after (getAllPatients host undefined_error toUpperCase json_bundle s) = s
  /\ (List.length
        (requests
           (core (shown (searchPatients host undefined_error toUpperCase
                            encodeURIComponent json_bundle s)))) <= 1)%nat
  /\ (List.length
        (requests
           (core (shown (getAllPatients host undefined_error toUpperCase
                            json_bundle s)))) <= 1)%nat
  /\ (blank (value_of (document s) "searchTerm") = true
      \/ (exists message,
            encodeURIComponent (value_of (document s) "searchTerm")
            = inr message) ->
      requests
        (core (shown (searchPatients host undefined_error toUpperCase
                         encodeURIComponent json_bundle s))) = []
      /\ failed
           (core (shown (searchPatients host undefined_error toUpperCase
                            encodeURIComponent json_bundle s))) = true).
Proof.
  split; [|split; [|split; [|split]]].
  - remember (searchPatients _ _ _ _ _ s) as res eqn:Hr.
    unfold searchPatients in Hr.
    repeat branch Hr; finish res Hr; reflexivity.
  - remember (getAllPatients _ _ _ _ s) as res eqn:Hr.
    unfold getAllPatients in Hr.
    repeat branch Hr; finish res Hr; reflexivity.
  - remember (searchPatients _ _ _ _ _ s) as res eqn:Hr.
    unfold searchPatients in Hr.
    repeat branch Hr; finish res Hr; cbn; lia.
  - remember (getAllPatients _ _ _ _ s) as res eqn:Hr.
    unfold getAllPatients in Hr.
    repeat branch Hr; finish res Hr; cbn; lia.
  - intros [Hb | [message Hm]].
    + unfold blank in Hb.
      remember (searchPatients _ _ _ _ _ s) as res eqn:Hr.
      unfold searchPatients in Hr. run_in Hr. rewrite Hb in Hr.
      repeat branch Hr; finish res Hr; split; reflexivity.
    + remember (searchPatients _ _ _ _ _ s) as res eqn:Hr.
      unfold searchPatients in Hr. run_in Hr.
      destruct (negb (truthy (trim (value_of (document s) "searchTerm"))));
        run_in Hr; rewrite ?Hm in Hr;
        repeat branch Hr; finish res Hr; split; reflexivity.
Qed.

(** X18. What a search shows, on a page with a results pane and an
    answer that is a bundle: for a bundle without entries, the notice that
    no patients were found, and no error; for entries that all carry a
    resource, one card for each and the line "Displayed n patients"; and
    when an entry carries no resource, no list at all but the error
    "Search failed". *)
Theorem search_shows (s : Session) (term : jsstring) (r : Response)
  (b : Bundle) :
  document s "results"%string <> None ->
  blank (value_of (document s) "searchTerm") = false ->
  encodeURIComponent (value_of (document s) "searchTerm") = inl term ->
  fetch host {| url := baseUrl s ++ lit "/Patient?name=" ++ term;
                method := GET;
                headers := accept_fhir;
                body := None |} = Resolved r ->
  ok r = true -> json_bundle r = inl b ->
  let seen :=
    shown (searchPatients host undefined_error toUpperCase encodeURIComponent
             json_bundle s) in
  (b_entry b = None \/ b_entry b = Some [] ->
   In NoPatientsFound seen /\ failed (core seen) = false)
  /\ (forall entries,
        b_entry b = Some entries -> entries <> [] ->
        Forall (fun entry => e_resource entry <> None) entries ->
        (exists cards,
           In (PatientList cards) seen
           /\ List.length cards = List.length entries)
        /\ In (lit "Displayed "
               ++ Number_toString (Z.of_nat (List.length entries))
               ++ lit " patients") (reported "info" (core seen))
        /\ failed (core seen) = false)
  /\ (forall entries,
        b_entry b = Some entries ->
        In {| e_resource := None |} entries ->
        (forall cards, ~ In (PatientList cards) seen)
        /\ reported "error" (core seen)
           = [lit "ERROR: Search failed: " ++ undefined_error "name"]).
Proof.
  intros Hpane Hb Hterm Hfetch Hok Hjson seen. unfold blank in Hb.
  subst seen.
  remember (searchPatients _ _ _ _ _ s) as res eqn:Hr.
  unfold searchPatients in Hr. run_in Hr. rewrite Hb in Hr.
  run_in Hr. rewrite Hterm in Hr. run_in Hr. rewrite Hfetch in Hr.
  run_in Hr. rewrite Hok in Hr. run_in Hr. rewrite Hjson in Hr.
  run_in Hr.
  destruct (document s "results"%string) as [pane|] eqn:Hresults;
    [clear Hpane | congruence].
  split; [|split].
  - intros [He | He]; rewrite He in Hr;
      repeat branch Hr; finish res Hr; split;
      solve [reflexivity | cbn; tauto].
  - intros entries He Hne Hall. rewrite He in Hr.
    destruct (cards_of_resources Hall) as (cards & Hcards & Hlen).
    destruct entries as [|entry rest]; [congruence|].
    run_in Hr. rewrite Hcards in Hr.
    repeat branch Hr; finish res Hr;
      (split; [exists cards; split; [cbn; tauto | exact Hlen]|]);
      split; solve [reflexivity | cbn; tauto].
  - intros entries He Hin. rewrite He in Hr.
    destruct entries as [|entry rest]; [destruct Hin|].
    run_in Hr. rewrite (cards_need_resources _ Hin) in Hr.
    repeat branch Hr; finish res Hr;
      (split; [|reflexivity]);
      intros cards H; cbn in H;
      repeat (destruct H as [H|H]; [discriminate H|]); exact H.
Qed.

(** X19. A patient card always has a name, a birth date and an id to
    show ("Unknown" for want of one), and its contact line, which lists
    every contact point as "system: value", is empty exactly when the
    resource has no contact point; for an entry without a resource there
    is no card but a TypeError. *)
Theorem card_is_filled (p : Patient) :
  formatPatientDemographics undefined_error toUpperCase None
  = Throw (undefined_error "name")
  /\ exists card,
       formatPatientDemographics undefined_error toUpperCase (Some p)
       = Normal card
       /\ truthy (d_name card) = true
       /\ truthy (d_birthDate card) = true
       /\ truthy (d_id card) = true
       /\ (d_telecom card = [] <->
           p_telecom p = None \/ p_telecom p = Some []).
Proof.
  split; [reflexivity|]. eexists. split; [reflexivity|].
  cbn [d_name d_birthDate d_id d_telecom]. repeat split.
  - unfold getPatientName. destruct (p_name p) as [[|name rest]|];
      try reflexivity.
    destruct (truthy (trim _)) eqn:E; [exact E | reflexivity].
  - destruct (truthy_opt (p_birthDate p)) eqn:E; [|reflexivity].
    destruct (p_birthDate p); [exact E | discriminate].
  - destruct (truthy_opt (p_id p)) eqn:E; [|reflexivity].
    destruct (p_id p); [exact E | discriminate].
  - destruct (p_telecom p) as [[|first rest]|]; auto.
    intro H. exfalso. revert H. apply join_nonempty.
    + eexists. left. reflexivity.
    + apply Forall_forall. intros x Hx. apply in_map_iff in Hx as (t & <- & _).
      intro H. apply app_eq_nil in H as [_ H].
      apply app_eq_nil in H as [H _]. discriminate H.
  - intros [H|H]; rewrite H; reflexivity.
Qed.

End Listed.

(* ------------------------------------------------------------------ *)
(** ** Loading a reply of any shape *)


Lemma bind_complete_throw {A B} (message : jsstring) (f : A -> M B)
  (s : Session) :
  bind (complete (Throw message)) f s = (Throw message, s, []).
Proof. reflexivity. Qed.



Section Replied.

Variable number : Type.
Variable host : Host.
Variable stored : string -> jsstring -> jsstring.
Variable null_error : string -> jsstring.
Variable engine : Engine number.
Variable json_value : Response -> Value number + jsstring.

Lemma own_optional_other {A} (key key' : string) (f : A -> Value number)
  (v : option A) (rest : list (jsstring * Value number)) :
  jsstring_eqb (lit key') (lit key) = false ->
  own (lit key) (optional key' f v ++ rest) = own (lit key) rest.
Proof.
  intro H. destruct v; [|reflexivity].
  unfold own. cbn [optional app find fst]. rewrite H. reflexivity.
Qed.

Lemma own_optional {A} (key : string) (f : A -> Value number)
  (v : option A) (rest : list (jsstring * Value number)) :
  own (lit key) (optional key f v ++ rest)
  = match v with Some a => f a | None => own (lit key) rest end.
Proof.
  destruct v; [|reflexivity].
  unfold own. cbn [optional app find fst].
  unfold jsstring_eqb. destruct (list_eq_dec N.eq_dec (lit key) (lit key));
    [reflexivity | contradiction].
Qed.

Lemma own_optional_last {A} (key : string) (f : A -> Value number)
  (v : option A) :
  own (lit key) (optional key f v)
  = match v with Some a => f a | None => Undefined end.
Proof.
  rewrite <- (app_nil_r (optional key f v)). apply own_optional.
Qed.

Lemma own_optional_last_other {A} (key key' : string)
  (f : A -> Value number) (v : option A) :
  jsstring_eqb (lit key') (lit key) = false ->
  own (lit key) (optional key' f v) = Undefined.
Proof.
  intro H. rewrite <- (app_nil_r (optional key' f v)).
  rewrite own_optional_other by exact H. reflexivity.
Qed.

Ltac look_up :=
  unfold member, Patient_value, HumanName_value;
  repeat first
    [ rewrite own_optional
    | rewrite own_optional_last
    | rewrite own_optional_other by reflexivity
    | rewrite own_optional_last_other by reflexivity ].

Lemma Patient_name (p : Patient) :
  member engine (Patient_value p) "name"
  = Normal (match p_name p with
            | Some names => Array (map HumanName_value names)
            | None => Undefined
            end).
Proof. look_up. reflexivity. Qed.




Lemma Patient_id (p : Patient) :
  member engine (Patient_value p) "id"
  = Normal (match p_id p with
            | Some i => Text i
            | None => Undefined
            end).
Proof. look_up. destruct (p_id p); reflexivity. Qed.



Lemma HumanName_given (name : HumanName) :
  member engine (HumanName_value name) "given"
  = Normal (match n_given name with
            | Some given => Array (map Text given)
            | None => Undefined
            end).
Proof. look_up. reflexivity. Qed.

Lemma HumanName_family (name : HumanName) :
  member engine (HumanName_value name) "family"
  = Normal (match n_family name with
            | Some family => Text family
            | None => Undefined
            end).
Proof. look_up. destruct (n_family name); reflexivity. Qed.

Lemma strings_of_texts (l : list jsstring) :
  map_completing (item_string engine) (map Text l) = Normal l.
Proof.
  induction l as [|x l IH]; [reflexivity|].
  cbn [map map_completing item_string to_string]. rewrite IH. reflexivity.
Qed.

(** The name of a resource, read off its value. *)
Lemma getPatientName_any_resource (p : Patient) :
  getPatientName_any engine (Patient_value p) = Normal (getPatientName p).
Proof.
  unfold getPatientName_any, getPatientName.
  rewrite Patient_name. cbn [and_then].
  destruct (p_name p) as [[|name names]|]; try reflexivity.
  cbn [map present truthy_value has_items and_then first_of].
  rewrite HumanName_given. cbn [and_then].
  rewrite HumanName_family. cbn [and_then].
  destruct (n_given name) as [given|];
    cbn [truthy_value call_join and_then].
  - rewrite strings_of_texts. cbn [and_then].
    destruct (n_family name) as [[|c family]|]; reflexivity.
  - destruct (n_family name) as [[|c family]|]; reflexivity.
Qed.

Lemma selected_line_of_resource (p : Patient) :
  selected_line engine (Patient_value p)
  = Normal (lit "Selected patient set: " ++ getPatientName p
            ++ lit " (ID: " ++ template (p_id p) ++ lit ")").
Proof.
  unfold selected_line. rewrite getPatientName_any_resource, Patient_id.
  cbn [and_then]. destruct (p_id p); reflexivity.
Qed.





End Replied.

Section Reloaded.

Variable number : Type.
Variable host : Host.
Variable stored : string -> jsstring -> jsstring.
Variable null_error : string -> jsstring.
Variable engine : Engine number.
Variable json_value : Response -> Value number + jsstring.

Ltac run_in H :=
  cbv beta zeta iota delta
    [try_catch bind ret throw emit gets modify log showError showSuccess
     when_present displayFHIRResource setSelectedPatient updateSubmitButton
     do_fetch response_json id_request complete
     jtry_catch jbind jret jthrow jemit raise hold setSelectedPatient_any
     displayFHIRReply response_value] in H;
  cbn [selectedPatient submitButton document baseUrl patients
       set_selectedPatient set_document set_submitButton set_baseUrl app
       negb manager held map] in H.

Ltac branch H :=
  run_in H;
  match type of H with
  | context [String.eqb ?a ?b] =>
      let v := eval vm_compute in (String.eqb a b) in
      change (String.eqb a b) with v in H
  | context [fetch host ?r] => destruct (fetch host r) eqn:?
  | context [if ?c then _ else _] =>
      let E := fresh "E" in
      destruct c eqn:E; try solve [vm_compute in E; discriminate E]
  | context [match document ?s ?id with _ => _ end] =>
      destruct (document s id) eqn:?
  | context [match submitButton ?s with _ => _ end] =>
      destruct (submitButton s) eqn:?
  end.



End Reloaded.

Section Unsettled.

Variable number : Type.
Variable host : Host.
Variable stored : string -> jsstring -> jsstring.
Variable null_error : string -> jsstring.
Variable engine : Engine number.
Variable json_value : Response -> Value number + jsstring.

Lemma form_only_complete {A} (c : Completion A) : form_only (complete c).
Proof. intro s. split; [reflexivity | apply same_but_form_refl]. Qed.

Lemma form_only_throw {A} (message : jsstring) :
  form_only (@throw A message).
Proof. intro s. split; [reflexivity | apply same_but_form_refl]. Qed.

Lemma form_only_assign_value (id : string) (v : Value number) :
  In id form_fields ->
  form_only (assign_value stored null_error engine id v).
Proof.
  intros Hid s. unfold assign_value. rewrite bind_gets.
  destruct (document s id) eqn:E.
  - unfold bind, complete, modify.
    destruct (match v with
              | Null => Normal (null_text engine id)
              | _ => to_string engine v
              end) as [text|message].
    + split; [reflexivity|]. cbn. unfold same_but_form. cbn.
      repeat split; try reflexivity; unfold set_value.
      * destruct (String.eqb_spec id0 id); [discriminate | auto].
      * destruct (String.eqb_spec id0 id); [subst; congruence | auto].
      * intros id' Hn. destruct (String.eqb_spec id' id);
          [subst; contradiction | reflexivity].
    + split; [reflexivity | apply same_but_form_refl].
  - split; [reflexivity | apply same_but_form_refl].
Qed.

(** Whatever the reply and the page, filling the form shows nothing and
    changes at most what the fields of the form hold. *)
Lemma populate_of_form_only (v : Value number) :
  form_only (populateFormWithPatient_any stored null_error engine v).
Proof.
  unfold populateFormWithPatient_any.
  repeat first
    [ apply form_only_assign_value; cbn; tauto
    | apply form_only_complete
    | apply form_only_throw
    | apply form_only_ret
    | apply form_only_bind; [|intro; cbv beta]
    | apply form_only_forEach; intro
    | apply form_only_if
    | match goal with
      | |- form_only (match ?x with _ => _ end) => destruct x
      | |- form_only (if ?x then _ else _) => destruct x
      end ].
Qed.


Lemma selected_line_named (v : Value number) (line : jsstring) :
  selected_line engine v = Normal line ->
  exists name, getPatientName_any engine v = Normal name.
Proof.
  unfold selected_line.
  destruct (getPatientName_any engine v) as [name|message];
    [eexists; reflexivity | discriminate].
Qed.

Ltac run_in H :=
  cbv beta zeta iota delta
    [try_catch bind ret throw emit gets modify log showError showSuccess
     when_present displayFHIRResource setSelectedPatient updateSubmitButton
     do_fetch response_json id_request complete
     jtry_catch jbind jret jthrow jemit raise hold setSelectedPatient_any
     displayFHIRReply response_value] in H;
  cbn [selectedPatient submitButton document baseUrl patients
       set_selectedPatient set_document set_submitButton set_baseUrl app
       negb manager held map] in H.

Ltac branch H :=
  run_in H;
  match type of H with
  | context [String.eqb ?a ?b] =>
      let v := eval vm_compute in (String.eqb a b) in
      change (String.eqb a b) with v in H
  | context [fetch host ?r] => destruct (fetch host r) eqn:?
  | context [json_value ?r] => destruct (json_value r) eqn:?
  | context [populateFormWithPatient_any stored null_error engine ?v ?s0] =>
      let c := fresh "c" in
      let s1 := fresh "s" in
      let e1 := fresh "e" in
      let He := fresh "He" in
      let Hs := fresh "Hs" in
      let Hp := fresh "Hp" in
      destruct (populate_of_form_only v s0) as [He Hs];
      destruct (populateFormWithPatient_any stored null_error engine v s0)
        as [[c s1] e1] eqn:Hp;
      cbn [events final fst snd] in He, Hs; subst e1;
      destruct Hs as (? & ? & ? & ? & ? & ?); destruct c as [[]|]
  | context [selected_line engine ?v] =>
      let line := fresh "line" in
      let El := fresh "El" in
      let name := fresh "name" in
      let En := fresh "En" in
      destruct (selected_line engine v) as [line|] eqn:El;
      [destruct (selected_line_named v El) as [name En]; rewrite En in H|]
  | context [if ?c then _ else _] =>
      let E := fresh "E" in
      destruct c eqn:E; try solve [vm_compute in E; discriminate E]
  | context [match document ?s ?id with _ => _ end] =>
      destruct (document s id) eqn:?
  | context [match submitButton ?s with _ => _ end] =>
      destruct (submitButton s) eqn:?
  end.

Lemma load_of_paths (s : Session) :
  let run := loadPatientForUpdate_any host stored null_error engine json_value
               {| manager := s; held := None |} in
  selectedPatient (manager (loaded run)) = selectedPatient s
  /\ (List.length (requests (ordinary (displayed run))) <= 1)%nat
  /\ (failed (ordinary (displayed run)) = true ->
      held (loaded run) = None
      \/ exists r v message,
           fetch host (id_request GET "updatePatientId" s) = Resolved r
           /\ ok r = true
           /\ json_value r = inl v
           /\ held (loaded run) = Some v
           /\ completion
                (populateFormWithPatient_any stored null_error engine v s)
              = Normal tt
           /\ selected_line engine v = Throw message
           /\ reported "error" (ordinary (displayed run))
              = [lit "ERROR: Failed to load patient: " ++ message])
  /\ (failed (ordinary (displayed run)) = false ->
      held (loaded run) <> None ->
      reported "success" (ordinary (displayed run)) <> []).
Proof.
  intro run. subst run.
  remember (loadPatientForUpdate_any host stored null_error engine json_value
              {| manager := s; held := None |}) as any eqn:Ha.
  unfold loadPatientForUpdate_any in Ha.
  repeat branch Ha.
  all: run_in Ha; subst any.
  all: cbv beta iota delta [outcome loaded displayed fst snd].
  all: cbn [manager held selectedPatient set_selectedPatient
            set_submitButton].
  all: try solve [exfalso; congruence].
  all: split; [congruence|].
  all: split; [cbn; lia|].
  all: split; intro Hf.
  all: try solve [left; reflexivity].
  all: try solve [exfalso; vm_compute in Hf; discriminate Hf].
  all: try solve [intro Hn; exfalso; apply Hn; reflexivity].
  all: try solve [intros _; cbn; discriminate].
  all: right; do 3 eexists; repeat split; try eassumption; try reflexivity.
  all: match goal with
       | Hp : populateFormWithPatient_any _ _ _ _ _ = _ |- _ =>
           rewrite Hp; reflexivity
       end.
Qed.



Lemma load_of_blank (s : Session) :
  blank (value_of (document s) "updatePatientId") = true ->
  loadPatientForUpdate_any host stored null_error engine json_value
    {| manager := s; held := None |}
  = (Normal tt, {| manager := s; held := None |},
     map (@Plain number)
       (error_shown (document s)
          (lit "Please enter a patient ID to update"))).
Proof.
  intro Hb. unfold blank in Hb.
  remember (loadPatientForUpdate_any host stored null_error engine json_value
              {| manager := s; held := None |}) as any eqn:Ha.
  unfold loadPatientForUpdate_any in Ha.
  run_in Ha. rewrite Hb in Ha.
  repeat branch Ha.
  all: run_in Ha; subst any; unfold error_shown.
  all: match goal with
       | E : document _ _ = _ |- _ => rewrite E; reflexivity
       end.
Qed.

Lemma load_of_replaced (s : Session) (r : Response) (v : Value number)
  (message : jsstring) :
  blank (value_of (document s) "updatePatientId") = false ->
  fetch host (id_request GET "updatePatientId" s) = Resolved r ->
  ok r = true ->
  json_value r = inl v ->
  completion (populateFormWithPatient_any stored null_error engine v s)
  = Normal tt ->
  selected_line engine v = Throw message ->
  let run := loadPatientForUpdate_any host stored null_error engine json_value
               {| manager := s; held := None |} in
  held (loaded run) = Some v
  /\ failed (ordinary (displayed run)) = true
  /\ reported "error" (ordinary (displayed run))
     = [lit "ERROR: Failed to load patient: " ++ message]
  /\ reported "success" (ordinary (displayed run)) = []
  /\ document (manager (loaded run))
     = document
         (final (populateFormWithPatient_any stored null_error engine v s)).
Proof.
  intros Hb Hfetch Hok Hj Hpop Hline run. subst run.
  unfold blank in Hb. unfold id_request in Hfetch.
  remember (loadPatientForUpdate_any host stored null_error engine json_value
              {| manager := s; held := None |}) as any eqn:Ha.
  unfold loadPatientForUpdate_any in Ha.
  repeat (run_in Ha; rewrite ?Hb, ?Hfetch, ?Hok, ?Hj, ?Hline in Ha;
          branch Ha).
  all: run_in Ha; rewrite ?Hb, ?Hfetch, ?Hok, ?Hj, ?Hline in Ha;
    run_in Ha; subst any.
  all: cbv beta iota delta [outcome loaded displayed fst snd].
  all: cbn [manager held document].
  all: try solve [exfalso; congruence].
  all: unfold completion in Hpop; cbn [fst] in Hpop; try discriminate Hpop.
  all: repeat split; reflexivity.
Qed.

Lemma load_of_resource_kept (s : Session) (r : Response) (p : Patient) :
  fetch host (id_request GET "updatePatientId" s) = Resolved r ->
  json_value r = inl (Patient_value p) ->
  let run := loadPatientForUpdate_any host stored null_error engine json_value
               {| manager := s; held := None |} in
  failed (ordinary (displayed run)) = true -> held (loaded run) = None.
Proof.
  intros Hfetch Hj run Hf.
  destruct (load_of_paths s) as (_ & _ & Hfailed & _).
  destruct (Hfailed Hf) as [Hnone|(r' & v & message & Hf' & _ & Hj' & _ & _
                                   & Hline & _)];
    [exact Hnone|].
  exfalso. rewrite Hfetch in Hf'. injection Hf' as <-.
  rewrite Hj in Hj'. injection Hj' as <-.
  rewrite selected_line_of_resource in Hline. discriminate Hline.
Qed.


(** X11. What a load that fails does to the selection, whatever the
    server answers.  [loadPatientForUpdate] sends at most one request,
    and for a blank id only shows the error.  When it shows an error, the
    selection is either untouched or already replaced by the reply; it is
    replaced exactly when the reply is one that the form could be filled
    from and whose line for the log could not be made (a given name that
    is a string has no [join]): [setSelectedPatient] assigns before it
    reads the name.  The form then holds what was filled in, and no
    success is shown.  For a reply that is a resource the selection is
    untouched by every failure; and a selection replaced without an
    error comes with a success shown. *)
Theorem load_failure_and_selection (s : Session) :
  let run := loadPatientForUpdate_any host stored null_error engine json_value
               {| manager := s; held := None |} in
  (List.length (requests (ordinary (displayed run))) <= 1)%nat
  /\ (blank (value_of (document s) "updatePatientId") = true ->
      run = (Normal tt, {| manager := s; held := None |},
             map (@Plain number)
               (error_shown (document s)
                  (lit "Please enter a patient ID to update"))))
  /\ (failed (ordinary (displayed run)) = true ->
      held (loaded run) = None
      \/ exists r v message,
           fetch host (id_request GET "updatePatientId" s) = Resolved r
           /\ ok r = true
           /\ json_value r = inl v
           /\ held (loaded run) = Some v
           /\ completion
                (populateFormWithPatient_any stored null_error engine v s)
              = Normal tt
           /\ selected_line engine v = Throw message
           /\ reported "error" (ordinary (displayed run))
              = [lit "ERROR: Failed to load patient: " ++ message])
  /\ (forall r v message,
        blank (value_of (document s) "updatePatientId") = false ->
        fetch host (id_request GET "updatePatientId" s) = Resolved r ->
        ok r = true ->
        json_value r = inl v ->
        completion (populateFormWithPatient_any stored null_error engine v s)
        = Normal tt ->
        selected_line engine v = Throw message ->
        held (loaded run) = Some v
        /\ failed (ordinary (displayed run)) = true
        /\ reported "error" (ordinary (displayed run))
           = [lit "ERROR: Failed to load patient: " ++ message]
        /\ reported "success" (ordinary (displayed run)) = []
        /\ document (manager (loaded run))
           = document
               (final (populateFormWithPatient_any stored null_error engine
                         v s)))
  /\ (forall r p,
        fetch host (id_request GET "updatePatientId" s) = Resolved r ->
        json_value r = inl (Patient_value p) ->
        failed (ordinary (displayed run)) = true ->
        held (loaded run) = None)
  /\ (failed (ordinary (displayed run)) = false ->
      held (loaded run) <> None ->
      reported "success" (ordinary (displayed run)) <> [])
  /\ selectedPatient (manager (loaded run)) = selectedPatient s.
Proof.
  intro run. subst run.
  destruct (load_of_paths s) as (Hsession & Hrequests & Hfailed & Hshown).
  split; [exact Hrequests|].
  split; [apply load_of_blank|].
  split; [exact Hfailed|].
  split; [intros r v message; apply load_of_replaced|].
  split; [intros r p; apply load_of_resource_kept|].
  split; [exact Hshown | exact Hsession].
Qed.

End Unsettled.

(* ------------------------------------------------------------------ *)
(** ** The properties at work *)

(** The email " ada@example.org " is let through: it has one @ and no
    white space once trimmed. *)
Lemma email_rule_witness :
  count_occ N.eq_dec (trim (value_of (document padded_email) "email")) 64%N
  = 1%nat
  /\ forallb visible (trim (value_of (document padded_email) "email")) = true.
Proof.
  destruct (@email_rule offline_host padded_email eq_refl eq_refl)
    as [_ Hthrough].
  apply Hthrough. exists (assembled (document padded_email)). reflexivity.
Defined.

(** With a host that reads "Dec 10, 1815", the form with gender "Female"
    and that birth date is accepted, and the validator reports both on the
    resource made of it. *)
Lemma built_resource_validation_witness :
  errors (validatePatientResource (assembled (document loose_form)))
  = [lit "Invalid gender value";
     lit "Birth date must be in YYYY-MM-DD format"].
Proof.
  destruct (@built_resource_validation lenient_host loose_form
              (ex_intro _ (assembled (document loose_form)) eq_refl))
    as [Herrors _].
  exact Herrors.
Defined.

(** The name of the resource made of Ada's form. *)
Lemma getPatientName_presentable_witness :
  getPatientName (assembled (document creating_ada)) = lit "Ada Lovelace".
Proof.
  destruct (@getPatientName_presentable offline_host creating_ada ada_stored)
    as (_ & _ & Hname).
  exact (Hname (ex_intro _ (assembled (document creating_ada)) eq_refl)).
Defined.

(** Of two slashes at the end of the URL typed, one stays. *)
Lemma updateServerUrl_effect_witness :
  baseUrl (final (updateServerUrl two_slashes))
  = lit "https://hapi.fhir.org/baseR4/".
Proof.
  destruct (updateServerUrl_effect two_slashes) as [Hslash _].
  rewrite (Hslash (lit "https://hapi.fhir.org/baseR4/") eq_refl).
  reflexivity.
Defined.

(** With the stored Ada selected the update goes to Patient/42; with a
    resource without id selected it goes to Patient/undefined. *)
Lemma update_targets_selected_id_witness :
  map url (requests (events (updateSelectedPatient offline_host editing_ada)))
  = [lit "https://fhir.example.org/baseR4/Patient/42"]
  /\ map url (requests (events (updateSelectedPatient offline_host
                                  editing_unsaved)))
     = [lit "https://fhir.example.org/baseR4/Patient/undefined"].
Proof.
  split.
  - destruct (@update_targets_selected_id offline_host editing_ada ada_stored
                eq_refl
                (ex_intro _ (assembled (document editing_ada)) eq_refl))
      as [Hrequest _].
    rewrite Hrequest. reflexivity.
  - destruct (@update_targets_selected_id offline_host editing_unsaved
                (assembled (page ada_fields)) eq_refl
                (ex_intro _ (assembled (document editing_unsaved)) eq_refl))
      as [_ Hundefined].
    exact (Hundefined eq_refl).
Defined.

(** Ada's form sent to a server that stores her under 42. *)
Lemma create_selects_stored_witness :
  selectedPatient (final (createPatient serving_ada creating_ada))
  = Some ada_stored
  /\ reported "success" (events (createPatient serving_ada creating_ada))
     = [lit "SUCCESS: Patient created successfully: Ada Lovelace (ID: 42)"].
Proof.
  destruct (@create_selects_stored serving_ada creating_ada ada_answer
              ada_stored
              (ex_intro _ (assembled (document creating_ada)) eq_refl)
              eq_refl eq_refl eq_refl)
    as (_ & _ & Hselected & _ & _ & Hline).
  split; [exact Hselected | exact Hline].
Defined.

(** After Ada is stored under 42, the update is a PUT to Patient/42. *)
Lemma create_then_update_witness :
  map url (requests (events (updateSelectedPatient serving_ada
                               (final (createPatient serving_ada
                                         creating_ada)))))
  = [lit "https://fhir.example.org/baseR4/Patient/42"].
Proof.
  rewrite (@create_then_update serving_ada creating_ada ada_answer ada_stored
             (ex_intro _ (assembled (document creating_ada)) eq_refl)
             eq_refl eq_refl eq_refl).
  reflexivity.
Defined.

(** A delete of id 7 that the user declines leaves the session alone. *)
Lemma delete_asks_first_witness :
  final (deletePatient declining_host deleting_7) = deleting_7
  /\ requests (events (deletePatient declining_host deleting_7)) = [].
Proof.
  destruct (delete_asks_first declining_host deleting_7)
    as (_ & Hdeclined & _).
  rewrite (Hdeclined eq_refl eq_refl). split; reflexivity.
Defined.


(** Loading 42 into the emptied form selects Ada and fills her in. *)
Lemma load_selects_and_fills_witness :
  selectedPatient
    (final (loadPatientForUpdate serving_ada plain v8_null_error
              loading_blank))
  = Some ada_stored
  /\ value_of
       (document (final (loadPatientForUpdate serving_ada plain
                           v8_null_error loading_blank))) "firstName"
     = lit "Ada".
Proof.
  assert (Hform : has_form (document loading_blank)).
  { intros id Hid.
    repeat (destruct Hid as [<-|Hid]; [discriminate|]). destruct Hid. }
  destruct (@load_selects_and_fills serving_ada plain v8_null_error
              loading_blank ada_answer ada_stored Hform
              eq_refl eq_refl eq_refl eq_refl)
    as (_ & Hselected & Hdocument & _).
  rewrite Hselected, Hdocument. split; reflexivity.
Defined.

(** The resource made of Ada's form, stored under 42 and filled into the
    emptied form, is made again of what the form then holds. *)
Lemma fill_then_build_round_trip_witness :
  createPatientResource offline_host
    (set_document
       (populated plain (set_id (assembled (page ada_fields))
                           (Some (lit "42"))) blank_page) loading_blank)
  = (Normal (Some (assembled (page ada_fields))),
     set_document
       (populated plain (set_id (assembled (page ada_fields))
                           (Some (lit "42"))) blank_page) loading_blank,
     []).
Proof.
  assert (Hform : has_form (document loading_blank)).
  { intros id Hid.
    repeat (destruct Hid as [<-|Hid]; [discriminate|]). destruct Hid. }
  assert (Hempty : forall field,
             In field ["phone"; "email"; "address"]%string ->
             value_of (page ada_fields) field = [] ->
             value_of (document loading_blank) field = []).
  { intros field Hin _.
    repeat (destruct Hin as [<-|Hin]; [reflexivity|]). destruct Hin. }
  destruct (@fill_then_build_round_trip offline_host plain v8_null_error
              loading_blank (page ada_fields) (Some (lit "42"))
              (fun _ _ => eq_refl) Hform eq_refl Hempty)
    as (_ & _ & Hbuilt).
  exact Hbuilt.
Defined.

(** Ada, who has no phone, filled into the form Grace Hopper left: the
    first name is now Ada's, the phone is still Grace's. *)
Lemma fill_leaves_missing_fields_witness :
  value_of (populated plain ada_stored stale_page) "firstName" = lit "Ada"
  /\ populated plain ada_stored stale_page "phone"%string
     = Some (lit "+1 555 0100").
Proof.
  assert (Hform : has_form (document loading_stale)).
  { intros id Hid.
    repeat (destruct Hid as [<-|Hid]; [discriminate|]). destruct Hid. }
  destruct (@fill_leaves_missing_fields plain v8_null_error loading_stale
              ada_stored Hform eq_refl eq_refl)
    as (_ & Hphone & _).
  split; [reflexivity | exact Hphone].
Defined.

(** Clearing the form while Ada is selected ends in the TypeError. *)
Lemma clearForm_throws_witness :
  completion (clearForm emptied v8_null_error
                (session_on blank_page (Some ada_stored)))
  = Throw (lit "Cannot read properties of null (reading 'name')")
  /\ selectedPatient
       (final (clearForm emptied v8_null_error
                 (session_on blank_page (Some ada_stored)))) = None.
Proof.
  destruct (clearForm_throws emptied v8_null_error
              (session_on blank_page (Some ada_stored))) as [Hform _].
  assert (Hhas : document (session_on blank_page (Some ada_stored))
                   "patientForm"%string <> None) by discriminate.
  destruct (Hform Hhas) as (Hthrown & _ & Hselected & _).
  split; [exact Hthrown | exact Hselected].
Defined.


(** A search for two spaces sends nothing and shows an error. *)
Lemma listing_leaves_session_witness :
  requests
    (core (shown (searchPatients answering_ok v8_undefined_error ascii_upper
                    plain_encoder (bundles empty_bundle)
                    (searching_for (lit "  "))))) = []
  /\ after (searchPatients answering_ok v8_undefined_error ascii_upper
              plain_encoder (bundles empty_bundle)
              (searching_for (lit "  ")))
     = searching_for (lit "  ").
Proof.
  destruct (listing_leaves_session answering_ok v8_undefined_error
              ascii_upper plain_encoder (bundles empty_bundle)
              (searching_for (lit "  ")))
    as (Hsame & _ & _ & _ & Hblank).
  destruct (Hblank (or_introl eq_refl)) as [Hnone _].
  split; [exact Hnone | exact Hsame].
Defined.

(** A search for Lovelace: an empty bundle gives the notice, a bundle with
    an entry that carries no resource gives the error and no list. *)
Lemma search_shows_witness :
  In NoPatientsFound
    (shown (searchPatients answering_ok v8_undefined_error ascii_upper
              plain_encoder (bundles empty_bundle)
              (searching_for (lit "Lovelace"))))
  /\ reported "error"
       (core (shown (searchPatients answering_ok v8_undefined_error
                       ascii_upper plain_encoder (bundles hollow_bundle)
                       (searching_for (lit "Lovelace")))))
     = [lit "ERROR: Search failed: "
        ++ lit "Cannot read properties of undefined (reading 'name')"].
Proof.
  split.
  - destruct (@search_shows answering_ok v8_undefined_error ascii_upper
                plain_encoder (bundles empty_bundle)
                (searching_for (lit "Lovelace")) (lit "Lovelace")
                (response_with 200 (lit "OK") (inr (lit "Unexpected token")))
                empty_bundle ltac:(discriminate) eq_refl eq_refl eq_refl
                eq_refl eq_refl) as [Hempty _].
    apply (Hempty (or_intror eq_refl)).
  - destruct (@search_shows answering_ok v8_undefined_error ascii_upper
                plain_encoder (bundles hollow_bundle)
                (searching_for (lit "Lovelace")) (lit "Lovelace")
                (response_with 200 (lit "OK") (inr (lit "Unexpected token")))
                hollow_bundle ltac:(discriminate) eq_refl eq_refl eq_refl
                eq_refl eq_refl) as (_ & _ & Hhollow).
    destruct (Hhollow _ eq_refl (or_intror (or_introl eq_refl)))
      as [_ Herror].
    exact Herror.
Defined.

(** With Ada selected, loading a reply whose given name is the string
    "Ada": the first name field takes the letter A, the reply is put in
    the selection, and then the load fails, for a string has no join.
    Loading the stored Ada into a page without a gender field fails as
    well, and leaves the selection alone. *)
Lemma load_failure_and_selection_witness :
  (held (loaded reloaded_given_as_text) = Some given_as_text
   /\ failed (ordinary (displayed reloaded_given_as_text)) = true
   /\ reported "error" (ordinary (displayed reloaded_given_as_text))
      = [lit "ERROR: Failed to load patient: "
         ++ lit "name.given.join is not a function"]
   /\ value_of (document (manager (loaded reloaded_given_as_text)))
        "firstName"
      = lit "A")
  /\ (failed (ordinary (displayed loaded_without_gender)) = true
      /\ held (loaded loaded_without_gender) = None).
Proof.
  split.
  - destruct (load_failure_and_selection answering_ok plain v8_null_error
                example_engine (replying given_as_text) reloading)
      as (_ & _ & _ & Hreplaced & _).
    destruct (Hreplaced
                (response_with 200 (lit "OK") (inr (lit "Unexpected token")))
                given_as_text (lit "name.given.join is not a function")
                eq_refl eq_refl eq_refl eq_refl eq_refl eq_refl)
      as (Hheld & Hfailed & Herror & _ & Hdocument).
    split; [exact Hheld|]. split; [exact Hfailed|]. split; [exact Herror|].
    unfold reloaded_given_as_text. rewrite Hdocument. reflexivity.
  - destruct (load_failure_and_selection serving_ada plain v8_null_error
                example_engine resources loading_without_gender)
      as (_ & _ & _ & _ & Hresource & _).
    split; [reflexivity|].
    exact (Hresource ada_answer ada_stored eq_refl eq_refl eq_refl).
Defined.

